(** * Bot creator backend: storage, Telegram lifecycle, completion and
      source-hosting gateways, and the HTTP handlers built on them.

    Shallow embedding of
      - shared/schema.ts                  (Bot, BotMessage, Project, File and
                                           their inserts)
      - server/storage.ts                 (MemStorage)
      - server/routes.ts                  (the handlers for /api/bots...,
                                           /api/ai/... and the project sync,
                                           and below them class
                                           TelegramService)
      - server/services/githubService.ts  (GitHubService, and below it
                                           class OpenAIService)
      - server/services/fileService.ts    (FileService)

    Asynchronous code is modelled as run-to-completion state passing: every
    operation is a function from the process state to an outcome and a new
    state.  Calls that leave the process (Telegram, the completion service,
    the source-hosting API) are appended to a log kept in the state, and
    their results come from an environment record.  Console output is not
    modelled. *)

From Stdlib Require Import ZArith QArith String Ascii List Lia.
From stdpp Require Import gmap strings list fin_maps.

Open Scope string_scope.
Open Scope Z_scope.

(** ** JavaScript values and the builtins the code relies on *)

Module Js.

(** Numbers.  Finite numbers are kept as exact rationals in lowest terms:
    the code only parses, passes on and compares them, so the rounding to
    binary64 is left out; [-0] is identified with [0]. *)
Inductive Num : Type :=
| NaN
| Infinity (negative : bool)
| Fin (q : Q).

Definition of_Z (z : Z) : Num := Fin (inject_Z z).

(** Strings are sequences of 8-bit code units. *)
Definition code (c : ascii) : Z := Z.of_nat (nat_of_ascii c).

(** StrWhiteSpaceChar restricted to 8-bit code units: TAB, LF, VT, FF, CR,
    SP and NBSP. *)
Definition is_whitespace (c : ascii) : bool :=
  let n := code c in
  ((9 <=? n) && (n <=? 13)) || (n =? 32) || (n =? 160).

Fixpoint trim_start (s : string) : string :=
  match s with
  | String c rest => if is_whitespace c then trim_start rest else s
  | EmptyString => s
  end.

(** Value of a character as a digit, whatever the radix. *)
Definition digit_of (c : ascii) : option Z :=
  let n := code c in
  if (48 <=? n) && (n <=? 57) then Some (n - 48)
  else if (97 <=? n) && (n <=? 122) then Some (n - 87)
  else if (65 <=? n) && (n <=? 90) then Some (n - 55)
  else None.

Definition digit_in (radix : Z) (c : ascii) : option Z :=
  match digit_of c with
  | Some d => if d <? radix then Some d else None
  | None => None
  end.

(** Longest prefix of radix-[radix] digits, and what follows it. *)
Fixpoint span_digits (radix : Z) (s : string) : list Z * string :=
  match s with
  | String c rest =>
      match digit_in radix c with
      | Some d => let '(ds, tl) := span_digits radix rest in (d :: ds, tl)
      | None => ([], s)
      end
  | EmptyString => ([], s)
  end.

Definition digits_value (radix : Z) (ds : list Z) : Z :=
  fold_left (fun acc d => acc * radix + d) ds 0.

Definition strip_sign (s : string) : Z * string :=
  match s with
  | String "-" rest => (-1, rest)
  | String "+" rest => (1, rest)
  | _ => (1, s)
  end.

Definition strip_hex_prefix (s : string) : Z * string :=
  match s with
  | String "0" (String "x" rest) => (16, rest)
  | String "0" (String "X" rest) => (16, rest)
  | _ => (10, s)
  end.

(** [parseInt(string)] with no radix argument. *)
Definition parseInt (input : string) : Num :=
  let '(sign, s) := strip_sign (trim_start input) in
  let '(radix, s) := strip_hex_prefix s in
  match span_digits radix s with
  | ([], _) => NaN
  | (ds, _) => of_Z (sign * digits_value radix ds)
  end.

(** Optional exponent part of a decimal literal: [e], an optional sign
    and at least one digit; anything else is not part of the number. *)
Definition exponent_part (s : string) : Z :=
  match s with
  | String c rest =>
      if (code c =? 101) || (code c =? 69) then
        let '(sign, rest) := strip_sign rest in
        match span_digits 10 rest with
        | ([], _) => 0
        | (ds, _) => sign * digits_value 10 ds
        end
      else 0
  | EmptyString => 0
  end.

Definition scale10 (m e : Z) : Q := Qred (inject_Z m * Qpower (10 # 1) e).

(** [parseFloat(string)]: the longest prefix that is a StrDecimalLiteral. *)
Definition parseFloat (input : string) : Num :=
  let '(sign, s) := strip_sign (trim_start input) in
  if String.prefix "Infinity" s then Infinity (sign <? 0)
  else
    let '(ip, after_ip) := span_digits 10 s in
    let '(fp, after_fp) :=
      match after_ip with
      | String "." rest => span_digits 10 rest
      | _ => ([], after_ip)
      end in
    match (ip ++ fp)%list with
    | [] => NaN
    | ds =>
        let e := exponent_part after_fp in
        Fin (scale10 (sign * digits_value 10 ds) (e - Z.of_nat (length fp)))
    end.

(** ToIntegerOrInfinity, with the infinities kept apart. *)
Inductive IntOrInf : Type := NegInf | PosInf | Int (z : Z).

Definition to_integer_or_infinity (n : Num) : IntOrInf :=
  match n with
  | NaN => Int 0
  | Infinity true => NegInf
  | Infinity false => PosInf
  | Fin q => Int (Z.quot (Qnum q) (Z.pos (Qden q)))
  end.

(** Relative index clamped to [0, len], as [Array.prototype.slice]
    computes it for either of its arguments. *)
Definition clamp_index (len : Z) (n : Num) : Z :=
  match to_integer_or_infinity n with
  | NegInf => 0
  | PosInf => len
  | Int z => if z <? 0 then Z.max (len + z) 0 else Z.min z len
  end.

(** [arr.slice(start, end)]; [end_ = None] is an omitted argument. *)
Definition slice {A} (arr : list A) (start : Num) (end_ : option Num) : list A :=
  let len := Z.of_nat (length arr) in
  let k := clamp_index len start in
  let final := match end_ with
               | None => len
               | Some e => clamp_index len e
               end in
  take (Z.to_nat (final - k)) (drop (Z.to_nat k) arr).

(** [arr.sort(compare)].  The language requires the sort to be stable, and
    every stable sort agrees on a consistent comparator; insertion from the
    right is the simplest one.  An element moves right past those it
    compares strictly greater than. *)
Fixpoint sort_insert {A} (compare : A -> A -> Z) (x : A) (sorted : list A) : list A :=
  match sorted with
  | [] => [x]
  | y :: rest =>
      if 0 <? compare x y then y :: sort_insert compare x rest
      else x :: sorted
  end.

Definition sort {A} (compare : A -> A -> Z) (arr : list A) : list A :=
  fold_right (sort_insert compare) [] arr.

(** Truthiness of a string and of a nullable string. *)
Definition truthy_string (s : string) : bool := negb (String.eqb s "").

Definition truthy_opt (o : option string) : bool :=
  match o with
  | Some s => truthy_string s
  | None => false
  end.

(** [a || b] on a nullable string with a string default. *)
Definition or_default (o : option string) (d : string) : string :=
  match o with
  | Some s => if truthy_string s then s else d
  | None => d
  end.

(** [a || null] *)
Definition or_null (o : option string) : option string :=
  match o with
  | Some s => if truthy_string s then Some s else None
  | None => None
  end.

(** Dynamically typed values, for the places where the code passes a value
    of one shape to a function written for another. *)
#[warnings="-register-all"]
Inductive Val : Type :=
| Undefined
| Null
| Bool (b : bool)
| Number (n : Num)
| Str (s : string)
| Arr (items : list Val)
| Obj (fields : list (string * Val)).

Inductive Error : Type :=
| TypeError (what : string)
| Err (message : string)
| ZodError.

Fixpoint field (name : string) (fields : list (string * Val)) : Val :=
  match fields with
  | [] => Undefined
  | (k, v) :: rest => if String.eqb k name then v else field name rest
  end.

(** [v.name] for the property names the services read ([message],
    [systemPrompt], [history], [model], [temperature], [maxTokens]); none
    of them exists on a string, number, boolean or array.  Reading a
    property of [undefined] or [null] throws. *)
Definition get (v : Val) (name : string) : Val + Error :=
  match v with
  | Undefined | Null => inr (TypeError ("Cannot read properties (reading " ++ name ++ ")"))
  | Obj fields => inl (field name fields)
  | _ => inl Undefined
  end.

(** [...v] inside an array literal: arrays and strings are iterable,
    anything else throws. *)
Definition spread (v : Val) : list Val + Error :=
  match v with
  | Arr items => inl items
  | Str s => inl (map (fun c => Str (String c EmptyString)) (list_ascii_of_string s))
  | _ => inr (TypeError "value is not iterable")
  end.

End Js.

(** ** Data model (shared/schema.ts) *)

(** [Bot = typeof bots.$inferSelect]: nullable columns are options, times
    are milliseconds since the epoch. *)
Record Bot : Type := mkBot {
  bot_id : string;
  bot_name : string;
  bot_description : option string;
  bot_username : string;
  telegramToken : string;
  gptModel : string;
  personality : option string;
  temperature : option string;
  maxTokens : option string;
  isActive : option bool;
  bot_createdAt : option Z;
  bot_userId : option string
}.

(** [InsertBot]: the columns with a default or without [notNull] may be
    left out. *)
Record InsertBot : Type := mkInsertBot {
  ins_name : string;
  ins_description : option string;
  ins_username : string;
  ins_telegramToken : string;
  ins_gptModel : option string;
  ins_personality : option string;
  ins_temperature : option string;
  ins_maxTokens : option string;
  ins_isActive : option bool
}.

(** [Partial<Bot>]: [None] is a key that is not in the object. *)
Record BotPatch : Type := mkBotPatch {
  p_id : option string;
  p_name : option string;
  p_description : option (option string);
  p_username : option string;
  p_telegramToken : option string;
  p_gptModel : option string;
  p_personality : option (option string);
  p_temperature : option (option string);
  p_maxTokens : option (option string);
  p_isActive : option (option bool);
  p_createdAt : option (option Z);
  p_userId : option (option string)
}.

Definition no_patch : BotPatch :=
  mkBotPatch None None None None None None None None None None None None.

(** The object literal [{ isActive: b }]. *)
Definition patch_isActive (b : bool) : BotPatch :=
  mkBotPatch None None None None None None None None None (Some (Some b)) None None.

(** [{ ...bot, ...updates }] *)
Definition apply_patch (bot : Bot) (updates : BotPatch) : Bot :=
  {| bot_id := default (bot_id bot) (p_id updates);
     bot_name := default (bot_name bot) (p_name updates);
     bot_description := default (bot_description bot) (p_description updates);
     bot_username := default (bot_username bot) (p_username updates);
     telegramToken := default (telegramToken bot) (p_telegramToken updates);
     gptModel := default (gptModel bot) (p_gptModel updates);
     personality := default (personality bot) (p_personality updates);
     temperature := default (temperature bot) (p_temperature updates);
     maxTokens := default (maxTokens bot) (p_maxTokens updates);
     isActive := default (isActive bot) (p_isActive updates);
     bot_createdAt := default (bot_createdAt bot) (p_createdAt updates);
     bot_userId := default (bot_userId bot) (p_userId updates) |}.

Record BotMessage : Type := mkBotMessage {
  msg_id : string;
  msg_botId : string;
  msg_message : string;
  msg_response : option string;
  msg_timestamp : option Z
}.

Record InsertBotMessage : Type := mkInsertBotMessage {
  im_botId : string;
  im_message : string;
  im_response : option string
}.

(** Truthiness of the nullable [isActive] column. *)
Definition flag_on (f : option bool) : bool :=
  match f with
  | Some true => true
  | _ => false
  end.

(** ** The world outside the process, and the process state *)

(** The body of a chat-completion call, field by field as the services
    build it. *)
Record CompletionRequest : Type := mkCompletionRequest {
  req_model : Js.Val;
  req_messages : list Js.Val;
  req_temperature : Js.Val;
  req_max_tokens : Js.Val
}.

Definition chat_message (role : string) (content : Js.Val) : Js.Val :=
  Js.Obj [("role", Js.Str role); ("content", content)].

(** What comes back: [choices[i].message.content], a string or null. *)
Record CompletionResponse : Type := mkCompletionResponse {
  choices : list (option string)
}.

(** The body of a PUT to the contents endpoint. *)
Record PutBody : Type := mkPutBody {
  put_message : string;
  put_content : string;
  put_sha : option string
}.

(** Calls that leave the process. *)
Inductive NetCall : Type :=
| TgGetMe (token : string)
| TgStartPolling (token : string)
| TgStopPolling (token : string)
| TgSendMessage (token : string) (chatId : Z) (text : string)
| OpenAICreate (request : CompletionRequest)
| GitHubPut (url : string) (token : string) (body : PutBody).

(** A logged call, with whether it succeeded. *)
Abbreviation NetEvent := (NetCall * bool)%type.

(** What the process does not control: identifiers, the clock, and the
    remote services.  A remote call may depend on everything that was sent
    before it. *)
Record Env : Type := mkEnv {
  randomUUID : nat -> string;
  Date_now : nat -> Z;
  net_ok : list NetEvent -> NetCall -> bool;
  completion : list NetEvent -> CompletionRequest -> CompletionResponse
}.

(** A [TelegramBot] instance: its token and the events it has listeners
    for. *)
Record TelegramBot : Type := mkTelegramBot {
  tb_token : string;
  tb_listeners : list string
}.

(** [MemStorage.bots], [MemStorage.botMessages] (a Map is iterated in
    insertion order, which [getBotMessages] depends on) and
    [TelegramService.bots]. *)
Record World : Type := mkWorld {
  storage_bots : gmap string Bot;
  storage_botMessages : list (string * BotMessage);
  telegram_bots : gmap string TelegramBot;
  net : list NetEvent;
  uuids_drawn : nat;
  clock_reads : nat
}.

Definition empty_world : World := mkWorld ∅ [] ∅ [] 0 0.

Definition set_storage_bots (f : gmap string Bot -> gmap string Bot) (w : World) : World :=
  mkWorld (f (storage_bots w)) (storage_botMessages w) (telegram_bots w)
          (net w) (uuids_drawn w) (clock_reads w).

Definition set_storage_botMessages
    (f : list (string * BotMessage) -> list (string * BotMessage)) (w : World) : World :=
  mkWorld (storage_bots w) (f (storage_botMessages w)) (telegram_bots w)
          (net w) (uuids_drawn w) (clock_reads w).

Definition set_telegram_bots
    (f : gmap string TelegramBot -> gmap string TelegramBot) (w : World) : World :=
  mkWorld (storage_bots w) (storage_botMessages w) (f (telegram_bots w))
          (net w) (uuids_drawn w) (clock_reads w).

(** ** Computations: state passing with exceptions *)

Inductive Outcome (A : Type) : Type :=
| Return (a : A)
| Throw (e : Js.Error).
Arguments Return {A} a.
Arguments Throw {A} e.

Definition M (A : Type) : Type := World -> Outcome A * World.

Definition ret {A} (a : A) : M A := fun w => (Return a, w).

Definition throw {A} (e : Js.Error) : M A := fun w => (Throw e, w).

Definition bind {A B} (m : M A) (k : A -> M B) : M B :=
  fun w =>
    match m w with
    | (Return a, w') => k a w'
    | (Throw e, w') => (Throw e, w')
    end.

(** [try { m } catch (error) { handler error }] *)
Definition try_catch {A} (m : M A) (handler : Js.Error -> M A) : M A :=
  fun w =>
    match m w with
    | (Return a, w') => (Return a, w')
    | (Throw e, w') => handler e w'
    end.

Definition lift {A} (r : A + Js.Error) : M A :=
  match r with
  | inl a => ret a
  | inr e => throw e
  end.

Definition modify (f : World -> World) : M unit := fun w => (Return tt, f w).

Declare Scope m_scope.
Delimit Scope m_scope with M.
Notation "x <- m ;; k" := (bind m (fun x => k))
  (at level 100, m at next level, right associativity) : m_scope.
Notation "m ;;; k" := (bind m (fun _ => k))
  (at level 100, right associativity) : m_scope.
Open Scope m_scope.

(** [Map.prototype.set] on a Map kept in insertion order: an existing key
    keeps its place. *)
Fixpoint map_set {V} (k : string) (v : V) (m : list (string * V)) : list (string * V) :=
  match m with
  | [] => [(k, v)]
  | (k', v') :: rest =>
      if String.eqb k' k then (k', v) :: rest else (k', v') :: map_set k v rest
  end.

Section Effects.
Context (env : Env).

(** [randomUUID()] *)
Definition draw_uuid : M string :=
  fun w =>
    (Return (randomUUID env (uuids_drawn w)),
     mkWorld (storage_bots w) (storage_botMessages w) (telegram_bots w)
             (net w) (S (uuids_drawn w)) (clock_reads w)).

(** [new Date()] *)
Definition new_Date : M Z :=
  fun w =>
    (Return (Date_now env (clock_reads w)),
     mkWorld (storage_bots w) (storage_botMessages w) (telegram_bots w)
             (net w) (uuids_drawn w) (S (clock_reads w))).

(** A remote call: logged with its result, and an exception when it
    fails. *)
Definition net_call (c : NetCall) : M unit :=
  fun w =>
    let ok := net_ok env (net w) c in
    let w' := mkWorld (storage_bots w) (storage_botMessages w) (telegram_bots w)
                      (net w ++ [(c, ok)])%list (uuids_drawn w) (clock_reads w) in
    if ok then (Return tt, w') else (Throw (Js.Err "request failed"), w').
End Effects.

(** ** class MemStorage (server/storage.ts) *)

Module MemStorage.
Section WithEnv.
Context (env : Env).

Definition getBot (id : string) : M (option Bot) :=
  fun w => (Return (storage_bots w !! id), w).

Definition createBot (insertBot : InsertBot) (userId : string) : M Bot :=
  id <- draw_uuid env ;;
  now <- new_Date env ;;
  let bot :=
    {| bot_id := id;
       bot_name := ins_name insertBot;
       bot_description := Js.or_null (ins_description insertBot);
       bot_username := ins_username insertBot;
       telegramToken := ins_telegramToken insertBot;
       gptModel := Js.or_default (ins_gptModel insertBot) "gpt-5";
       personality := Js.or_null (ins_personality insertBot);
       temperature := Some (Js.or_default (ins_temperature insertBot) "0.7");
       maxTokens := Some (Js.or_default (ins_maxTokens insertBot) "150");
       isActive := Some (flag_on (ins_isActive insertBot));
       bot_createdAt := Some now;
       bot_userId := Some userId |} in
  modify (set_storage_bots (insert id bot)) ;;;
  ret bot.

Definition updateBot (id : string) (updates : BotPatch) : M (option Bot) :=
  fun w =>
    match storage_bots w !! id with
    | None => (Return None, w)
    | Some bot =>
        let updatedBot := apply_patch bot updates in
        (Return (Some updatedBot), set_storage_bots (insert id updatedBot) w)
    end.

Definition deleteBot (id : string) : M bool :=
  fun w =>
    (Return (bool_decide (is_Some (storage_bots w !! id))),
     set_storage_bots (delete id) w).

(** [b.timestamp?.getTime() || 0] *)
Definition time_or_0 (m : BotMessage) : Z := default 0 (msg_timestamp m).

Definition getBotMessages (botId : string) (limit : option Js.Num) : M (list BotMessage) :=
  fun w =>
    let limit := default (Js.of_Z 50) limit in
    let values := map snd (storage_botMessages w) in
    let own := List.filter (fun message => String.eqb (msg_botId message) botId) values in
    let sorted := Js.sort (fun a b => time_or_0 b - time_or_0 a) own in
    (Return (Js.slice sorted (Js.of_Z 0) (Some limit)), w).

Definition createBotMessage (insertMessage : InsertBotMessage) : M BotMessage :=
  id <- draw_uuid env ;;
  now <- new_Date env ;;
  let message :=
    {| msg_id := id;
       msg_botId := im_botId insertMessage;
       msg_message := im_message insertMessage;
       msg_response := Js.or_null (im_response insertMessage);
       msg_timestamp := Some now |} in
  modify (set_storage_botMessages (map_set id message)) ;;;
  ret message.
End WithEnv.
End MemStorage.

(** ** class OpenAIService (server/services/githubService.ts, second part) *)

Module OpenAIService.
Section WithEnv.
Context (env : Env).

(** [this.openai.chat.completions.create(request)] *)
Definition create (request : CompletionRequest) : M CompletionResponse :=
  fun w =>
    let response := completion env (net w) request in
    (net_call env (OpenAICreate request) ;;; ret response) w.

(** [response.choices[0].message.content] *)
Definition first_content (response : CompletionResponse) : M (option string) :=
  match choices response with
  | [] => throw (Js.TypeError "Cannot read properties of undefined (reading message)")
  | content :: _ => ret content
  end.

(** The class declares [generateResponse] twice.  This is the first
    declaration: [(message, personality, config)]. *)
Definition generateResponse_1 (message personality config : Js.Val) : M string :=
  try_catch
    (model <- lift (Js.get config "model") ;;
     temperature <- lift (Js.get config "temperature") ;;
     maxTokens <- lift (Js.get config "maxTokens") ;;
     response <- create
       {| req_model := model;
          req_messages := [chat_message "system" personality;
                           chat_message "user" message];
          req_temperature := temperature;
          req_max_tokens := maxTokens |} ;;
     content <- first_content response ;;
     ret (Js.or_default content "I'm sorry, I couldn't generate a response."))
    (fun error => throw (Js.Err "Failed to generate response from GPT")).

(** The second declaration: [(chatParams)], with the model, temperature
    and length fixed. *)
Definition generateResponse_2 (chatParams : Js.Val) : M string :=
  try_catch
    (systemPrompt <- lift (Js.get chatParams "systemPrompt") ;;
     history <- lift (Js.get chatParams "history") ;;
     history <- lift (Js.spread history) ;;
     message <- lift (Js.get chatParams "message") ;;
     let messages :=
       ([chat_message "system" systemPrompt] ++ history
          ++ [chat_message "user" message])%list in
     response <- create
       {| req_model := Js.Str "gpt-4o";
          req_messages := messages;
          req_temperature := Js.Number (Js.Fin (7 # 10));
          req_max_tokens := Js.Number (Js.of_Z 500) |} ;;
     content <- first_content response ;;
     ret (Js.or_default content "Извините, не удалось сгенерировать ответ."))
    (fun error => throw (Js.Err "Failed to generate response from GPT")).

Definition arg (i : nat) (args : list Js.Val) : Js.Val := nth i args Js.Undefined.

(** The methods named [generateResponse], in the order the class body
    declares them. *)
Definition members : list (string * (list Js.Val -> M string)) :=
  [("generateResponse",
     fun args => generateResponse_1 (arg 0 args) (arg 1 args) (arg 2 args));
   ("generateResponse",
     fun args => generateResponse_2 (arg 0 args))].

(** A class body defines its methods on the prototype one after the
    other, so a later declaration of a name replaces an earlier one. *)
Definition method (name : string) : option (list Js.Val -> M string) :=
  fold_left (fun found member =>
               if String.eqb (fst member) name then Some (snd member) else found)
            members None.

(** [openaiService.generateResponse(...args)] *)
Definition generateResponse (args : list Js.Val) : M string :=
  match method "generateResponse" with
  | Some f => f args
  | None => throw (Js.TypeError "openaiService.generateResponse is not a function")
  end.

(** [validateConfiguration(config)]: the probe carries no temperature. *)
Definition validateConfiguration (config : Js.Val) : M bool :=
  try_catch
    (model <- lift (Js.get config "model") ;;
     create
       {| req_model := model;
          req_messages := [chat_message "user" (Js.Str "test")];
          req_temperature := Js.Undefined;
          req_max_tokens := Js.Number (Js.of_Z 1) |} ;;;
     ret true)
    (fun error => ret false).
End WithEnv.
End OpenAIService.

(** ** class TelegramService (server/routes.ts, second part) *)

(** An update delivered by the transport: [msg.chat.id] and [msg.text]. *)
Record TgMessage : Type := mkTgMessage {
  chat_id : Z;
  text : option string
}.

Module TelegramService.
Section WithEnv.
Context (env : Env).

(** [!token || !token.startsWith('bot') || token.length < 20] *)
Definition invalid_token_format (token : string) : bool :=
  negb (Js.truthy_string token)
  || negb (String.prefix "bot" token)
  || Nat.ltb (String.length token) 20.

Definition createBot (botId token : string) : M bool :=
  try_catch
    (if invalid_token_format token then
       MemStorage.updateBot botId (patch_isActive false) ;;;
       ret false
     else
       (* new TelegramBot(token, { polling: { interval, autoStart: false } }) *)
       let bot := mkTelegramBot token [] in
       net_call env (TgGetMe (tb_token bot)) ;;;
       let bot := mkTelegramBot token (tb_listeners bot ++ ["polling_error"])%list in
       let bot := mkTelegramBot token (tb_listeners bot ++ ["message"])%list in
       net_call env (TgStartPolling (tb_token bot)) ;;;
       modify (set_telegram_bots (insert botId bot)) ;;;
       MemStorage.updateBot botId (patch_isActive true) ;;;
       ret true)
    (fun error =>
       MemStorage.updateBot botId (patch_isActive false) ;;;
       ret false).

Definition stopBot (botId : string) : M bool :=
  fun w =>
    match telegram_bots w !! botId with
    | Some bot =>
        (try_catch (net_call env (TgStopPolling (tb_token bot)))
                   (fun error => ret tt) ;;;
         modify (set_telegram_bots (delete botId)) ;;;
         MemStorage.updateBot botId (patch_isActive false) ;;;
         ret true) w
    | None => (Return false, w)
    end.

(** The sampling configuration built from a stored bot. *)
Definition config_of (botConfig : Bot) : Js.Val :=
  Js.Obj
    [("model", Js.Str (Js.or_default (Some (gptModel botConfig)) "gpt-5"));
     ("temperature",
       Js.Number (Js.parseFloat (Js.or_default (temperature botConfig) "0.7")));
     ("maxTokens",
       Js.Number (Js.parseInt (Js.or_default (maxTokens botConfig) "150")))].

Definition personality_of (botConfig : Bot) : Js.Val :=
  Js.Str (Js.or_default (personality botConfig) "You are a helpful assistant.").

Definition handleMessage (botId : string) (bot : TelegramBot) (msg : TgMessage) : M unit :=
  let chatId := chat_id msg in
  match text msg with
  | None => ret tt
  | Some userMessage =>
      if negb (Js.truthy_string userMessage) then ret tt
      else
        try_catch
          (botConfig <- MemStorage.getBot botId ;;
           match botConfig with
           | None => ret tt
           | Some botConfig =>
               MemStorage.createBotMessage env
                 (mkInsertBotMessage botId userMessage None) ;;;
               response <- OpenAIService.generateResponse env
                 [Js.Str userMessage; personality_of botConfig; config_of botConfig] ;;
               net_call env (TgSendMessage (tb_token bot) chatId response) ;;;
               MemStorage.createBotMessage env
                 (mkInsertBotMessage botId userMessage (Some response)) ;;;
               ret tt
           end)
          (fun error =>
             net_call env
               (TgSendMessage (tb_token bot) chatId
                  "Sorry, I encountered an error processing your message."))
  end.

Definition testMessage (botId message : string) : M string :=
  try_catch
    (botConfig <- MemStorage.getBot botId ;;
     match botConfig with
     | None => throw (Js.Err "Bot not found")
     | Some botConfig =>
         response <- OpenAIService.generateResponse env
           [Js.Str message; personality_of botConfig; config_of botConfig] ;;
         MemStorage.createBotMessage env
           (mkInsertBotMessage botId message (Some response)) ;;;
         ret response
     end)
    (fun error => throw error).

(** [error.message.includes(needle)] *)
Fixpoint includes (needle haystack : string) : bool :=
  String.prefix needle haystack
  || match haystack with
     | String _ rest => includes needle rest
     | EmptyString => false
     end.

(** The listener [createBot] installs for ['polling_error']; [message] is
    [error.message]. *)
Definition on_polling_error (botId message : string) : M unit :=
  if includes "404 Not Found" message then stopBot botId ;;; ret tt
  else ret tt.

(** The loop of [stopAllBots] over the ids in [botIds]. *)
Fixpoint stopBots (botIds : list string) : M unit :=
  match botIds with
  | [] => ret tt
  | botId :: rest => stopBot botId ;;; stopBots rest
  end.

(** [Array.from(this.bots.keys())] lists the ids in insertion order; the
    registry of the model does not record that order, and the ids are taken
    in the order of [map_to_list]. *)
Definition stopAllBots : M unit :=
  fun w => stopBots (map fst (map_to_list (telegram_bots w))) w.

Definition sendMessage (botId : string) (chatId : Z) (message : string) : M bool :=
  fun w =>
    match telegram_bots w !! botId with
    | Some bot =>
        try_catch
          (net_call env (TgSendMessage (tb_token bot) chatId message) ;;;
           ret true)
          (fun error => ret false) w
    | None => (Return false, w)
    end.
End WithEnv.
End TelegramService.

(** ** class GitHubService (server/services/githubService.ts) *)

Module GitHubService.

Definition base64_alphabet : string :=
  "ABCDEFGHIJKLMNOPQRSTUVWXYZabcdefghijklmnopqrstuvwxyz0123456789+/".

Definition base64_digit (n : Z) : string :=
  match String.get (Z.to_nat n) base64_alphabet with
  | Some c => String c EmptyString
  | None => EmptyString
  end.

Fixpoint base64 (bytes : list Z) : string :=
  match bytes with
  | a :: b :: c :: rest =>
      base64_digit (a / 4)
      ++ base64_digit ((a mod 4) * 16 + b / 16)
      ++ base64_digit ((b mod 16) * 4 + c / 64)
      ++ base64_digit (c mod 64)
      ++ base64 rest
  | [a; b] =>
      base64_digit (a / 4)
      ++ base64_digit ((a mod 4) * 16 + b / 16)
      ++ base64_digit ((b mod 16) * 4)
      ++ "="
  | [a] =>
      base64_digit (a / 4) ++ base64_digit ((a mod 4) * 16) ++ "=="
  | [] => ""
  end.

(** [btoa(content)]; every string of 8-bit code units is in its domain. *)
Definition btoa (content : string) : string :=
  base64 (map Js.code (list_ascii_of_string content)).

(** [atob(data)], the decoding [getFileContent] and [getRepositoryFiles]
    apply to the [content] of a response: ASCII whitespace is skipped, one
    or two closing [=] are dropped when the length is a multiple of four,
    and a length of 1 modulo 4 or a character outside the alphabet throws
    ([None]). *)
Definition is_ascii_whitespace (c : ascii) : bool :=
  let n := Js.code c in
  (n =? 9) || (n =? 10) || (n =? 12) || (n =? 13) || (n =? 32).

Definition base64_index (c : ascii) : option Z :=
  let n := Js.code c in
  if (65 <=? n) && (n <=? 90) then Some (n - 65)
  else if (97 <=? n) && (n <=? 122) then Some (n - 71)
  else if (48 <=? n) && (n <=? 57) then Some (n + 4)
  else if n =? 43 then Some 62
  else if n =? 47 then Some 63
  else None.

Definition strip_padding (chars : list ascii) : list ascii :=
  match rev chars with
  | last :: before =>
      if Ascii.eqb last "=" then
        match before with
        | c :: front => if Ascii.eqb c "=" then rev front else rev before
        | [] => []
        end
      else chars
  | [] => chars
  end.

Fixpoint indices (chars : list ascii) : option (list Z) :=
  match chars with
  | [] => Some []
  | c :: rest =>
      match base64_index c, indices rest with
      | Some d, Some ds => Some (d :: ds)
      | _, _ => None
      end
  end.

Fixpoint bytes_of_sextets (sextets : list Z) : list Z :=
  match sextets with
  | a :: b :: c :: d :: rest =>
      (a * 4 + b / 16) :: ((b mod 16) * 16 + c / 4) :: ((c mod 4) * 64 + d)
        :: bytes_of_sextets rest
  | [a; b; c] => [a * 4 + b / 16; (b mod 16) * 16 + c / 4]
  | [a; b] => [a * 4 + b / 16]
  | _ => []
  end.

Definition atob (data : string) : option string :=
  let chars := List.filter (fun c => negb (is_ascii_whitespace c))
                           (list_ascii_of_string data) in
  let chars := if Nat.eqb (length chars mod 4) 0 then strip_padding chars else chars in
  if Nat.eqb (length chars mod 4) 1 then None
  else
    match indices chars with
    | Some sextets =>
        Some (string_of_list_ascii
                (map (fun byte => ascii_of_nat (Z.to_nat byte)) (bytes_of_sextets sextets)))
    | None => None
    end.

(** The content of a file to sync is kept as its UTF-16 code units, since
    [btoa] looks at them: it encodes a content whose code units are all at
    most 255 and throws InvalidCharacterError on any other.  [latin1] gives
    the 8-bit string of a content that [btoa] encodes, and [units] the code
    units of an 8-bit string. *)
Definition latin1 (content : list Z) : option string :=
  if forallb (fun unit => (0 <=? unit) && (unit <=? 255)) content
  then Some (string_of_list_ascii (map (fun unit => ascii_of_nat (Z.to_nat unit)) content))
  else None.

Definition units (s : string) : list Z := map Js.code (list_ascii_of_string s).

(** An entry of the [files] argument of [syncProjectToGitHub]. *)
Record SyncFile : Type := mkSyncFile {
  path : string;
  content : list Z
}.

Section WithEnv.
Context (env : Env).

(** The PUT that [createOrUpdateFile] sends through [makeRequest] for a
    content of 8-bit code units. *)
Definition put_request (repoFullName filePath content message token : string)
    (sha : option string) : NetCall :=
  GitHubPut ("/repos/" ++ repoFullName ++ "/contents/" ++ filePath) token
    {| put_message := message;
       put_content := btoa content;
       put_sha := Js.or_null sha |}.

(** The body is built inside the [try]: when [btoa(content)] throws,
    nothing is sent. *)
Definition createOrUpdateFile (repoFullName filePath : string) (content : list Z)
    (message token : string) (sha : option string) : M unit :=
  try_catch
    (match latin1 content with
     | Some bytes =>
         net_call env (put_request repoFullName filePath bytes message token sha)
     | None => throw (Js.Err "Invalid character")
     end)
    (fun error => throw (Js.Err "Не удалось создать/обновить файл")).

Definition commit_message (file : SyncFile) : string :=
  "Обновление " ++ path file ++ " через AI помощника".

(** [for (const file of files) { await ... }] *)
Fixpoint for_each {A} (body : A -> M unit) (items : list A) : M unit :=
  match items with
  | [] => ret tt
  | item :: rest => body item ;;; for_each body rest
  end.

Definition syncProjectToGitHub (repoFullName : string) (files : list SyncFile)
    (token : string) : M unit :=
  try_catch
    (for_each
       (fun file =>
          createOrUpdateFile repoFullName (path file) (content file)
            (commit_message file) token None)
       files)
    (fun error => throw (Js.Err "Не удалось синхронизировать проект с GitHub")).
End WithEnv.
End GitHubService.

(** ** The route handlers (server/routes.ts) *)

Inductive Body : Type :=
| JsonBot (bot : option Bot)
| JsonMessages (messages : list BotMessage)
| JsonMessage (message : string)
| JsonInvalid (message : string)
| NoBody.

Record Response : Type := mkResponse {
  status : nat;
  body : Body
}.

Module Routes.
Section WithEnv.
Context (env : Env).

(** [app.post("/api/bots")].  [parsed] is the result of
    [insertBotSchema.parse(req.body)]; [None] when it throws. *)
Definition post_bots (parsed : option InsertBot) : M Response :=
  try_catch
    (validatedBot <- match parsed with
                     | Some b => ret b
                     | None => throw Js.ZodError
                     end ;;
     let userId := "demo-user" in
     bot <- MemStorage.createBot env validatedBot userId ;;
     success <- TelegramService.createBot env (bot_id bot)
                  (ins_telegramToken validatedBot) ;;
     if negb success then
       MemStorage.deleteBot (bot_id bot) ;;;
       ret (mkResponse 400
              (JsonMessage "Failed to initialize Telegram bot. Please check your token."))
     else ret (mkResponse 201 (JsonBot (Some bot))))
    (fun error =>
       match error with
       | Js.ZodError => ret (mkResponse 400 (JsonInvalid "Invalid bot configuration"))
       | _ => ret (mkResponse 500 (JsonMessage "Failed to create bot"))
       end).

(** [app.patch("/api/bots/:id")] *)
Definition patch_bot (id : string) (updates : BotPatch) : M Response :=
  try_catch
    (bot <- MemStorage.updateBot id updates ;;
     match bot with
     | None => ret (mkResponse 404 (JsonMessage "Bot not found"))
     | Some bot =>
         match p_telegramToken updates with
         | Some token =>
             if Js.truthy_string token then
               TelegramService.stopBot env (bot_id bot) ;;;
               TelegramService.createBot env (bot_id bot) token ;;;
               ret tt
             else ret tt
         | None => ret tt
         end ;;;
         ret (mkResponse 200 (JsonBot (Some bot)))
     end)
    (fun error => ret (mkResponse 500 (JsonMessage "Failed to update bot"))).

(** [app.delete("/api/bots/:id")] *)
Definition delete_bot (id : string) : M Response :=
  try_catch
    (TelegramService.stopBot env id ;;;
     success <- MemStorage.deleteBot id ;;
     if negb success then ret (mkResponse 404 (JsonMessage "Bot not found"))
     else ret (mkResponse 204 NoBody))
    (fun error => ret (mkResponse 500 (JsonMessage "Failed to delete bot"))).

(** [app.post("/api/bots/:id/toggle")] *)
Definition toggle (id : string) : M Response :=
  try_catch
    (bot <- MemStorage.getBot id ;;
     match bot with
     | None => ret (mkResponse 404 (JsonMessage "Bot not found"))
     | Some bot =>
         success <- (if flag_on (isActive bot)
                     then TelegramService.stopBot env (bot_id bot)
                     else TelegramService.createBot env (bot_id bot) (telegramToken bot)) ;;
         if success then
           updatedBot <- MemStorage.updateBot (bot_id bot)
                           (patch_isActive (negb (flag_on (isActive bot)))) ;;
           ret (mkResponse 200 (JsonBot updatedBot))
         else ret (mkResponse 500 (JsonMessage "Failed to toggle bot status"))
     end)
    (fun error => ret (mkResponse 500 (JsonMessage "Failed to toggle bot status"))).

(** [req.query.limit ? parseInt(req.query.limit as string) : 50] *)
Definition limit_of (query_limit : option string) : Js.Num :=
  match query_limit with
  | Some s => if Js.truthy_string s then Js.parseInt s else Js.of_Z 50
  | None => Js.of_Z 50
  end.

(** [app.get("/api/bots/:id/messages")] *)
Definition get_messages (id : string) (query_limit : option string) : M Response :=
  try_catch
    (let limit := limit_of query_limit in
     messages <- MemStorage.getBotMessages id (Some limit) ;;
     ret (mkResponse 200 (JsonMessages messages)))
    (fun error => ret (mkResponse 500 (JsonMessage "Failed to fetch messages"))).

(** [app.post("/api/github/sync-project")], once the three body fields
    are known to be present. *)
Definition sync_project (files : list GitHubService.SyncFile)
    (repoFullName token : string) : M Response :=
  try_catch
    (GitHubService.syncProjectToGitHub env repoFullName files token ;;;
     ret (mkResponse 200 (JsonMessage "Project synced successfully")))
    (fun error => ret (mkResponse 500 (JsonMessage "Failed to sync project"))).

(** [app.get("/api/bots/:id")] *)
Definition get_bot (id : string) : M Response :=
  try_catch
    (bot <- MemStorage.getBot id ;;
     match bot with
     | None => ret (mkResponse 404 (JsonMessage "Bot not found"))
     | Some bot => ret (mkResponse 200 (JsonBot (Some bot)))
     end)
    (fun error => ret (mkResponse 500 (JsonMessage "Failed to fetch bot"))).
End WithEnv.
End Routes.

(** ** class MemStorage, projects and files (server/storage.ts, shared/schema.ts) *)

Record Project : Type := mkProject {
  project_id : string;
  project_name : string;
  project_description : option string;
  project_userId : option string;
  githubRepo : option string;
  githubToken : option string;
  project_createdAt : option Z
}.

Record InsertProject : Type := mkInsertProject {
  ip_name : string;
  ip_description : option string;
  ip_githubRepo : option string;
  ip_githubToken : option string
}.

Record ProjectPatch : Type := mkProjectPatch {
  pp_id : option string;
  pp_name : option string;
  pp_description : option (option string);
  pp_userId : option (option string);
  pp_githubRepo : option (option string);
  pp_githubToken : option (option string);
  pp_createdAt : option (option Z)
}.

Record File : Type := mkFile {
  file_id : string;
  projectId : string;
  file_name : string;
  file_path : string;
  file_content : string;
  language : option string;
  file_createdAt : option Z;
  updatedAt : option Z
}.

Record InsertFile : Type := mkInsertFile {
  if_projectId : string;
  if_name : string;
  if_path : string;
  if_content : string;
  if_language : option string
}.

Record FilePatch : Type := mkFilePatch {
  fp_id : option string;
  fp_projectId : option string;
  fp_name : option string;
  fp_path : option string;
  fp_content : option string;
  fp_language : option (option string);
  fp_createdAt : option (option Z);
  fp_updatedAt : option (option Z)
}.

(** [{ ...project, ...updates }] *)
Definition apply_project_patch (project : Project) (updates : ProjectPatch) : Project :=
  {| project_id := default (project_id project) (pp_id updates);
     project_name := default (project_name project) (pp_name updates);
     project_description := default (project_description project) (pp_description updates);
     project_userId := default (project_userId project) (pp_userId updates);
     githubRepo := default (githubRepo project) (pp_githubRepo updates);
     githubToken := default (githubToken project) (pp_githubToken updates);
     project_createdAt := default (project_createdAt project) (pp_createdAt updates) |}.

(** [{ ...file, ...updates, updatedAt: now }]: the key written last wins. *)
Definition apply_file_patch (file : File) (updates : FilePatch) (now : Z) : File :=
  {| file_id := default (file_id file) (fp_id updates);
     projectId := default (projectId file) (fp_projectId updates);
     file_name := default (file_name file) (fp_name updates);
     file_path := default (file_path file) (fp_path updates);
     file_content := default (file_content file) (fp_content updates);
     language := default (language file) (fp_language updates);
     file_createdAt := default (file_createdAt file) (fp_createdAt updates);
     updatedAt := Some now |}.

(** [Map.prototype.get] and [Map.prototype.delete] on a Map kept in
    insertion order; a Map holds a key once. *)
Fixpoint map_get {V} (k : string) (m : list (string * V)) : option V :=
  match m with
  | [] => None
  | (k', v) :: rest => if String.eqb k' k then Some v else map_get k rest
  end.

Definition map_delete {V} (k : string) (m : list (string * V)) : list (string * V) :=
  List.filter (fun entry => negb (String.eqb (fst entry) k)) m.

(** The whole process state: the part the bots use, and
    [MemStorage.projects] and [MemStorage.files]. *)
Record Store : Type := mkStore {
  world : World;
  storage_projects : list (string * Project);
  storage_files : list (string * File)
}.

Definition SM (A : Type) : Type := Store -> Outcome A * Store.

Definition sret {A} (a : A) : SM A := fun s => (Return a, s).

Definition sbind {A B} (m : SM A) (k : A -> SM B) : SM B :=
  fun s =>
    match m s with
    | (Return a, s') => k a s'
    | (Throw e, s') => (Throw e, s')
    end.

(** A computation on the bots' part of the state, run in the whole state. *)
Definition in_world {A} (m : M A) : SM A :=
  fun s =>
    let '(r, w') := m (world s) in
    (r, mkStore w' (storage_projects s) (storage_files s)).

Definition set_projects (f : list (string * Project) -> list (string * Project))
    : SM unit :=
  fun s => (Return tt, mkStore (world s) (f (storage_projects s)) (storage_files s)).

Definition set_files (f : list (string * File) -> list (string * File)) : SM unit :=
  fun s => (Return tt, mkStore (world s) (storage_projects s) (f (storage_files s))).

Declare Scope sm_scope.
Delimit Scope sm_scope with SM.
Notation "x <- m ;; k" := (sbind m (fun x => k))
  (at level 100, m at next level, right associativity) : sm_scope.
Notation "m ;;; k" := (sbind m (fun _ => k))
  (at level 100, right associativity) : sm_scope.

Module MemStorageProjects.
Section WithEnv.
Context (env : Env).
Open Scope sm_scope.

Definition getProject (id : string) : SM (option Project) :=
  fun s => (Return (map_get id (storage_projects s)), s).

Definition getProjectsByUserId (userId : string) : SM (list Project) :=
  fun s =>
    (Return (List.filter
               (fun project =>
                  match project_userId project with
                  | Some owner => String.eqb owner userId
                  | None => false
                  end)
               (map snd (storage_projects s))), s).

Definition createProject (insertProject : InsertProject) (userId : string) : SM Project :=
  id <- in_world (draw_uuid env) ;;
  now <- in_world (new_Date env) ;;
  let project :=
    {| project_id := id;
       project_name := ip_name insertProject;
       project_description := Js.or_null (ip_description insertProject);
       project_userId := Some userId;
       githubRepo := Js.or_null (ip_githubRepo insertProject);
       githubToken := Js.or_null (ip_githubToken insertProject);
       project_createdAt := Some now |} in
  set_projects (map_set id project) ;;;
  sret project.

Definition updateProject (id : string) (updates : ProjectPatch) : SM (option Project) :=
  fun s =>
    match map_get id (storage_projects s) with
    | None => (Return None, s)
    | Some project =>
        let updatedProject := apply_project_patch project updates in
        (Return (Some updatedProject),
         mkStore (world s) (map_set id updatedProject (storage_projects s))
                 (storage_files s))
    end.

Definition deleteProject (id : string) : SM bool :=
  fun s =>
    let projectFiles :=
      List.filter (fun file => String.eqb (projectId file) id)
                  (map snd (storage_files s)) in
    let files :=
      fold_left (fun files file => map_delete (file_id file) files)
                projectFiles (storage_files s) in
    (Return (bool_decide (is_Some (map_get id (storage_projects s)))),
     mkStore (world s) (map_delete id (storage_projects s)) files).

Definition getFile (id : string) : SM (option File) :=
  fun s => (Return (map_get id (storage_files s)), s).

Definition getFilesByProjectId (id : string) : SM (list File) :=
  fun s =>
    (Return (List.filter (fun file => String.eqb (projectId file) id)
                         (map snd (storage_files s))), s).

Definition createFile (insertFile : InsertFile) : SM File :=
  id <- in_world (draw_uuid env) ;;
  createdAt <- in_world (new_Date env) ;;
  updatedAt <- in_world (new_Date env) ;;
  let file :=
    {| file_id := id;
       projectId := if_projectId insertFile;
       file_name := if_name insertFile;
       file_path := if_path insertFile;
       file_content := if_content insertFile;
       language := Some (Js.or_default (if_language insertFile) "javascript");
       file_createdAt := Some createdAt;
       updatedAt := Some updatedAt |} in
  set_files (map_set id file) ;;;
  sret file.

Definition updateFile (id : string) (updates : FilePatch) : SM (option File) :=
  fun s =>
    match map_get id (storage_files s) with
    | None => (Return None, s)
    | Some file =>
        (now <- in_world (new_Date env) ;;
         let updatedFile := apply_file_patch file updates now in
         set_files (map_set id updatedFile) ;;;
         sret (Some updatedFile)) s
    end.

Definition deleteFile (id : string) : SM bool :=
  fun s =>
    (Return (bool_decide (is_Some (map_get id (storage_files s)))),
     mkStore (world s) (storage_projects s) (map_delete id (storage_files s))).
End WithEnv.
End MemStorageProjects.

(** ** class FileService (server/services/fileService.ts) *)

Module FileService.

Record FileGenerationRequest : Type := mkFileGenerationRequest {
  description : string;
  fileName : string;
  language : string;
  requirements : option string
}.

(** The [language] of an edit request is [editLanguage] here. *)
Record FileEditRequest : Type := mkFileEditRequest {
  fileContent : string;
  editInstructions : string;
  editLanguage : string
}.

(** The line break of a template literal. *)
Definition nl : string := String (ascii_of_nat 10) EmptyString.

Definition fence : string := "```".

Definition generation_prompt (request : FileGenerationRequest) : string :=
  "Создай файл " ++ fileName request ++ " на языке " ++ language request ++ "." ++ nl
  ++ "    " ++ nl
  ++ "Описание: " ++ description request ++ nl
  ++ match requirements request with
     | Some wanted => if Js.truthy_string wanted then "Требования: " ++ wanted else ""
     | None => ""
     end ++ nl
  ++ nl
  ++ "Верни только код без дополнительных объяснений. Код должен быть готов к использованию и следовать лучшим практикам.".

Definition edit_prompt (request : FileEditRequest) : string :=
  "Отредактируй следующий код согласно инструкциям." ++ nl
  ++ nl
  ++ "Текущий код:" ++ nl
  ++ fence ++ editLanguage request ++ nl
  ++ fileContent request ++ nl
  ++ fence ++ nl
  ++ nl
  ++ "Инструкции по редактированию: " ++ editInstructions request ++ nl
  ++ nl
  ++ "Верни только обновленный код без дополнительных объяснений.".

Definition analysis_prompt (code language : string) : string :=
  "Проанализируй следующий код на языке " ++ language
  ++ " и дай рекомендации по улучшению:" ++ nl
  ++ nl
  ++ fence ++ language ++ nl
  ++ code ++ nl
  ++ fence ++ nl
  ++ nl
  ++ "Предоставь анализ в формате:" ++ nl
  ++ "- Качество кода" ++ nl
  ++ "- Возможные проблемы" ++ nl
  ++ "- Рекомендации по улучшению" ++ nl
  ++ "- Соответствие лучшим практикам".

(** [{ model: "gpt-5", temperature, maxTokens }] *)
Definition gpt5_config (temperature : Q) (maxTokens : Z) : Js.Val :=
  Js.Obj [("model", Js.Str "gpt-5");
          ("temperature", Js.Number (Js.Fin temperature));
          ("maxTokens", Js.Number (Js.of_Z maxTokens))].

Section WithEnv.
Context (env : Env).

Definition generateFileContent (request : FileGenerationRequest) : M string :=
  let prompt := generation_prompt request in
  try_catch
    (response <- OpenAIService.generateResponse env
       [Js.Str prompt;
        Js.Str "Ты опытный разработчик, создающий качественный код. Отвечай только кодом без объяснений.";
        gpt5_config (3 # 10) 2000] ;;
     ret response)
    (fun error => throw (Js.Err "Не удалось сгенерировать файл")).

Definition editFileContent (request : FileEditRequest) : M string :=
  let prompt := edit_prompt request in
  try_catch
    (response <- OpenAIService.generateResponse env
       [Js.Str prompt;
        Js.Str "Ты опытный разработчик, редактирующий код. Отвечай только кодом без объяснений.";
        gpt5_config (2 # 10) 2000] ;;
     ret response)
    (fun error => throw (Js.Err "Не удалось отредактировать файл")).

Definition analyzeCode (code language : string) : M string :=
  let prompt := analysis_prompt code language in
  try_catch
    (response <- OpenAIService.generateResponse env
       [Js.Str prompt;
        Js.Str "Ты опытный код-ревьюер, анализирующий качество кода.";
        gpt5_config (1 # 10) 1000] ;;
     ret response)
    (fun error => throw (Js.Err "Не удалось проанализировать код")).
End WithEnv.

(** [fileName.split('.')]: the pieces between the dots, at least one. *)
Fixpoint split_dot (s : string) : list string :=
  match s with
  | EmptyString => [EmptyString]
  | String c rest =>
      if Ascii.eqb c "." then EmptyString :: split_dot rest
      else
        match split_dot rest with
        | first :: others => String c first :: others
        | [] => [String c EmptyString]
        end
  end.

(** [pieces.pop()]: the last piece, [undefined] for an empty array. *)
Definition pop (pieces : list string) : option string := last pieces.

(** [toLowerCase] on 8-bit code units: the letters A-Z and the capital
    letters of Latin-1 (0xC0-0xDE without the multiplication sign 0xD7)
    move up by 32. *)
Definition lower (c : ascii) : ascii :=
  let n := Js.code c in
  if ((65 <=? n) && (n <=? 90)) || ((192 <=? n) && (n <=? 222) && negb (n =? 215))
  then ascii_of_nat (Z.to_nat (n + 32))
  else c.

Fixpoint toLowerCase (s : string) : string :=
  match s with
  | EmptyString => EmptyString
  | String c rest => String (lower c) (toLowerCase rest)
  end.

Definition languageMap : list (string * string) :=
  [("js", "javascript"); ("ts", "typescript"); ("py", "python"); ("java", "java");
   ("cpp", "cpp"); ("c", "c"); ("cs", "csharp"); ("php", "php"); ("rb", "ruby");
   ("go", "go"); ("rs", "rust"); ("html", "html"); ("css", "css"); ("json", "json");
   ("xml", "xml"); ("md", "markdown"); ("yml", "yaml"); ("yaml", "yaml")].

(** [languageMap] is an object literal, so a key it does not hold is
    looked up on [Object.prototype]; these are the names found there, all
    of them bound to a function or an object. *)
Definition object_prototype : list string :=
  ["constructor"; "__defineGetter__"; "__defineSetter__"; "hasOwnProperty";
   "__lookupGetter__"; "__lookupSetter__"; "isPrototypeOf"; "propertyIsEnumerable";
   "toString"; "valueOf"; "__proto__"; "toLocaleString"].

Inductive Member : Type :=
| Own (value : string)
| Inherited (name : string)
| Absent.

(** [languageMap[key]] *)
Definition read (key : string) : Member :=
  match map_get key languageMap with
  | Some value => Own value
  | None =>
      if existsb (String.eqb key) object_prototype then Inherited key else Absent
  end.

(** What [getLanguageFromFileName] returns: a language name, or, its
    declared type notwithstanding, the member of [Object.prototype] that
    the lookup ran into. *)
Inductive Language : Type :=
| Named (name : string)
| NotAString (member : string).

Definition getLanguageFromFileName (fileName : string) : Language :=
  let extension := option_map toLowerCase (pop (split_dot fileName)) in
  match read (Js.or_default extension "") with
  | Own value => Named (if Js.truthy_string value then value else "text")
  | Inherited name => NotAString name
  | Absent => Named "text"
  end.

End FileService.

(** ** The AI endpoints (server/routes.ts) *)

(** [res.status(status).json(json)] *)
Record Reply : Type := mkReply {
  reply_status : nat;
  reply_json : Js.Val
}.

(** [{ message }] *)
Definition message_json (message : string) : Js.Val := Js.Obj [("message", Js.Str message)].

Module AiRoutes.

(** ToBoolean, as [!v] and [v || w] apply it. *)
Definition truthy (v : Js.Val) : bool :=
  match v with
  | Js.Undefined | Js.Null => false
  | Js.Bool b => b
  | Js.Number Js.NaN => false
  | Js.Number (Js.Fin q) => negb (Qeq_bool q 0)
  | Js.Number (Js.Infinity _) => true
  | Js.Str s => Js.truthy_string s
  | Js.Arr _ | Js.Obj _ => true
  end.

(** [a || b] *)
Definition or (a b : Js.Val) : Js.Val := if truthy a then a else b.

(** The text a template literal makes of what [getLanguageFromFileName]
    returned: a name as it is, [Object.prototype] as [[object Object]], and
    a builtin function as Node prints it ([constructor] is the function
    [Object]). *)
Definition language_text (found : FileService.Language) : string :=
  match found with
  | FileService.Named name => name
  | FileService.NotAString member =>
      if String.eqb member "__proto__" then "[object Object]"
      else "function "
           ++ (if String.eqb member "constructor" then "Object" else member)
           ++ "() { [native code] }"
  end.

Section WithEnv.
Context (env : Env).

(** [app.post("/api/ai/generate-file")], for a body whose fields are
    strings where they are present.  The request record holds, as its
    language, the text that the prompt will show. *)
Definition generate_file (description fileName language requirements : option string)
    : M Reply :=
  try_catch
    (match description, fileName with
     | Some description, Some fileName =>
         if negb (Js.truthy_string description) || negb (Js.truthy_string fileName) then
           ret (mkReply 400 (message_json "Description and fileName are required"))
         else
           content <- FileService.generateFileContent env
             {| FileService.description := description;
                FileService.fileName := fileName;
                FileService.language :=
                  if Js.truthy_opt language then Js.or_default language ""
                  else language_text (FileService.getLanguageFromFileName fileName);
                FileService.requirements := requirements |} ;;
           ret (mkReply 200 (Js.Obj [("content", Js.Str content)]))
     | _, _ => ret (mkReply 400 (message_json "Description and fileName are required"))
     end)
    (fun error => ret (mkReply 500 (message_json "Failed to generate file"))).

(** [app.post("/api/ai/edit-file")], for such a body. *)
Definition edit_file (fileContent editInstructions language : option string) : M Reply :=
  try_catch
    (match fileContent, editInstructions with
     | Some fileContent, Some editInstructions =>
         if negb (Js.truthy_string fileContent) || negb (Js.truthy_string editInstructions)
         then ret (mkReply 400 (message_json "FileContent and editInstructions are required"))
         else
           content <- FileService.editFileContent env
             {| FileService.fileContent := fileContent;
                FileService.editInstructions := editInstructions;
                FileService.editLanguage := Js.or_default language "javascript" |} ;;
           ret (mkReply 200 (Js.Obj [("content", Js.Str content)]))
     | _, _ =>
         ret (mkReply 400 (message_json "FileContent and editInstructions are required"))
     end)
    (fun error => ret (mkReply 500 (message_json "Failed to edit file"))).

(** [app.post("/api/ai/analyze-code")], for such a body. *)
Definition analyze_code (code language : option string) : M Reply :=
  try_catch
    (match code with
     | Some code =>
         if negb (Js.truthy_string code) then
           ret (mkReply 400 (message_json "Code is required"))
         else
           analysis <- FileService.analyzeCode env code
                         (Js.or_default language "javascript") ;;
           ret (mkReply 200 (Js.Obj [("analysis", Js.Str analysis)]))
     | None => ret (mkReply 400 (message_json "Code is required"))
     end)
    (fun error => ret (mkReply 500 (message_json "Failed to analyze code"))).

Definition default_system_prompt : string :=
  "Вы умный AI помощник. Отвечайте полезно и по делу на русском языке.".

(** [app.post("/api/ai/chat")]; the three fields of the body are any JSON
    values, [undefined] when the body does not have them. *)
Definition chat (message systemPrompt history : Js.Val) : M Reply :=
  try_catch
    (if negb (truthy message) then
       ret (mkReply 400 (message_json "Message is required"))
     else
       response <- OpenAIService.generateResponse env
         [Js.Obj [("message", message);
                  ("systemPrompt", or systemPrompt (Js.Str default_system_prompt));
                  ("history", or history (Js.Arr []))]] ;;
       ret (mkReply 200 (Js.Obj [("response", Js.Str response)])))
    (fun error => ret (mkReply 500 (message_json "Failed to process AI chat"))).
End WithEnv.
End AiRoutes.

(** * Vocabulary of the properties *)

(** ** States and what is read off them *)

(** The stored active flag of a bot, read as the handlers read it; a bot
    that is not stored counts as inactive. *)
Definition stored_active (w : World) (id : string) : bool :=
  match storage_bots w !! id with
  | Some bot => flag_on (isActive bot)
  | None => false
  end.

Definition registered (w : World) (id : string) : bool :=
  bool_decide (is_Some (telegram_bots w !! id)).

(** The state after [storage.updateBot(id, { isActive: b })]. *)
Definition set_flag (id : string) (b : bool) (w : World) : World :=
  snd (MemStorage.updateBot id (patch_isActive b) w).

(** The state after one more remote call has been logged. *)
Definition logged (ev : NetEvent) (w : World) : World :=
  mkWorld (storage_bots w) (storage_botMessages w) (telegram_bots w)
          (net w ++ [ev])%list (uuids_drawn w) (clock_reads w).

Definition live_bot (token : string) : TelegramBot :=
  mkTelegramBot token ["polling_error"; "message"].

(** ** Toggle *)

(** The stored active flag and the registry say the same about a bot. *)
Definition in_sync (w : World) (id : string) : Prop :=
  stored_active w id = registered w id.

Definition toggle_failed : Response :=
  mkResponse 500 (JsonMessage "Failed to toggle bot status").

(** ** Creating a bot *)

Definition check_your_token : Response :=
  mkResponse 400 (JsonMessage "Failed to initialize Telegram bot. Please check your token.").

(** The record [storage.createBot] builds in state [w]. *)
Definition created_bot (env : Env) (insertBot : InsertBot) (userId : string) (w : World)
    : Bot :=
  {| bot_id := randomUUID env (uuids_drawn w);
     bot_name := ins_name insertBot;
     bot_description := Js.or_null (ins_description insertBot);
     bot_username := ins_username insertBot;
     telegramToken := ins_telegramToken insertBot;
     gptModel := Js.or_default (ins_gptModel insertBot) "gpt-5";
     personality := Js.or_null (ins_personality insertBot);
     temperature := Some (Js.or_default (ins_temperature insertBot) "0.7");
     maxTokens := Some (Js.or_default (ins_maxTokens insertBot) "150");
     isActive := Some (flag_on (ins_isActive insertBot));
     bot_createdAt := Some (Date_now env (clock_reads w));
     bot_userId := Some userId |}.

(** ** The completion gateway *)

Definition generation_error : Js.Error := Js.Err "Failed to generate response from GPT".

(** Well-typed arguments of the two declarations. *)
Definition config_val (model : string) (temperature maxTokens : Js.Num) : Js.Val :=
  Js.Obj [("model", Js.Str model); ("temperature", Js.Number temperature);
          ("maxTokens", Js.Number maxTokens)].

Definition chat_params (message systemPrompt : string) (history : list (string * string))
    : Js.Val :=
  Js.Obj [("message", Js.Str message); ("systemPrompt", Js.Str systemPrompt);
          ("history", Js.Arr (map (fun turn => chat_message (fst turn) (Js.Str (snd turn)))
                                  history))].

(** The requests the two declarations send for such arguments. *)
Definition request_1 (message personality model : string) (temperature maxTokens : Js.Num)
    : CompletionRequest :=
  {| req_model := Js.Str model;
     req_messages := [chat_message "system" (Js.Str personality);
                      chat_message "user" (Js.Str message)];
     req_temperature := Js.Number temperature;
     req_max_tokens := Js.Number maxTokens |}.

Definition request_2 (message systemPrompt : string) (history : list (string * string))
    : CompletionRequest :=
  {| req_model := Js.Str "gpt-4o";
     req_messages :=
       (chat_message "system" (Js.Str systemPrompt)
          :: map (fun turn => chat_message (fst turn) (Js.Str (snd turn))) history
          ++ [chat_message "user" (Js.Str message)])%list;
     req_temperature := Js.Number (Js.Fin (7 # 10));
     req_max_tokens := Js.Number (Js.of_Z 500) |}.

(** What the gateway makes of the upstream result: [ok] is whether the call
    succeeded, [response] what it returned. *)
Definition gateway_result (fallback : string) (ok : bool) (response : CompletionResponse)
    : Outcome string :=
  if ok then
    match choices response with
    | [] => Throw generation_error
    | content :: _ => Return (Js.or_default content fallback)
    end
  else Throw generation_error.

Definition apology : string := "Sorry, I encountered an error processing your message.".

(** ** The message log *)

(** The comparator of [getBotMessages]. *)
Definition newest_first (a b : BotMessage) : Z :=
  MemStorage.time_or_0 b - MemStorage.time_or_0 a.

(** The records of a bot, in the order they were created. *)
Definition records_of (w : World) (botId : string) : list BotMessage :=
  List.filter (fun message => String.eqb (msg_botId message) botId)
              (map snd (storage_botMessages w)).

(** Each record is strictly older than every record after it. *)
Fixpoint ascending (l : list BotMessage) : Prop :=
  match l with
  | [] => True
  | m :: rest =>
      Forall (fun later => MemStorage.time_or_0 m < MemStorage.time_or_0 later) rest
      /\ ascending rest
  end.

(** ** Syncing a project *)

(** The state after some more remote calls have been logged. *)
Definition append_net (events : list NetEvent) (w : World) : World :=
  mkWorld (storage_bots w) (storage_botMessages w) (telegram_bots w)
          (net w ++ events)%list (uuids_drawn w) (clock_reads w).

Definition sync_failed : Js.Error := Js.Err "Не удалось синхронизировать проект с GitHub".

Module Sync.
Section Terms.
Context (env : Env) (repoFullName token : string).

(** The one PUT, with its own commit message, that writes [file]; there is
    none when [btoa] refuses the content. *)
Definition write_of (file : GitHubService.SyncFile) : option NetCall :=
  option_map
    (fun bytes =>
       GitHubService.put_request repoFullName (GitHubService.path file) bytes
         (GitHubService.commit_message file) token None)
    (GitHubService.latin1 (GitHubService.content file)).

(** What the write of [file] adds to the log after [history], and whether
    the write succeeds. *)
Definition attempt (history : list NetEvent) (file : GitHubService.SyncFile)
    : list NetEvent :=
  match write_of file with
  | Some call => [(call, net_ok env history call)]
  | None => []
  end.

Definition succeeds (history : list NetEvent) (file : GitHubService.SyncFile) : bool :=
  match write_of file with
  | Some call => net_ok env history call
  | None => false
  end.

(** The log entry of an accepted write. *)
Definition applied (file : GitHubService.SyncFile) : list NetEvent :=
  match write_of file with
  | Some call => [(call, true)]
  | None => []
  end.

Definition trace (files : list GitHubService.SyncFile) : list NetEvent :=
  flat_map applied files.

(** The writes of these files succeed, one after the other, after
    [history]. *)
Fixpoint accepts (history : list NetEvent) (files : list GitHubService.SyncFile) : Prop :=
  match files with
  | [] => True
  | file :: rest =>
      succeeds history file = true
      /\ accepts (history ++ applied file) rest
  end.

(** [file] was written by one accepted PUT, which is [event]. *)
Definition put_accepted (file : GitHubService.SyncFile) (event : NetEvent) : Prop :=
  exists bytes,
    GitHubService.latin1 (GitHubService.content file) = Some bytes
    /\ event = (GitHubService.put_request repoFullName (GitHubService.path file) bytes
                  (GitHubService.commit_message file) token None, true).

(** The body of the loop in [syncProjectToGitHub]. *)
Definition write (file : GitHubService.SyncFile) : M unit :=
  GitHubService.createOrUpdateFile env repoFullName (GitHubService.path file)
    (GitHubService.content file) (GitHubService.commit_message file) token None.
End Terms.
End Sync.

(** ** Further vocabulary *)

(** Each record is at least as new as every record after it. *)
Fixpoint descending (l : list BotMessage) : Prop :=
  match l with
  | [] => True
  | m :: rest =>
      Forall (fun later => MemStorage.time_or_0 later <= MemStorage.time_or_0 m) rest
      /\ descending rest
  end.

(** The record carries the timestamp [t]. *)
Definition same_time (t : Z) (m : BotMessage) : bool := MemStorage.time_or_0 m =? t.

(** [ordered] holds the records [created], given in creation order, newest
    first by timestamp, and the records of one timestamp still in creation
    order among themselves. *)
Definition newest_first_order (ordered created : list BotMessage) : Prop :=
  Permutation ordered created
  /\ descending ordered
  /\ forall t, List.filter (same_time t) ordered = List.filter (same_time t) created.

(** The records of a bot as [getBotMessages] orders them, before the limit
    is applied. *)
Definition ordered_records (w : World) (botId : string) : list BotMessage :=
  Js.sort newest_first (records_of w botId).

(** The remote calls made between two states. *)
Definition calls_since (w w' : World) : list NetEvent :=
  drop (length (net w)) (net w').

(** The request [validateConfiguration] sends for a model. *)
Definition probe (model : Js.Val) : CompletionRequest :=
  {| req_model := model;
     req_messages := [chat_message "user" (Js.Str "test")];
     req_temperature := Js.Undefined;
     req_max_tokens := Js.Number (Js.of_Z 1) |}.

(** A request with the sampling fixed by the second declaration of
    [generateResponse]. *)
Definition fixed_sampling (request : CompletionRequest) : Prop :=
  req_model request = Js.Str "gpt-4o"
  /\ req_temperature request = Js.Number (Js.Fin (7 # 10))
  /\ req_max_tokens request = Js.Number (Js.of_Z 500).

Definition bot_not_found : Response := mkResponse 404 (JsonMessage "Bot not found").

(** The six-bit groups [btoa] writes for a list of bytes, and the padding
    it closes with. *)
Fixpoint sextets_of (bytes : list Z) : list Z :=
  match bytes with
  | a :: b :: c :: rest =>
      a / 4 :: (a mod 4) * 16 + b / 16 :: (b mod 16) * 4 + c / 64 :: c mod 64
        :: sextets_of rest
  | [a; b] => [a / 4; (a mod 4) * 16 + b / 16; (b mod 16) * 4]
  | [a] => [a / 4; (a mod 4) * 16]
  | [] => []
  end.

Fixpoint padding_of (bytes : list Z) : list ascii :=
  match bytes with
  | _ :: _ :: _ :: rest => padding_of rest
  | [_; _] => ["="%char]
  | [_] => ["="%char; "="%char]
  | [] => []
  end.

Definition digit_char (d : Z) : ascii :=
  match String.get (Z.to_nat d) GitHubService.base64_alphabet with
  | Some c => c
  | None => "="%char
  end.

Definition is_byte (b : Z) : Prop := 0 <= b < 256.

Definition is_sextet (d : Z) : Prop := 0 <= d < 64.

(** The 64 digits, checked one by one: each is a single character of the
    alphabet, no whitespace and not the padding sign, and [base64_index]
    reads it back. *)
Definition digit_ok (n : nat) : bool :=
  let d := Z.of_nat n in
  String.eqb (GitHubService.base64_digit d) (String (digit_char d) EmptyString)
  && match GitHubService.base64_index (digit_char d) with
     | Some d' => d' =? d
     | None => false
     end
  && negb (GitHubService.is_ascii_whitespace (digit_char d))
  && negb (Ascii.eqb (digit_char d) "=").

(** The files of a project, in the order they were created. *)
Definition files_of (s : Store) (id : string) : list File :=
  List.filter (fun file => String.eqb (projectId file) id) (map snd (storage_files s)).

(** What [MemStorage.files] is as long as no update rewrites a file's [id]:
    a Map, so each key once, and every file under its own id. *)
Definition files_well_formed (files : list (string * File)) : Prop :=
  NoDup (map fst files)
  /\ Forall (fun entry => file_id (snd entry) = fst entry) files.

Definition empty_store : Store := mkStore empty_world [] [].

(** A string without a dot. *)
Definition dotless (s : string) : Prop := ~ In "."%char (list_ascii_of_string s).

(** A code unit that is not one of the letters A-Z. *)
Definition lowered (c : ascii) : bool :=
  negb ((65 <=? Js.code c) && (Js.code c <=? 90)).

(** The request the chat endpoint sends: the system prompt, the turns of
    the history, then the user's message, with the fixed sampling. *)
Definition chat_request (message systemPrompt : Js.Val) (turns : list Js.Val)
    : CompletionRequest :=
  {| req_model := Js.Str "gpt-4o";
     req_messages :=
       (chat_message "system" systemPrompt :: turns ++ [chat_message "user" message])%list;
     req_temperature := Js.Number (Js.Fin (7 # 10));
     req_max_tokens := Js.Number (Js.of_Z 500) |}.

(** The request that the declaration of [generateResponse] in force
    builds from its argument; there is none when reading the argument
    throws, which is before anything is sent. *)
Definition built_request (chatParams : Js.Val) : option CompletionRequest :=
  match Js.get chatParams "systemPrompt", Js.get chatParams "history",
        Js.get chatParams "message" with
  | inl systemPrompt, inl history, inl message =>
      match Js.spread history with
      | inl turns => Some (chat_request message systemPrompt turns)
      | inr _ => None
      end
  | _, _, _ => None
  end.

(** The answer of the chat endpoint to what the gateway made of the
    request. *)
Definition chat_reply (result : Outcome string) : Reply :=
  match result with
  | Return text => mkReply 200 (Js.Obj [("response", Js.Str text)])
  | Throw _ => mkReply 500 (message_json "Failed to process AI chat")
  end.

(** ** Concrete environments and states *)

Module Fixtures.
(** Identifiers ["id-"], ["id-i"], ["id-ii"], ... in the order they are
    drawn. *)
Definition id_of (n : nat) : string :=
  "id-" ++ String.string_of_list_ascii (repeat "i"%char n).

Definition greeting : CompletionResponse := mkCompletionResponse [Some "Hello!"].

(** Every remote call succeeds, and the clock advances by one millisecond
    per reading. *)
Definition friendly : Env :=
  {| randomUUID := id_of;
     Date_now := fun n => 1700000000000 + Z.of_nat n;
     net_ok := fun _ _ => true;
     completion := fun _ _ => greeting |}.

(** The platform rejects every token; everything else succeeds. *)
Definition rejecting : Env :=
  {| randomUUID := id_of;
     Date_now := fun n => 1700000000000 + Z.of_nat n;
     net_ok := fun _ c => match c with TgGetMe _ => false | _ => true end;
     completion := fun _ _ => greeting |}.

(** The clock does not advance between readings. *)
Definition frozen_clock : Env :=
  {| randomUUID := id_of;
     Date_now := fun _ => 1700000000000;
     net_ok := fun _ _ => true;
     completion := fun _ _ => greeting |}.

(** The completion service answers, with a choice that has no content. *)
Definition silent : Env :=
  {| randomUUID := id_of;
     Date_now := fun n => 1700000000000 + Z.of_nat n;
     net_ok := fun _ _ => true;
     completion := fun _ _ => mkCompletionResponse [None] |}.

Definition good_token : string := "bot123456:ABCDEFGHIJKLMNOP".

Definition pirate : InsertBot :=
  {| ins_name := "Pirate";
     ins_description := None;
     ins_username := "pirate_bot";
     ins_telegramToken := good_token;
     ins_gptModel := Some "gpt-4";
     ins_personality := Some "You are a pirate.";
     ins_temperature := Some "0.2";
     ins_maxTokens := Some "64";
     ins_isActive := None |}.

(** The state after [POST /api/bots] with [pirate] on a fresh process. *)
Definition pirate_world : World := snd (Routes.post_bots friendly (Some pirate) empty_world).
End Fixtures.

Module ToggleScenario.
Import Fixtures.

(** The record stored for [pirate] once it is live. *)
Definition pirate_bot : Bot :=
  {| bot_id := "id-";
     bot_name := "Pirate";
     bot_description := None;
     bot_username := "pirate_bot";
     telegramToken := good_token;
     gptModel := "gpt-4";
     personality := Some "You are a pirate.";
     temperature := Some "0.2";
     maxTokens := Some "64";
     isActive := Some true;
     bot_createdAt := Some 1700000000000;
     bot_userId := Some "demo-user" |}.

(** [PATCH /api/bots/id-] with the body [{ "telegramToken": "" }]: the
    empty token is stored, and being falsy it does not restart the bot. *)
Definition blank_token : BotPatch :=
  mkBotPatch None None None None (Some "") None None None None None None None.

Definition blanked_world : World :=
  snd (Routes.patch_bot friendly "id-" blank_token pirate_world).

Definition toggled_twice (w : World) : World :=
  snd (Routes.toggle friendly "id-" (snd (Routes.toggle friendly "id-" w))).
End ToggleScenario.

Module LogScenario.
(** Three exchanges of one bot, logged one after the other on a fresh
    process. *)
Definition exchange (n : string) : InsertBotMessage :=
  mkInsertBotMessage "bot-1" ("question " ++ n) (Some ("answer " ++ n)).

Definition three_logged (env : Env) : World :=
  snd ((MemStorage.createBotMessage env (exchange "1") ;;;
        MemStorage.createBotMessage env (exchange "2") ;;;
        MemStorage.createBotMessage env (exchange "3")) empty_world).

(** The record of the [n]-th exchange, created at time [t] under [id]. *)
Definition record (id n : string) (t : Z) : BotMessage :=
  mkBotMessage id "bot-1" ("question " ++ n) (Some ("answer " ++ n)) (Some t).
End LogScenario.

Module SyncScenario.
Definition files : list GitHubService.SyncFile :=
  [GitHubService.mkSyncFile "index.js" (GitHubService.units "console.log(1)");
   GitHubService.mkSyncFile "README.md" (GitHubService.units "# demo");
   GitHubService.mkSyncFile "package.json" (GitHubService.units "{}")].

(** The same project with a Cyrillic greeting (six code units above 255)
    in its second file. *)
Definition cyrillic_files : list GitHubService.SyncFile :=
  [GitHubService.mkSyncFile "index.js" (GitHubService.units "console.log(1)");
   GitHubService.mkSyncFile "README.md" [1087; 1088; 1080; 1074; 1077; 1090];
   GitHubService.mkSyncFile "package.json" (GitHubService.units "{}")].

(** The hosting service refuses the write of [README.md] and accepts every
    other call. *)
Definition refuses_readme : Env :=
  {| randomUUID := Fixtures.id_of;
     Date_now := fun n => 1700000000000 + Z.of_nat n;
     net_ok := fun _ call =>
                 match call with
                 | GitHubPut url _ _ =>
                     negb (String.eqb url "/repos/me/demo/contents/README.md")
                 | _ => true
                 end;
     completion := fun _ _ => Fixtures.greeting |}.
End SyncScenario.

Module MoreFixtures.
(** Telegram refuses to stop polling; every other call succeeds. *)
Definition stop_fails : Env :=
  {| randomUUID := Fixtures.id_of;
     Date_now := fun n => 1700000000000 + Z.of_nat n;
     net_ok := fun _ call => match call with TgStopPolling _ => false | _ => true end;
     completion := fun _ _ => Fixtures.greeting |}.

(** Nothing outside the process can be reached. *)
Definition offline : Env :=
  {| randomUUID := Fixtures.id_of;
     Date_now := fun n => 1700000000000 + Z.of_nat n;
     net_ok := fun _ _ => false;
     completion := fun _ _ => Fixtures.greeting |}.

(** A second bot created after [pirate], live as well. *)
Definition parrot : InsertBot :=
  {| ins_name := "Parrot";
     ins_description := Some "repeats";
     ins_username := "parrot_bot";
     ins_telegramToken := "bot987654:ZYXWVUTSRQPONMLK";
     ins_gptModel := None;
     ins_personality := None;
     ins_temperature := None;
     ins_maxTokens := None;
     ins_isActive := None |}.

Definition two_bots : World :=
  snd (Routes.post_bots Fixtures.friendly (Some parrot) Fixtures.pirate_world).
End MoreFixtures.

Module FilesScenario.
(** Two files of project [p1] and one of [p2], created in that order on a
    fresh process. *)
Definition source (project name : string) : InsertFile :=
  {| if_projectId := project;
     if_name := name;
     if_path := "src/" ++ name;
     if_content := "// " ++ name;
     if_language := None |}.

Definition three_files : Store :=
  snd (sbind (MemStorageProjects.createFile Fixtures.friendly (source "p1" "a.js"))
         (fun _ =>
            sbind (MemStorageProjects.createFile Fixtures.friendly (source "p2" "b.js"))
              (fun _ =>
                 MemStorageProjects.createFile Fixtures.friendly (source "p1" "c.js")))
         empty_store).
End FilesScenario.

(** * Properties *)

Example parseInt_examples :
  Js.parseInt "150" = Js.of_Z 150 /\ Js.parseInt "  -42px" = Js.of_Z (-42) /\
  Js.parseInt "0x1F" = Js.of_Z 31 /\ Js.parseInt "abc" = Js.NaN /\
  Js.parseInt "" = Js.NaN /\ Js.parseInt "12.9" = Js.of_Z 12.
Proof. repeat split; reflexivity. Qed.

Example parseFloat_examples :
  Js.parseFloat "0.7" = Js.Fin (7 # 10) /\ Js.parseFloat "0.70" = Js.Fin (7 # 10) /\
  Js.parseFloat " 1.5e1x" = Js.Fin (15 # 1) /\ Js.parseFloat ".5" = Js.Fin (1 # 2) /\
  Js.parseFloat "e5" = Js.NaN /\ Js.parseFloat "-Infinity" = Js.Infinity true /\
  Js.parseFloat "2e" = Js.Fin (2 # 1).
Proof. repeat split; reflexivity. Qed.

Example slice_examples :
  Js.slice [1; 2; 3] (Js.of_Z 0) (Some (Js.of_Z 2)) = [1; 2] /\
  Js.slice [1; 2; 3] (Js.of_Z 0) (Some Js.NaN) = [] /\
  Js.slice [1; 2; 3] (Js.of_Z 0) (Some (Js.of_Z (-1))) = [1; 2] /\
  Js.slice [1; 2; 3] (Js.of_Z 0) (Some (Js.of_Z 50)) = [1; 2; 3] /\
  Js.slice [1; 2; 3] (Js.of_Z 1) None = [2; 3].
Proof. repeat split; reflexivity. Qed.

Example sort_examples :
  Js.sort (fun a b => snd b - snd a) [("a", 1); ("b", 3); ("c", 1); ("d", 3)]
  = [("b", 3); ("d", 3); ("a", 1); ("c", 1)].
Proof. reflexivity. Qed.

Example btoa_examples :
  GitHubService.btoa "" = "" /\ GitHubService.btoa "f" = "Zg==" /\
  GitHubService.btoa "fo" = "Zm8=" /\ GitHubService.btoa "foo" = "Zm9v" /\
  GitHubService.btoa "foobar" = "Zm9vYmFy".
Proof. repeat split; reflexivity. Qed.

(** Unfolding of the monad's plumbing. *)
Ltac run :=
  unfold bind, ret, throw, try_catch, modify, lift, net_call, draw_uuid, new_Date,
    set_storage_bots, set_telegram_bots, set_storage_botMessages in *;
  cbn [fst snd storage_bots storage_botMessages telegram_bots net uuids_drawn clock_reads] in *.

(** ** Bot lifecycle *)

Section Lifecycle.
Context (env : Env).

Lemma invalid_token_format_spec token :
  TelegramService.invalid_token_format token = true
  <-> token = "" \/ String.prefix "bot" token = false
      \/ (String.length token < 20)%nat.
Proof.
  unfold TelegramService.invalid_token_format, Js.truthy_string.
  rewrite !orb_true_iff, !negb_true_iff, negb_false_iff.
  rewrite String.eqb_eq, Nat.ltb_lt. tauto.
Qed.

(** C7.  Deactivating a bot that has no live connection changes nothing
    and answers [false], "no connection existed": the registry, every
    stored record (so the stored active flag too) and the log of remote
    calls are the ones from before. *)
Theorem stopBot_absent_is_noop (w : World) (botId : string) :
  telegram_bots w !! botId = None ->
  TelegramService.stopBot env botId w = (Return false, w).
Proof.
  intros Habsent. unfold TelegramService.stopBot. by rewrite Habsent.
Qed.

(** C4.  A token that is empty, does not start with [bot] or is shorter
    than 20 makes [createBot] answer [false] without any remote call; the
    only change is the stored bot's active flag, which becomes [false]. *)
Theorem createBot_malformed_token (w : World) (botId token : string) :
  token = "" \/ String.prefix "bot" token = false \/ (String.length token < 20)%nat ->
  exists w',
    TelegramService.createBot env botId token w = (Return false, w')
    /\ net w' = net w
    /\ telegram_bots w' = telegram_bots w
    /\ storage_botMessages w' = storage_botMessages w
    /\ (forall other, other <> botId ->
          storage_bots w' !! other = storage_bots w !! other)
    /\ (forall bot, storage_bots w !! botId = Some bot ->
          storage_bots w' !! botId = Some (apply_patch bot (patch_isActive false))
          /\ isActive (apply_patch bot (patch_isActive false)) = Some false)
    /\ (storage_bots w !! botId = None -> w' = w).
Proof.
  intros Hbad. apply invalid_token_format_spec in Hbad.
  exists (snd (MemStorage.updateBot botId (patch_isActive false) w)).
  unfold TelegramService.createBot. rewrite Hbad. run.
  unfold MemStorage.updateBot.
  destruct (storage_bots w !! botId) as [old|] eqn:E; cbn.
  - split_and!; auto.
    + intros other Hne. by rewrite lookup_insert_ne.
    + intros bot [= <-]. by rewrite lookup_insert_eq.
    + discriminate.
  - split_and!; auto; discriminate.
Qed.
End Lifecycle.

(** ** The lifecycle operations as equations *)

Lemma updateBot_run id updates w :
  MemStorage.updateBot id updates w
  = (Return ((fun bot => apply_patch bot updates) <$> storage_bots w !! id),
     snd (MemStorage.updateBot id updates w)).
Proof.
  unfold MemStorage.updateBot. by destruct (storage_bots w !! id).
Qed.

Lemma telegram_bots_set_flag id b w :
  telegram_bots (set_flag id b w) = telegram_bots w.
Proof. unfold set_flag, MemStorage.updateBot. by destruct (storage_bots w !! id). Qed.

Lemma set_flag_lookup id b w :
  storage_bots (set_flag id b w) !! id
  = (fun bot => apply_patch bot (patch_isActive b)) <$> storage_bots w !! id.
Proof.
  unfold set_flag, MemStorage.updateBot.
  destruct (storage_bots w !! id) as [old|] eqn:E; cbn.
  - by rewrite lookup_insert_eq.
  - by rewrite E.
Qed.

Lemma stored_active_set_flag id b w :
  stored_active (set_flag id b w) id = b && bool_decide (is_Some (storage_bots w !! id)).
Proof.
  unfold stored_active. rewrite set_flag_lookup.
  by destruct (storage_bots w !! id) as [old|], b.
Qed.

Section Activation.
Context (env : Env).

Lemma createBot_eq (w : World) (botId token : string) :
  TelegramService.createBot env botId token w =
  if TelegramService.invalid_token_format token then
    (Return false, set_flag botId false w)
  else
    let getMe := net_ok env (net w) (TgGetMe token) in
    let w1 := logged (TgGetMe token, getMe) w in
    if negb getMe then (Return false, set_flag botId false w1)
    else
      let start := net_ok env (net w1) (TgStartPolling token) in
      let w2 := logged (TgStartPolling token, start) w1 in
      if negb start then (Return false, set_flag botId false w2)
      else (Return true,
            set_flag botId true (set_telegram_bots (insert botId (live_bot token)) w2)).
Proof.
  unfold TelegramService.createBot, set_flag, logged, MemStorage.updateBot.
  destruct (TelegramService.invalid_token_format token); run; cbn.
  - destruct (storage_bots w !! botId); reflexivity.
  - destruct (net_ok env (net w) (TgGetMe token)); cbn.
    2:{ destruct (storage_bots w !! botId); reflexivity. }
    destruct (net_ok env (net w ++ [(TgGetMe token, true)])%list (TgStartPolling token));
      cbn; destruct (storage_bots w !! botId); reflexivity.
Qed.

Lemma stopBot_eq (w : World) (botId : string) :
  TelegramService.stopBot env botId w =
  match telegram_bots w !! botId with
  | Some bot =>
      let stop := TgStopPolling (tb_token bot) in
      let w1 := logged (stop, net_ok env (net w) stop) w in
      (Return true, set_flag botId false (set_telegram_bots (delete botId) w1))
  | None => (Return false, w)
  end.
Proof.
  unfold TelegramService.stopBot, set_flag, logged, MemStorage.updateBot.
  destruct (telegram_bots w !! botId) as [bot|]; [|done]. run; cbn.
  destruct (net_ok env (net w) (TgStopPolling (tb_token bot))); cbn;
    destruct (storage_bots w !! botId); reflexivity.
Qed.
End Activation.

Section ActivateThenDeactivate.
Context (env : Env).

(** C5.  When [createBot] has answered [true], a [stopBot] on the same id
    right after it answers [true], leaves no entry for the id in the
    registry, and leaves the stored active flag [false]. *)
Theorem stopBot_after_createBot (w w1 : World) (botId token : string) :
  TelegramService.createBot env botId token w = (Return true, w1) ->
  exists w2,
    TelegramService.stopBot env botId w1 = (Return true, w2)
    /\ telegram_bots w2 !! botId = None
    /\ stored_active w2 botId = false
    /\ (forall bot, storage_bots w2 !! botId = Some bot -> isActive bot = Some false)
    /\ (is_Some (storage_bots w1 !! botId) -> is_Some (storage_bots w2 !! botId)).
Proof.
  rewrite createBot_eq.
  destruct (TelegramService.invalid_token_format token); [discriminate|]. cbn zeta.
  destruct (negb _); [discriminate|].
  destruct (negb _); [discriminate|].
  intros [= <-]. rewrite stopBot_eq, telegram_bots_set_flag.
  cbn [set_telegram_bots telegram_bots]. rewrite lookup_insert_eq. cbn zeta.
  eexists. split; [reflexivity|].
  split_and!.
  - rewrite telegram_bots_set_flag. cbn [set_telegram_bots telegram_bots logged].
    apply lookup_delete_eq.
  - rewrite stored_active_set_flag. reflexivity.
  - intros bot. rewrite set_flag_lookup.
    destruct (storage_bots _ !! botId); cbn; [|discriminate].
    by intros [= <-].
  - intros Hsome. rewrite set_flag_lookup. cbn [set_telegram_bots storage_bots logged].
    by apply fmap_is_Some.
Qed.
End ActivateThenDeactivate.

(** The 201 response carries the record as it was created, before the
    activation marked the stored one active. *)
Example pirate_is_live :
  fst (Routes.post_bots Fixtures.friendly (Some Fixtures.pirate) empty_world)
  = Return (mkResponse 201
              (JsonBot ((fun bot => apply_patch bot (patch_isActive false))
                          <$> storage_bots Fixtures.pirate_world !! "id-")))
  /\ stored_active Fixtures.pirate_world "id-" = true
  /\ registered Fixtures.pirate_world "id-" = true
  /\ map fst (net Fixtures.pirate_world)
     = [TgGetMe Fixtures.good_token; TgStartPolling Fixtures.good_token].
Proof. vm_compute. repeat split; reflexivity. Qed.

Lemma stopBot_absent_is_noop_witness :
  TelegramService.stopBot Fixtures.friendly "id-i" Fixtures.pirate_world
  = (Return false, Fixtures.pirate_world).
Proof.
  apply (stopBot_absent_is_noop Fixtures.friendly Fixtures.pirate_world "id-i").
  vm_compute. reflexivity.
Defined.

Lemma createBot_malformed_token_witness :
  exists w',
    TelegramService.createBot Fixtures.friendly "id-" "123456:ABCDEFGHIJKLMNOPQRSTUV"
      Fixtures.pirate_world = (Return false, w')
    /\ net w' = net Fixtures.pirate_world
    /\ stored_active w' "id-" = false.
Proof.
  destruct (createBot_malformed_token Fixtures.friendly Fixtures.pirate_world "id-"
              "123456:ABCDEFGHIJKLMNOPQRSTUV")
    as (w' & Hrun & Hnet & _ & _ & _ & Hflag & _).
  - right. left. vm_compute. reflexivity.
  - exists w'. split; [exact Hrun|]. split; [exact Hnet|].
    unfold stored_active.
    destruct (storage_bots Fixtures.pirate_world !! "id-") as [bot|] eqn:E.
    + destruct (Hflag bot eq_refl) as [-> ->]. reflexivity.
    + vm_compute in E. discriminate.
Defined.

Lemma stopBot_after_createBot_witness :
  exists w2,
    TelegramService.stopBot Fixtures.friendly "id-" Fixtures.pirate_world = (Return true, w2)
    /\ telegram_bots w2 !! "id-" = None
    /\ stored_active w2 "id-" = false.
Proof.
  destruct (stopBot_after_createBot Fixtures.friendly
              (snd (MemStorage.createBot Fixtures.friendly Fixtures.pirate "demo-user"
                      empty_world))
              Fixtures.pirate_world "id-" Fixtures.good_token)
    as (w2 & Hrun & Hreg & Hflag & _).
  - vm_compute. reflexivity.
  - exists w2. auto.
Defined.

(** ** Toggle *)

Section Toggle.
Context (env : Env).

Lemma toggle_eq (w : World) (id : string) :
  Routes.toggle env id w =
  match storage_bots w !! id with
  | None => (Return (mkResponse 404 (JsonMessage "Bot not found")), w)
  | Some bot =>
      let flip := negb (flag_on (isActive bot)) in
      let r := (if flag_on (isActive bot)
                then TelegramService.stopBot env (bot_id bot)
                else TelegramService.createBot env (bot_id bot) (telegramToken bot)) w in
      match fst r with
      | Return true =>
          (Return (mkResponse 200
                     (JsonBot ((fun b => apply_patch b (patch_isActive flip))
                                 <$> storage_bots (snd r) !! bot_id bot))),
           set_flag (bot_id bot) flip (snd r))
      | _ => (Return toggle_failed, snd r)
      end
  end.
Proof.
  unfold Routes.toggle, MemStorage.getBot. run.
  destruct (storage_bots w !! id) as [bot|]; [|reflexivity]. cbn zeta.
  destruct (flag_on (isActive bot)).
  - rewrite stopBot_eq. destruct (telegram_bots w !! bot_id bot); cbn; [|reflexivity].
    by rewrite updateBot_run.
  - rewrite createBot_eq.
    destruct (TelegramService.invalid_token_format _); [reflexivity|]. cbn zeta.
    destruct (negb _); [reflexivity|].
    destruct (negb _); [reflexivity|]. cbn.
    by rewrite updateBot_run.
Qed.
End Toggle.

Lemma set_flag_lookup_Some id b w bot :
  storage_bots w !! id = Some bot ->
  storage_bots (set_flag id b w) !! id = Some (apply_patch bot (patch_isActive b)).
Proof. intros H. by rewrite set_flag_lookup, H. Qed.

Lemma stored_active_lookup w id bot :
  storage_bots w !! id = Some bot -> stored_active w id = flag_on (isActive bot).
Proof. intros H. unfold stored_active. by rewrite H. Qed.

Lemma registered_lookup w id tb :
  telegram_bots w !! id = Some tb -> registered w id = true.
Proof. intros H. unfold registered. rewrite H. reflexivity. Qed.

Lemma registered_absent w id :
  telegram_bots w !! id = None -> registered w id = false.
Proof. intros H. unfold registered. rewrite H. reflexivity. Qed.

Section ToggleSteps.
Context (env : Env).

(** Toggling a bot that is stored active and has a live connection. *)
Lemma toggle_stops (w : World) (id : string) (bot : Bot) (tb : TelegramBot) :
  storage_bots w !! id = Some bot ->
  bot_id bot = id ->
  flag_on (isActive bot) = true ->
  telegram_bots w !! id = Some tb ->
  snd (Routes.toggle env id w)
  = set_flag id false
      (set_flag id false
         (set_telegram_bots (delete id)
            (logged (TgStopPolling (tb_token tb),
                     net_ok env (net w) (TgStopPolling (tb_token tb))) w))).
Proof.
  intros Hbot Hid Hflag Htb.
  rewrite toggle_eq, Hbot. cbn zeta. rewrite Hid, Hflag, stopBot_eq, Htb.
  reflexivity.
Qed.

(** Toggling a bot that is stored inactive, when its token has the
    expected shape and the platform accepts it. *)
Lemma toggle_starts (w : World) (id : string) (bot : Bot) :
  storage_bots w !! id = Some bot ->
  bot_id bot = id ->
  flag_on (isActive bot) = false ->
  TelegramService.invalid_token_format (telegramToken bot) = false ->
  (forall history call, net_ok env history call = true) ->
  snd (Routes.toggle env id w)
  = set_flag id true
      (set_flag id true
         (set_telegram_bots (insert id (live_bot (telegramToken bot)))
            (logged (TgStartPolling (telegramToken bot), true)
               (logged (TgGetMe (telegramToken bot), true) w)))).
Proof.
  intros Hbot Hid Hflag Hfmt Hnet.
  rewrite toggle_eq, Hbot. cbn zeta. rewrite Hid, Hflag, createBot_eq, Hfmt.
  cbn zeta. rewrite !Hnet. reflexivity.
Qed.

(** Toggling a bot that is stored inactive and whose token does not have
    the expected shape. *)
Lemma toggle_refuses (w : World) (id : string) (bot : Bot) :
  storage_bots w !! id = Some bot ->
  bot_id bot = id ->
  flag_on (isActive bot) = false ->
  TelegramService.invalid_token_format (telegramToken bot) = true ->
  Routes.toggle env id w = (Return toggle_failed, set_flag id false w).
Proof.
  intros Hbot Hid Hflag Hfmt.
  rewrite toggle_eq, Hbot. cbn zeta. rewrite Hid, Hflag, createBot_eq, Hfmt.
  reflexivity.
Qed.
End ToggleSteps.

(** Reads the stored active flag off a state built with [set_flag]. *)
Ltac flag_after :=
  erewrite stored_active_lookup
    by (repeat apply set_flag_lookup_Some; cbn [logged set_telegram_bots storage_bots];
        eassumption).

Lemma set_flag_lookup_ne id other b w :
  other <> id -> storage_bots (set_flag id b w) !! other = storage_bots w !! other.
Proof.
  intros Hne. unfold set_flag, MemStorage.updateBot.
  destruct (storage_bots w !! id); cbn; [by rewrite lookup_insert_ne|done].
Qed.

Section ToggleTwice.
Context (env : Env).

(** The handler works on [bot.id].  When the record stored under [id]
    carries another id, a toggle of [id] leaves that record and the
    registry entry of [id] as they are. *)
Lemma toggle_other_id (w : World) (id : string) (bot : Bot) :
  storage_bots w !! id = Some bot ->
  bot_id bot <> id ->
  storage_bots (snd (Routes.toggle env id w)) !! id = Some bot
  /\ telegram_bots (snd (Routes.toggle env id w)) !! id = telegram_bots w !! id.
Proof.
  intros Hbot Hne. assert (Hne' : id <> bot_id bot) by congruence.
  rewrite toggle_eq, Hbot. cbn zeta.
  destruct (flag_on (isActive bot)).
  - rewrite stopBot_eq. destruct (telegram_bots w !! bot_id bot) as [tb|]; cbn zeta;
      cbn [fst snd]; [|done].
    rewrite !set_flag_lookup_ne, !telegram_bots_set_flag by done.
    cbn [set_telegram_bots logged storage_bots telegram_bots].
    by rewrite lookup_delete_ne.
  - rewrite createBot_eq.
    destruct (TelegramService.invalid_token_format (telegramToken bot)); cbn zeta;
      cbn [fst snd].
    { rewrite !set_flag_lookup_ne, !telegram_bots_set_flag by done. done. }
    destruct (net_ok env (net w) (TgGetMe (telegramToken bot))); cbn [negb fst snd].
    2:{ rewrite !set_flag_lookup_ne, !telegram_bots_set_flag by done. done. }
    destruct (net_ok env _ (TgStartPolling (telegramToken bot))); cbn [negb fst snd].
    2:{ rewrite !set_flag_lookup_ne, !telegram_bots_set_flag by done. done. }
    rewrite !set_flag_lookup_ne, !telegram_bots_set_flag by done.
    cbn [set_telegram_bots logged storage_bots telegram_bots].
    by rewrite lookup_insert_ne.
Qed.

(** C6, as the code has it.  Take a stored bot whose stored active flag
    agrees with the registry, and let every transport operation succeed.
    Two toggles in a row bring the stored active flag back to where it was
    (and flag and registry agree again), provided that a bot which starts
    active has a stored token of the expected shape, since the second
    toggle has to activate it again. *)
Theorem toggle_twice_restores (w : World) (id : string) (bot : Bot) :
  storage_bots w !! id = Some bot ->
  in_sync w id ->
  (forall history call, net_ok env history call = true) ->
  (flag_on (isActive bot) = true ->
     TelegramService.invalid_token_format (telegramToken bot) = false) ->
  let w1 := snd (Routes.toggle env id w) in
  let w2 := snd (Routes.toggle env id w1) in
  stored_active w2 id = stored_active w id /\ in_sync w2 id.
Proof.
  intros Hbot Hsync Hnet Htoken w1 w2.
  destruct (decide (bot_id bot = id)) as [Hid|Hother].
  2:{ destruct (toggle_other_id w id bot Hbot Hother) as [Hbot1 Htb1].
      fold w1 in Hbot1, Htb1.
      destruct (toggle_other_id w1 id bot Hbot1 Hother) as [Hbot2 Htb2].
      fold w2 in Hbot2, Htb2.
      unfold in_sync, stored_active, registered in *.
      rewrite Hbot2, Htb2, Htb1. rewrite Hbot in *. by split. }
  unfold in_sync in *.
  rewrite (stored_active_lookup w id bot Hbot) in *.
  destruct (flag_on (isActive bot)) eqn:Hflag.
  - (* active: stop, then start again *)
    symmetry in Hsync. apply bool_decide_eq_true in Hsync. destruct Hsync as [tb Htb].
    assert (Hw1 := toggle_stops env w id bot tb Hbot Hid Hflag Htb). fold w1 in Hw1.
    assert (Hbot1 : storage_bots w1 !! id
                    = Some (apply_patch (apply_patch bot (patch_isActive false))
                              (patch_isActive false))).
    { rewrite Hw1. do 2 apply set_flag_lookup_Some. exact Hbot. }
    assert (Hw2 := toggle_starts env w1 id _ Hbot1 Hid eq_refl (Htoken eq_refl) Hnet).
    fold w2 in Hw2. cbn [apply_patch telegramToken patch_isActive p_telegramToken default
                           from_option] in Hw2.
    rewrite Hw2. flag_after. split; [reflexivity|].
    + symmetry. eapply registered_lookup.
      rewrite !telegram_bots_set_flag. apply lookup_insert_eq.
  - (* inactive *)
    symmetry in Hsync. apply bool_decide_eq_false in Hsync.
    destruct (TelegramService.invalid_token_format (telegramToken bot)) eqn:Hfmt.
    + (* the token is refused both times *)
      assert (Hw1 : w1 = set_flag id false w).
      { subst w1. by rewrite (toggle_refuses env w id bot). }
      assert (Hbot1 := set_flag_lookup_Some id false w bot Hbot). rewrite <- Hw1 in Hbot1.
      assert (Hw2 : w2 = set_flag id false w1).
      { subst w2. by rewrite (toggle_refuses env w1 id _ Hbot1). }
      rewrite Hw2. flag_after. split; [reflexivity|].
      * symmetry. apply registered_absent.
        rewrite Hw1, !telegram_bots_set_flag.
        destruct (telegram_bots w !! id) eqn:E; [|reflexivity].
        exfalso. apply Hsync. eauto.
    + (* start, then stop again *)
      assert (Hw1 := toggle_starts env w id bot Hbot Hid Hflag Hfmt Hnet). fold w1 in Hw1.
      assert (Hbot1 : storage_bots w1 !! id
                      = Some (apply_patch (apply_patch bot (patch_isActive true))
                                (patch_isActive true))).
      { rewrite Hw1. do 2 apply set_flag_lookup_Some. exact Hbot. }
      assert (Htb1 : telegram_bots w1 !! id = Some (live_bot (telegramToken bot))).
      { rewrite Hw1, !telegram_bots_set_flag. apply lookup_insert_eq. }
      assert (Hw2 := toggle_stops env w1 id _ _ Hbot1 Hid eq_refl Htb1). fold w2 in Hw2.
      rewrite Hw2. flag_after. split; [reflexivity|].
      * symmetry. apply registered_absent.
        rewrite !telegram_bots_set_flag. apply lookup_delete_eq.
Qed.
End ToggleTwice.

Lemma toggle_twice_restores_witness :
  stored_active (ToggleScenario.toggled_twice Fixtures.pirate_world) "id-"
  = stored_active Fixtures.pirate_world "id-"
  /\ in_sync (ToggleScenario.toggled_twice Fixtures.pirate_world) "id-".
Proof.
  apply (toggle_twice_restores Fixtures.friendly Fixtures.pirate_world "id-"
           ToggleScenario.pirate_bot).
  - vm_compute. reflexivity.
  - vm_compute. reflexivity.
  - intros history call. reflexivity.
  - intros _. vm_compute. reflexivity.
Defined.

(** C6, as stated, fails.  A live bot whose stored token was blanked by a
    PATCH is stored active and registered, so flag and registry agree, and
    every transport operation succeeds; the first toggle stops it, the
    second refuses the empty token before any transport operation, and the
    bot stays inactive. *)
Lemma toggle_twice_counterexample :
  in_sync ToggleScenario.blanked_world "id-"
  /\ (forall history call, net_ok Fixtures.friendly history call = true)
  /\ stored_active ToggleScenario.blanked_world "id-" = true
  /\ stored_active (ToggleScenario.toggled_twice ToggleScenario.blanked_world) "id-" = false
  /\ stored_active (ToggleScenario.toggled_twice ToggleScenario.blanked_world) "id-"
     <> stored_active ToggleScenario.blanked_world "id-".
Proof.
  split_and!; [vm_compute; reflexivity | reflexivity | vm_compute; reflexivity
              | vm_compute; reflexivity | vm_compute; discriminate].
Qed.

(** ** Creating a bot whose token the platform rejects *)

Section CreateRejected.
Context (env : Env).

Lemma storage_createBot_eq (insertBot : InsertBot) (userId : string) (w : World) :
  MemStorage.createBot env insertBot userId w
  = (Return (created_bot env insertBot userId w),
     mkWorld (<[randomUUID env (uuids_drawn w) := created_bot env insertBot userId w]>
                (storage_bots w))
             (storage_botMessages w) (telegram_bots w) (net w)
             (S (uuids_drawn w)) (S (clock_reads w))).
Proof. reflexivity. Qed.

(** C2, as the code has it.  When the token has the expected shape and
    the platform rejects it, the activation answers [false] and leaves the
    new record stored with [isActive = false] and no live connection; the
    handler then deletes that record and answers 400 with a message, so
    once the response is sent no record is stored under the new id. *)
Theorem post_bots_rejected_token (w : World) (insertBot : InsertBot) :
  TelegramService.invalid_token_format (ins_telegramToken insertBot) = false ->
  net_ok env (net w) (TgGetMe (ins_telegramToken insertBot)) = false ->
  let id := randomUUID env (uuids_drawn w) in
  let created := snd (MemStorage.createBot env insertBot "demo-user" w) in
  exists activated,
    TelegramService.createBot env id (ins_telegramToken insertBot) created
    = (Return false, activated)
    /\ (exists bot, storage_bots activated !! id = Some bot /\ isActive bot = Some false)
    /\ telegram_bots activated = telegram_bots w
    /\ Routes.post_bots env (Some insertBot) w
       = (Return check_your_token, set_storage_bots (delete id) activated)
    /\ storage_bots (snd (Routes.post_bots env (Some insertBot) w)) !! id = None.
Proof.
  intros Hfmt HgetMe id created.
  assert (Hactivate :
    TelegramService.createBot env id (ins_telegramToken insertBot) created
    = (Return false,
       set_flag id false (logged (TgGetMe (ins_telegramToken insertBot), false) created))).
  { rewrite createBot_eq, Hfmt. cbn zeta.
    subst created. rewrite storage_createBot_eq. cbn [snd net].
    by rewrite HgetMe. }
  assert (Hpost :
    Routes.post_bots env (Some insertBot) w
    = (Return check_your_token,
       set_storage_bots (delete id)
         (set_flag id false
            (logged (TgGetMe (ins_telegramToken insertBot), false) created)))).
  { unfold Routes.post_bots. unfold try_catch, bind at 1 2. cbn [ret].
    unfold bind at 1. fold created. rewrite storage_createBot_eq.
    cbn [created_bot bot_id]. fold id.
    unfold bind at 1.
    replace (mkWorld _ _ _ _ _ _) with created
      by (subst created; by rewrite storage_createBot_eq).
    rewrite Hactivate. reflexivity. }
  eexists. split; [exact Hactivate|]. split_and!.
  - eexists. split.
    + apply set_flag_lookup_Some. subst created. rewrite storage_createBot_eq.
      cbn [snd logged storage_bots]. apply lookup_insert_eq.
    + reflexivity.
  - rewrite telegram_bots_set_flag. subst created. by rewrite storage_createBot_eq.
  - exact Hpost.
  - rewrite Hpost. cbn [snd set_storage_bots storage_bots]. apply lookup_delete_eq.
Qed.
End CreateRejected.

Lemma post_bots_rejected_token_witness :
  Routes.post_bots Fixtures.rejecting (Some Fixtures.pirate) empty_world
  = (Return check_your_token,
     snd (Routes.post_bots Fixtures.rejecting (Some Fixtures.pirate) empty_world))
  /\ storage_bots (snd (Routes.post_bots Fixtures.rejecting (Some Fixtures.pirate) empty_world))
       !! "id-" = None.
Proof.
  destruct (post_bots_rejected_token Fixtures.rejecting empty_world Fixtures.pirate)
    as (activated & _ & _ & _ & Hpost & Hgone).
  - vm_compute. reflexivity.
  - reflexivity.
  - split; [|exact Hgone]. rewrite Hpost. reflexivity.
Defined.

(** C2, as stated, fails on its middle part: after the request there is no
    stored record for the bot, so none with [isActive = false]. *)
Lemma post_bots_rejected_counterexample :
  TelegramService.invalid_token_format (ins_telegramToken Fixtures.pirate) = false
  /\ net_ok Fixtures.rejecting [] (TgGetMe (ins_telegramToken Fixtures.pirate)) = false
  /\ fst (Routes.post_bots Fixtures.rejecting (Some Fixtures.pirate) empty_world)
     = Return check_your_token
  /\ ~ (exists bot,
          storage_bots (snd (Routes.post_bots Fixtures.rejecting (Some Fixtures.pirate)
                               empty_world)) !! "id-" = Some bot
          /\ isActive bot = Some false)
  /\ storage_bots (snd (Routes.post_bots Fixtures.rejecting (Some Fixtures.pirate)
                          empty_world)) = ∅.
Proof.
  split_and!; try (vm_compute; reflexivity).
  intros (bot & Hstored & _). vm_compute in Hstored. discriminate.
Qed.

(** ** The completion gateway *)

Section Gateway.
Context (env : Env).

Lemma generateResponse_1_eq (w : World) (message personality model : string)
    (temperature maxTokens : Js.Num) :
  let request := request_1 message personality model temperature maxTokens in
  let ok := net_ok env (net w) (OpenAICreate request) in
  OpenAIService.generateResponse_1 env (Js.Str message) (Js.Str personality)
    (config_val model temperature maxTokens) w
  = (gateway_result "I'm sorry, I couldn't generate a response." ok
       (completion env (net w) request),
     logged (OpenAICreate request, ok) w).
Proof.
  cbn zeta. unfold OpenAIService.generateResponse_1, OpenAIService.create,
    OpenAIService.first_content, gateway_result, config_val. run. cbn.
  fold (request_1 message personality model temperature maxTokens).
  destruct (net_ok env (net w) _); [|reflexivity].
  destruct (choices _); reflexivity.
Qed.

Lemma generateResponse_2_eq (w : World) (message systemPrompt : string)
    (history : list (string * string)) :
  let request := request_2 message systemPrompt history in
  let ok := net_ok env (net w) (OpenAICreate request) in
  OpenAIService.generateResponse_2 env (chat_params message systemPrompt history) w
  = (gateway_result "Извините, не удалось сгенерировать ответ." ok
       (completion env (net w) request),
     logged (OpenAICreate request, ok) w).
Proof.
  cbn zeta. unfold OpenAIService.generateResponse_2, OpenAIService.create,
    OpenAIService.first_content, gateway_result, chat_params. run. cbn.
  fold (request_2 message systemPrompt history).
  destruct (net_ok env (net w) _); [|reflexivity].
  destruct (choices _); reflexivity.
Qed.
End Gateway.

Lemma gateway_result_fails (fallback : string) (ok : bool) (response : CompletionResponse) :
  gateway_result fallback ok response = Throw generation_error
  <-> ok = false \/ choices response = [].
Proof.
  unfold gateway_result. destruct ok; [|by intuition].
  destruct (choices response); split; intros H; auto.
  - discriminate.
  - destruct H; discriminate.
Qed.

Lemma gateway_result_fallback (fallback : string) (response : CompletionResponse)
    (content : option string) (rest : list (option string)) :
  choices response = content :: rest ->
  Js.truthy_opt content = false ->
  gateway_result fallback true response = Return fallback.
Proof.
  intros Hchoices Hempty. unfold gateway_result. rewrite Hchoices.
  destruct content as [s|]; cbn in *; [|reflexivity]. by rewrite Hempty.
Qed.

Section GatewayFailure.
Context (env : Env).

(** What a call makes of the argument it is given. *)
Lemma generateResponse_built (args : list Js.Val) (w : World) :
  OpenAIService.generateResponse env args w
  = match built_request (OpenAIService.arg 0 args) with
    | Some request =>
        (gateway_result "Извините, не удалось сгенерировать ответ."
           (net_ok env (net w) (OpenAICreate request)) (completion env (net w) request),
         logged (OpenAICreate request, net_ok env (net w) (OpenAICreate request)) w)
    | None => (Throw generation_error, w)
    end.
Proof.
  change (OpenAIService.generateResponse env args)
    with (OpenAIService.generateResponse_2 env (OpenAIService.arg 0 args)).
  unfold OpenAIService.generateResponse_2, OpenAIService.create,
    OpenAIService.first_content, gateway_result, built_request. run.
  destruct (Js.get (OpenAIService.arg 0 args) "systemPrompt") as [systemPrompt|e1]; cbn;
    [|reflexivity].
  destruct (Js.get (OpenAIService.arg 0 args) "history") as [history|e2]; cbn;
    [|reflexivity].
  destruct (Js.spread history) as [turns|e3]; cbn.
  2:{ by destruct (Js.get (OpenAIService.arg 0 args) "message"). }
  destruct (Js.get (OpenAIService.arg 0 args) "message") as [message|e4]; cbn;
    [|reflexivity].
  fold (chat_request message systemPrompt turns).
  destruct (net_ok env (net w) _); [|reflexivity].
  destruct (choices _); reflexivity.
Qed.

(** C3, as the code has it.  A call [openaiService.generateResponse(...)]
    runs the declaration that takes one [chatParams] object, whatever it is
    given.  It fails, with the one generation error, exactly when no request
    can be built from its first argument, or the upstream call errors, or
    the response has no first choice.  A first choice whose content is null
    or empty is not a failure: the gateway itself returns its fixed
    fallback sentence.  From a well-typed [chatParams] the request is
    built; from a call of the shape [(message, personality, config)] with a
    string message it is not, so such a call always fails and nothing is
    sent. *)
Theorem generateResponse_fails_iff (w : World) (args : list Js.Val) :
  let run := OpenAIService.generateResponse env args w in
  (fst run = Throw generation_error
   <-> match built_request (OpenAIService.arg 0 args) with
       | Some request =>
           net_ok env (net w) (OpenAICreate request) = false
           \/ choices (completion env (net w) request) = []
       | None => True
       end)
  /\ (forall request content rest,
        built_request (OpenAIService.arg 0 args) = Some request ->
        net_ok env (net w) (OpenAICreate request) = true ->
        choices (completion env (net w) request) = content :: rest ->
        fst run = Return (Js.or_default content "Извините, не удалось сгенерировать ответ.")
        /\ (Js.truthy_opt content = false ->
            fst run = Return "Извините, не удалось сгенерировать ответ."))
  /\ (built_request (OpenAIService.arg 0 args) = None -> snd run = w)
  /\ (forall message prompt history,
        built_request (chat_params message prompt history)
        = Some (request_2 message prompt history))
  /\ (forall message personality config,
        built_request (Js.Str message) = None
        /\ OpenAIService.generateResponse env [Js.Str message; personality; config] w
           = (Throw generation_error, w)).
Proof.
  cbn zeta. rewrite generateResponse_built. split_and!.
  - destruct (built_request (OpenAIService.arg 0 args)) as [request|]; cbn [fst];
      [apply gateway_result_fails | tauto].
  - intros request content rest -> Hok Hchoices. cbn [fst].
    unfold gateway_result. rewrite Hok, Hchoices. split; [reflexivity|].
    intros Hempty. destruct content as [text|]; cbn in *; [|reflexivity].
    by rewrite Hempty.
  - by intros ->.
  - reflexivity.
  - intros message personality config. split; reflexivity.
Qed.
End GatewayFailure.

(** C3, as stated, fails: the upstream call succeeds with a choice that has
    no content, and the gateway returns text instead of failing. *)
Lemma generateResponse_no_content_counterexample :
  net_ok Fixtures.silent [] (OpenAICreate (request_2 "hi" "Be brief." [])) = true
  /\ choices (completion Fixtures.silent [] (request_2 "hi" "Be brief." [])) = [None]
  /\ fst (OpenAIService.generateResponse Fixtures.silent [chat_params "hi" "Be brief." []]
            empty_world)
     = Return "Извините, не удалось сгенерировать ответ."
  /\ fst (OpenAIService.generateResponse_1 Fixtures.silent (Js.Str "hi") (Js.Str "Be brief.")
            (config_val "gpt-4" (Js.Fin (2 # 10)) (Js.of_Z 64)) empty_world)
     = Return "I'm sorry, I couldn't generate a response."
  /\ fst (OpenAIService.generateResponse Fixtures.silent [chat_params "hi" "Be brief." []]
            empty_world)
     <> Throw generation_error.
Proof.
  split_and!; try reflexivity. discriminate.
Qed.

(** ** Routing an inbound message *)

Section InboundMessage.
Context (env : Env).

(** The call [openaiService.generateResponse(...)] runs the second
    declaration, whatever the arguments. *)
Lemma generateResponse_is_second (args : list Js.Val) :
  OpenAIService.generateResponse env args
  = OpenAIService.generateResponse_2 env (OpenAIService.arg 0 args).
Proof. reflexivity. Qed.

(** Given a string where it expects [chatParams], the second declaration
    throws while it builds the message list, before anything is sent. *)
Lemma generateResponse_string_arg (s : string) (rest : list Js.Val) (w : World) :
  OpenAIService.generateResponse env (Js.Str s :: rest) w = (Throw generation_error, w).
Proof. reflexivity. Qed.

(** The first declaration, with the arguments [handleMessage] passes,
    would have sent the bot's own configuration. *)
Lemma generateResponse_1_sends_config (userMessage : string) (botConfig : Bot) (w : World) :
  net (snd (OpenAIService.generateResponse_1 env (Js.Str userMessage)
              (TelegramService.personality_of botConfig)
              (TelegramService.config_of botConfig) w))
  = (net w ++
      [(OpenAICreate
          (request_1 userMessage
             (Js.or_default (personality botConfig) "You are a helpful assistant.")
             (Js.or_default (Some (gptModel botConfig)) "gpt-5")
             (Js.parseFloat (Js.or_default (temperature botConfig) "0.7"))
             (Js.parseInt (Js.or_default (maxTokens botConfig) "150"))),
        net_ok env (net w)
          (OpenAICreate
             (request_1 userMessage
                (Js.or_default (personality botConfig) "You are a helpful assistant.")
                (Js.or_default (Some (gptModel botConfig)) "gpt-5")
                (Js.parseFloat (Js.or_default (temperature botConfig) "0.7"))
                (Js.parseInt (Js.or_default (maxTokens botConfig) "150")))))])%list.
Proof.
  unfold TelegramService.personality_of, TelegramService.config_of.
  fold (config_val (Js.or_default (Some (gptModel botConfig)) "gpt-5")
          (Js.parseFloat (Js.or_default (temperature botConfig) "0.7"))
          (Js.parseInt (Js.or_default (maxTokens botConfig) "150"))).
  by rewrite generateResponse_1_eq.
Qed.

(** C1, what the code does.  For a bot with a stored configuration and an
    inbound text, [handleMessage] logs the inbound record, sends no
    completion request at all, and sends the apology to the chat: the only
    remote call it adds is that one. *)
Theorem handleMessage_requests_no_completion (w : World) (botId userMessage : string)
    (bot : TelegramBot) (chatId : Z) (botConfig : Bot) :
  storage_bots w !! botId = Some botConfig ->
  userMessage <> "" ->
  let w' := snd (TelegramService.handleMessage env botId bot
                   (mkTgMessage chatId (Some userMessage)) w) in
  net w' = (net w ++ [(TgSendMessage (tb_token bot) chatId apology,
                       net_ok env (net w) (TgSendMessage (tb_token bot) chatId apology))])%list
  /\ (forall request ok, (OpenAICreate request, ok) ∈ net w' ->
                         (OpenAICreate request, ok) ∈ net w)
  /\ storage_botMessages w'
     = map_set (randomUUID env (uuids_drawn w))
         (mkBotMessage (randomUUID env (uuids_drawn w)) botId userMessage None
            (Some (Date_now env (clock_reads w))))
         (storage_botMessages w).
Proof.
  intros Hbot Htext.
  assert (Htruthy : Js.truthy_string userMessage = true).
  { unfold Js.truthy_string. apply negb_true_iff. by apply String.eqb_neq. }
  assert (Hrun :
    snd (TelegramService.handleMessage env botId bot
           (mkTgMessage chatId (Some userMessage)) w)
    = logged (TgSendMessage (tb_token bot) chatId apology,
              net_ok env (net w) (TgSendMessage (tb_token bot) chatId apology))
        (mkWorld (storage_bots w)
           (map_set (randomUUID env (uuids_drawn w))
              (mkBotMessage (randomUUID env (uuids_drawn w)) botId userMessage None
                 (Some (Date_now env (clock_reads w))))
              (storage_botMessages w))
           (telegram_bots w) (net w) (S (uuids_drawn w)) (S (clock_reads w)))).
  { unfold TelegramService.handleMessage. cbn [text chat_id]. rewrite Htruthy. cbn [negb].
    unfold MemStorage.getBot, MemStorage.createBotMessage. run. rewrite Hbot.
    cbn [im_botId im_message im_response Js.or_null].
    rewrite generateResponse_string_arg. cbn [net]. fold apology.
    by destruct (net_ok env (net w) _). }
  cbn zeta. rewrite Hrun. cbn [logged net storage_botMessages]. split_and!; [done| |done].
  intros request ok Hin. apply elem_of_app in Hin as [Hin|Hin]; [done|].
  apply list_elem_of_singleton in Hin. discriminate.
Qed.
End InboundMessage.

(** At the pirate bot: stored model [gpt-4], temperature [0.2], 64 tokens
    and its own personality.  The first declaration would send exactly
    those; the handler sends nothing to the completion service. *)
Lemma handleMessage_requests_no_completion_witness :
  let w' := snd (TelegramService.handleMessage Fixtures.friendly "id-"
                   (live_bot Fixtures.good_token) (mkTgMessage 42 (Some "Ahoy"))
                   Fixtures.pirate_world) in
  net w' = (net Fixtures.pirate_world
              ++ [(TgSendMessage Fixtures.good_token 42 apology, true)])%list
  /\ net (snd (OpenAIService.generateResponse_1 Fixtures.friendly (Js.Str "Ahoy")
                 (TelegramService.personality_of ToggleScenario.pirate_bot)
                 (TelegramService.config_of ToggleScenario.pirate_bot)
                 Fixtures.pirate_world))
     = (net Fixtures.pirate_world
          ++ [(OpenAICreate (request_1 "Ahoy" "You are a pirate." "gpt-4"
                               (Js.Fin (1 # 5)) (Js.of_Z 64)), true)])%list.
Proof.
  destruct (handleMessage_requests_no_completion Fixtures.friendly Fixtures.pirate_world
              "id-" "Ahoy" (live_bot Fixtures.good_token) 42 ToggleScenario.pirate_bot)
    as (Hnet & _ & _).
  - vm_compute. reflexivity.
  - discriminate.
  - split; [exact Hnet|]. vm_compute. reflexivity.
Defined.

(** ** Reading the message log *)

Lemma sort_insert_perm {A} (compare : A -> A -> Z) (x : A) (l : list A) :
  Permutation (Js.sort_insert compare x l) (x :: l).
Proof.
  induction l as [|y l IH]; cbn; [reflexivity|].
  destruct (0 <? compare x y); [|reflexivity].
  rewrite IH. apply perm_swap.
Qed.

Lemma sort_perm {A} (compare : A -> A -> Z) (l : list A) :
  Permutation (Js.sort compare l) l.
Proof.
  induction l as [|x l IH]; cbn; [reflexivity|].
  unfold Js.sort in IH. by rewrite sort_insert_perm, IH.
Qed.

Lemma sort_insert_descending (x : BotMessage) (l : list BotMessage) :
  descending l -> descending (Js.sort_insert newest_first x l).
Proof.
  induction l as [|y l IH]; cbn; [by repeat constructor|].
  intros [Hy Hl]. unfold newest_first at 1.
  destruct (0 <? _) eqn:E.
  - apply Z.ltb_lt in E. cbn. split; [|by apply IH].
    rewrite (sort_insert_perm newest_first x l). constructor; [lia|exact Hy].
  - apply Z.ltb_ge in E. cbn. split_and!; [|exact Hy|exact Hl].
    constructor; [lia|]. eapply Forall_impl; [exact Hy|]. cbn. intros; lia.
Qed.

Lemma sort_descending (l : list BotMessage) : descending (Js.sort newest_first l).
Proof.
  induction l as [|x l IH]; cbn; [exact I|]. by apply sort_insert_descending.
Qed.

Lemma descending_take (n : nat) (l : list BotMessage) :
  descending l -> descending (take n l).
Proof.
  revert n. induction l as [|x l IH]; intros [|n]; cbn; auto.
  intros [Hx Hl]. split; [|by apply IH]. by apply Forall_take.
Qed.

Lemma sort_insert_same_time (t : Z) (x : BotMessage) (l : list BotMessage) :
  List.filter (same_time t) (Js.sort_insert newest_first x l)
  = List.filter (same_time t) (x :: l).
Proof.
  induction l as [|y l IH]; [reflexivity|].
  cbn [Js.sort_insert]. destruct (0 <? newest_first x y) eqn:E; [|reflexivity].
  apply Z.ltb_lt in E. unfold newest_first in E.
  cbn [List.filter]. rewrite IH. cbn [List.filter]. unfold same_time.
  destruct (MemStorage.time_or_0 y =? t) eqn:Ey, (MemStorage.time_or_0 x =? t) eqn:Ex;
    try reflexivity.
  apply Z.eqb_eq in Ey, Ex. lia.
Qed.

(** The sort is stable: the records of one timestamp stay in the order
    they had. *)
Lemma sort_same_time (t : Z) (l : list BotMessage) :
  List.filter (same_time t) (Js.sort newest_first l) = List.filter (same_time t) l.
Proof.
  induction l as [|x l IH]; [reflexivity|].
  change (Js.sort newest_first (x :: l))
    with (Js.sort_insert newest_first x (Js.sort newest_first l)).
  rewrite sort_insert_same_time. cbn [List.filter]. by rewrite IH.
Qed.

Lemma sort_newest_first_order (l : list BotMessage) :
  newest_first_order (Js.sort newest_first l) l.
Proof.
  split_and!; [apply sort_perm | apply sort_descending | intros t; apply sort_same_time].
Qed.

Lemma descending_app (front back : list BotMessage) (kept left : BotMessage) :
  descending (front ++ back) -> In kept front -> In left back ->
  MemStorage.time_or_0 left <= MemStorage.time_or_0 kept.
Proof.
  induction front as [|x front IH]; cbn; [tauto|].
  intros [Hx Hrest] [->|Hin] Hleft.
  - rewrite List.Forall_forall in Hx. apply Hx. apply in_or_app. by right.
  - by apply IH.
Qed.

Lemma sort_insert_last {A} (compare : A -> A -> Z) (x : A) (l : list A) :
  Forall (fun y => 0 < compare x y) l ->
  Js.sort_insert compare x l = (l ++ [x])%list.
Proof.
  induction 1 as [|y l Hy _ IH]; cbn; [reflexivity|].
  apply Z.ltb_lt in Hy. by rewrite Hy, IH.
Qed.

Lemma sort_ascending (l : list BotMessage) :
  ascending l -> Js.sort newest_first l = rev l.
Proof.
  induction l as [|m rest IH]; cbn; [reflexivity|].
  intros [Holder Hrest]. unfold Js.sort in IH. rewrite (IH Hrest).
  apply sort_insert_last. apply List.Forall_forall. intros y Hy.
  apply in_rev in Hy. rewrite List.Forall_forall in Holder.
  specialize (Holder y Hy). unfold newest_first. lia.
Qed.

Lemma slice_from_0 {A} (l : list A) (n : Z) :
  0 <= n -> Js.slice l (Js.of_Z 0) (Some (Js.of_Z n)) = take (Z.to_nat n) l.
Proof.
  intros Hn. unfold Js.slice, Js.clamp_index, Js.of_Z. cbn.
  rewrite !Z.quot_1_r.
  change (0 <? 0) with false. cbn iota.
  destruct (n <? 0) eqn:E; [apply Z.ltb_lt in E; lia|].
  replace (0 `min` Z.of_nat (length l)) with 0 by lia.
  rewrite Z.sub_0_r. change (drop (Z.to_nat 0) l) with l.
  destruct (Z.min_spec n (Z.of_nat (length l))) as [[_ ->]|[Hle ->]]; [reflexivity|].
  rewrite Nat2Z.id, firstn_all. symmetry. apply firstn_all2. lia.
Qed.

Lemma map_set_fresh {V} (k : string) (v : V) (m : list (string * V)) :
  ~ In k (map fst m) -> map_set k v m = (m ++ [(k, v)])%list.
Proof.
  induction m as [|[k' v'] m IH]; cbn; intros Hfresh; [reflexivity|].
  destruct (String.eqb_spec k' k) as [->|Hne]; [tauto|].
  rewrite IH; [reflexivity|tauto].
Qed.

(** Logging an exchange under a fresh identifier puts its record last among
    the records of its bot. *)
Lemma createBotMessage_records (env : Env) (w : World) (insertMessage : InsertBotMessage) :
  ~ In (randomUUID env (uuids_drawn w)) (map fst (storage_botMessages w)) ->
  records_of (snd (MemStorage.createBotMessage env insertMessage w)) (im_botId insertMessage)
  = (records_of w (im_botId insertMessage)
       ++ [mkBotMessage (randomUUID env (uuids_drawn w)) (im_botId insertMessage)
             (im_message insertMessage) (Js.or_null (im_response insertMessage))
             (Some (Date_now env (clock_reads w)))])%list.
Proof.
  intros Hfresh. unfold records_of, MemStorage.createBotMessage. run.
  rewrite (map_set_fresh _ _ _ Hfresh), map_app, List.filter_app. cbn.
  by rewrite String.eqb_refl.
Qed.

Lemma getBotMessages_eq (w : World) (botId : string) (limit : option Js.Num) :
  MemStorage.getBotMessages botId limit w
  = (Return (Js.slice (Js.sort newest_first (records_of w botId)) (Js.of_Z 0)
               (Some (default (Js.of_Z 50) limit))), w).
Proof. reflexivity. Qed.

(** A record newer than all those created before it comes first. *)
Lemma sort_newest_last (x : BotMessage) (l acc : list BotMessage) :
  Forall (fun m => MemStorage.time_or_0 m < MemStorage.time_or_0 x) l ->
  fold_right (Js.sort_insert newest_first) (x :: acc) l
  = x :: fold_right (Js.sort_insert newest_first) acc l.
Proof.
  induction 1 as [|y l Hy _ IH]; [reflexivity|].
  cbn [fold_right]. rewrite IH. cbn [Js.sort_insert]. unfold newest_first at 1.
  apply Z.lt_0_sub, Z.ltb_lt in Hy. by rewrite Hy.
Qed.

Lemma sort_snoc_newest (x : BotMessage) (l : list BotMessage) :
  Forall (fun m => MemStorage.time_or_0 m < MemStorage.time_or_0 x) l ->
  Js.sort newest_first (l ++ [x]) = x :: Js.sort newest_first l.
Proof.
  intros Hnewer. unfold Js.sort. rewrite fold_right_app. cbn [fold_right Js.sort_insert].
  by apply sort_newest_last.
Qed.

(** C8, as the code has it.  When the records of a bot carry strictly
    increasing timestamps in creation order and there are at least three of
    them, a limit of 2 gives the two most recently created, newest first;
    with no limit the newest 50 come back in the same order, from the
    storage call and from the endpoint alike.  For the limit of 2 it is
    enough that the last created record is strictly newer than the one
    before it, and that one strictly newer than every earlier record.
    Whatever the timestamps, the limit cuts one list: the bot's records
    newest first by timestamp, with the records of one timestamp kept in
    creation order. *)
Theorem getBotMessages_newest_first (w : World) (botId : string) :
  (forall older m1 m2 m3,
      records_of w botId = (older ++ [m1; m2; m3])%list ->
      ascending (older ++ [m1; m2; m3]) ->
      MemStorage.getBotMessages botId (Some (Js.of_Z 2)) w = (Return [m3; m2], w)
      /\ MemStorage.getBotMessages botId None w
         = (Return (take 50 (m3 :: m2 :: m1 :: rev older)), w)
      /\ Routes.get_messages botId None w
         = (Return (mkResponse 200 (JsonMessages (take 50 (m3 :: m2 :: m1 :: rev older)))),
            w)
      /\ Routes.get_messages botId (Some "2") w
         = (Return (mkResponse 200 (JsonMessages [m3; m2])), w))
  /\ (forall earlier m2 m3,
        records_of w botId = (earlier ++ [m2; m3])%list ->
        MemStorage.time_or_0 m2 < MemStorage.time_or_0 m3 ->
        Forall (fun m => MemStorage.time_or_0 m < MemStorage.time_or_0 m2) earlier ->
        MemStorage.getBotMessages botId (Some (Js.of_Z 2)) w = (Return [m3; m2], w)
        /\ Routes.get_messages botId (Some "2") w
           = (Return (mkResponse 200 (JsonMessages [m3; m2])), w))
  /\ exists ordered,
       newest_first_order ordered (records_of w botId)
       /\ (forall n, 0 <= n ->
             MemStorage.getBotMessages botId (Some (Js.of_Z n)) w
             = (Return (take (Z.to_nat n) ordered), w))
       /\ MemStorage.getBotMessages botId None w = (Return (take 50 ordered), w)
       /\ Routes.get_messages botId None w
          = (Return (mkResponse 200 (JsonMessages (take 50 ordered))), w)
       /\ Routes.get_messages botId (Some "2") w
          = (Return (mkResponse 200 (JsonMessages (take 2 ordered))), w).
Proof.
  split_and!.
  - intros older m1 m2 m3 Hrecords Hasc.
    assert (Hsorted :
      Js.sort newest_first (records_of w botId) = m3 :: m2 :: m1 :: rev older).
    { rewrite Hrecords, (sort_ascending _ Hasc), rev_app_distr. reflexivity. }
    unfold Routes.get_messages, try_catch, bind, ret. cbn [Routes.limit_of].
    change (Js.truthy_string "2") with true.
    change (Js.parseInt "2") with (Js.of_Z 2). cbn iota.
    rewrite !getBotMessages_eq, Hsorted. cbv [default from_option id].
    rewrite !slice_from_0 by lia. repeat split.
  - intros earlier m2 m3 Hrecords Hlast Hearlier.
    assert (Hsorted :
      Js.sort newest_first (records_of w botId)
      = m3 :: m2 :: Js.sort newest_first earlier).
    { rewrite Hrecords.
      change (earlier ++ [m2; m3])%list with (earlier ++ [m2] ++ [m3])%list.
      rewrite app_assoc, sort_snoc_newest.
      - by rewrite sort_snoc_newest.
      - apply Forall_app. split; [|by repeat constructor].
        eapply Forall_impl; [exact Hearlier|]. cbn. intros; lia. }
    unfold Routes.get_messages, try_catch, bind, ret. cbn [Routes.limit_of].
    change (Js.truthy_string "2") with true.
    change (Js.parseInt "2") with (Js.of_Z 2). cbn iota.
    rewrite !getBotMessages_eq, Hsorted. cbv [default from_option id].
    rewrite !slice_from_0 by lia. split; reflexivity.
  - exists (Js.sort newest_first (records_of w botId)).
    split; [apply sort_newest_first_order|].
    unfold Routes.get_messages, try_catch, bind, ret. cbn [Routes.limit_of].
    change (Js.truthy_string "2") with true.
    change (Js.parseInt "2") with (Js.of_Z 2). cbn iota.
    rewrite !getBotMessages_eq. cbv [default from_option id].
    rewrite !slice_from_0 by lia. split_and!; try reflexivity.
    intros n Hn. rewrite getBotMessages_eq. cbv [default from_option id].
    by rewrite slice_from_0.
Qed.

Lemma getBotMessages_newest_first_witness :
  let w := LogScenario.three_logged Fixtures.friendly in
  MemStorage.getBotMessages "bot-1" (Some (Js.of_Z 2)) w
  = (Return [LogScenario.record "id-ii" "3" 1700000000002;
             LogScenario.record "id-i" "2" 1700000000001], w)
  /\ Routes.get_messages "bot-1" None w
     = (Return (mkResponse 200
                  (JsonMessages [LogScenario.record "id-ii" "3" 1700000000002;
                                 LogScenario.record "id-i" "2" 1700000000001;
                                 LogScenario.record "id-" "1" 1700000000000])), w).
Proof.
  destruct (getBotMessages_newest_first (LogScenario.three_logged Fixtures.friendly) "bot-1")
    as (Hstrict & _ & _).
  destruct (Hstrict []
              (LogScenario.record "id-" "1" 1700000000000)
              (LogScenario.record "id-i" "2" 1700000000001)
              (LogScenario.record "id-ii" "3" 1700000000002))
    as (Htwo & _ & Hall & _).
  - vm_compute. reflexivity.
  - vm_compute. repeat constructor.
  - split; [exact Htwo | exact Hall].
Defined.

(** C8, as stated, fails.  Three exchanges logged within the same
    millisecond carry the same timestamp; the sort keeps them in creation
    order, and a limit of 2 gives the two oldest, oldest first. *)
Lemma getBotMessages_same_millisecond_counterexample :
  let w := LogScenario.three_logged Fixtures.frozen_clock in
  records_of w "bot-1"
  = [LogScenario.record "id-" "1" 1700000000000;
     LogScenario.record "id-i" "2" 1700000000000;
     LogScenario.record "id-ii" "3" 1700000000000]
  /\ fst (MemStorage.getBotMessages "bot-1" (Some (Js.of_Z 2)) w)
     = Return [LogScenario.record "id-" "1" 1700000000000;
               LogScenario.record "id-i" "2" 1700000000000]
  /\ fst (MemStorage.getBotMessages "bot-1" (Some (Js.of_Z 2)) w)
     <> Return [LogScenario.record "id-ii" "3" 1700000000000;
                LogScenario.record "id-i" "2" 1700000000000].
Proof.
  split_and!; [vm_compute; reflexivity | vm_compute; reflexivity | vm_compute; discriminate].
Qed.

(** ** A limit that is not a number *)

Lemma slice_to_NaN {A} (l : list A) : Js.slice l (Js.of_Z 0) (Some Js.NaN) = [].
Proof.
  unfold Js.slice, Js.clamp_index, Js.of_Z. cbn.
  change (0 <? 0) with false. cbn iota. by rewrite Z.sub_diag.
Qed.

(** C10, as the code has it.  A [limit] query parameter that is present,
    not empty, and that [parseInt] cannot read as an integer is parsed to
    NaN, and the endpoint answers 200 with the empty list: neither an error
    nor the first 50 messages.  An empty [limit] cannot be read either, but
    it is never parsed: the handler tests it for truthiness first, and
    answers as if no limit had been given, with the default of 50. *)
Theorem get_messages_unparseable_limit (w : World) (botId : string) :
  (forall limit,
      limit <> "" ->
      Js.parseInt limit = Js.NaN ->
      Routes.limit_of (Some limit) = Js.NaN
      /\ Routes.get_messages botId (Some limit) w
         = (Return (mkResponse 200 (JsonMessages [])), w))
  /\ Js.parseInt "" = Js.NaN
  /\ Routes.limit_of (Some "") = Js.of_Z 50
  /\ Routes.get_messages botId (Some "") w = Routes.get_messages botId None w
  /\ Routes.get_messages botId (Some "") w
     = (Return (mkResponse 200
                  (JsonMessages (take 50 (Js.sort newest_first (records_of w botId))))), w).
Proof.
  split_and!; try reflexivity.
  - intros limit Hpresent HNaN.
    assert (Hlimit : Routes.limit_of (Some limit) = Js.NaN).
    { unfold Routes.limit_of, Js.truthy_string.
      apply String.eqb_neq in Hpresent. by rewrite Hpresent. }
    split; [exact Hlimit|].
    unfold Routes.get_messages, try_catch, bind, ret.
    rewrite Hlimit, getBotMessages_eq. cbv [default from_option id].
    by rewrite slice_to_NaN.
  - unfold Routes.get_messages, try_catch, bind, ret. cbn [Routes.limit_of].
    change (Js.truthy_string "") with false. cbn iota.
    rewrite getBotMessages_eq. cbv [default from_option id].
    by rewrite slice_from_0.
Qed.

Lemma get_messages_unparseable_limit_witness :
  Routes.get_messages "bot-1" (Some "ten") (LogScenario.three_logged Fixtures.friendly)
  = (Return (mkResponse 200 (JsonMessages [])), LogScenario.three_logged Fixtures.friendly).
Proof.
  destruct (get_messages_unparseable_limit (LogScenario.three_logged Fixtures.friendly)
              "bot-1") as [Hunreadable _].
  apply (Hunreadable "ten").
  - discriminate.
  - reflexivity.
Defined.

(** C10, as stated, fails.  In [?limit=] the parameter is present and
    [parseInt] cannot read it, yet the endpoint answers with the default:
    the three logged records, not the empty list. *)
Lemma get_messages_empty_limit_counterexample :
  let w := LogScenario.three_logged Fixtures.friendly in
  Js.parseInt "" = Js.NaN
  /\ fst (Routes.get_messages "bot-1" (Some "") w)
     = Return (mkResponse 200
                 (JsonMessages [LogScenario.record "id-ii" "3" 1700000000002;
                                LogScenario.record "id-i" "2" 1700000000001;
                                LogScenario.record "id-" "1" 1700000000000]))
  /\ fst (Routes.get_messages "bot-1" (Some "") w)
     <> Return (mkResponse 200 (JsonMessages [])).
Proof.
  split_and!; [reflexivity | vm_compute; reflexivity | vm_compute; discriminate].
Qed.

(** ** Syncing a project to the source-hosting service *)

Lemma append_net_app (e1 e2 : list NetEvent) (w : World) :
  append_net e2 (append_net e1 w) = append_net (e1 ++ e2) w.
Proof. unfold append_net. cbn. by rewrite app_assoc. Qed.

Lemma append_net_nil (w : World) : append_net [] w = w.
Proof. destruct w. unfold append_net. cbn. by rewrite app_nil_r. Qed.

Section SyncProject.
Context (env : Env) (repoFullName token : string).

Local Abbreviation write_of := (Sync.write_of repoFullName token).
Local Abbreviation attempt := (Sync.attempt env repoFullName token).
Local Abbreviation succeeds := (Sync.succeeds env repoFullName token).
Local Abbreviation applied := (Sync.applied repoFullName token).
Local Abbreviation trace := (Sync.trace repoFullName token).
Local Abbreviation accepts := (Sync.accepts env repoFullName token).
Local Abbreviation write := (Sync.write env repoFullName token).

Lemma write_eq (file : GitHubService.SyncFile) (w : World) :
  write file w
  = (if succeeds (net w) file then Return tt
     else Throw (Js.Err "Не удалось создать/обновить файл"),
     append_net (attempt (net w) file) w).
Proof.
  unfold Sync.write, Sync.succeeds, Sync.attempt, Sync.write_of,
    GitHubService.createOrUpdateFile.
  destruct (GitHubService.latin1 (GitHubService.content file)) as [bytes|]; cbn [option_map].
  - run. by destruct (net_ok env (net w) _).
  - run. by rewrite append_net_nil.
Qed.

Lemma succeeds_attempt (history : list NetEvent) (file : GitHubService.SyncFile) :
  succeeds history file = true -> attempt history file = applied file.
Proof.
  unfold Sync.succeeds, Sync.attempt, Sync.applied.
  destruct (write_of file); [by intros ->|discriminate].
Qed.

Lemma for_each_accepted (before rest : list GitHubService.SyncFile) (w : World) :
  accepts (net w) before ->
  GitHubService.for_each write (before ++ rest) w
  = GitHubService.for_each write rest (append_net (trace before) w).
Proof.
  revert w. induction before as [|file before IH]; intros w Hacc; cbn [app].
  - unfold Sync.trace. cbn. by rewrite append_net_nil.
  - destruct Hacc as [Hok Hrest]. cbn [GitHubService.for_each]. unfold bind at 1.
    rewrite write_eq, Hok, (succeeds_attempt _ _ Hok).
    rewrite IH by exact Hrest. rewrite append_net_app. reflexivity.
Qed.

(** Every write accepted: the call returns, and the log holds one write
    per file, in the order of the list. *)
Lemma sync_all_accepted (w : World) (files : list GitHubService.SyncFile) :
  accepts (net w) files ->
  GitHubService.syncProjectToGitHub env repoFullName files token w
  = (Return tt, append_net (trace files) w).
Proof.
  intros Hall. unfold GitHubService.syncProjectToGitHub, try_catch. fold write.
  rewrite <- (app_nil_r files) at 1.
  by rewrite (for_each_accepted files [] w Hall).
Qed.

(** The log of files whose writes were all accepted: one accepted PUT per
    file, in the order of the list. *)
Lemma trace_accepted (history : list NetEvent) (files : list GitHubService.SyncFile) :
  accepts history files ->
  Forall2 (Sync.put_accepted repoFullName token) files (trace files).
Proof.
  revert history. induction files as [|file files IH]; intros history; cbn.
  - intros _. constructor.
  - intros [Hok Hrest]. unfold Sync.succeeds, Sync.applied, Sync.write_of in *.
    destruct (GitHubService.latin1 (GitHubService.content file)) as [bytes|] eqn:Hbytes;
      [|discriminate].
    cbn [option_map app]. constructor.
    + exists bytes. split; [exact Hbytes|reflexivity].
    + eapply IH. exact Hrest.
Qed.

(** C9.  The files are written in order, one PUT each with its own commit
    message.  When the writes of the files before the k-th succeed and the
    write of the k-th fails (the service refuses its PUT, or its content
    cannot be encoded and no PUT is sent for it), the call throws; the log
    then holds the accepted PUTs of the earlier files, one per file,
    followed by the refused PUT if there was one, and nothing else: no
    write of a later file, and nothing that undoes an earlier one.  The
    endpoint answers 500. *)
Theorem sync_stops_at_first_failure (w : World)
    (before after : list GitHubService.SyncFile) (failing : GitHubService.SyncFile) :
  accepts (net w) before ->
  succeeds (net w ++ trace before) failing = false ->
  let written := (trace before ++ attempt (net w ++ trace before) failing)%list in
  GitHubService.syncProjectToGitHub env repoFullName (before ++ failing :: after) token w
  = (Throw sync_failed, append_net written w)
  /\ Routes.sync_project env (before ++ failing :: after) repoFullName token w
     = (Return (mkResponse 500 (JsonMessage "Failed to sync project")),
        append_net written w)
  /\ Forall2 (Sync.put_accepted repoFullName token) before (trace before)
  /\ (attempt (net w ++ trace before) failing = []
      \/ exists call,
           write_of failing = Some call
           /\ attempt (net w ++ trace before) failing = [(call, false)]).
Proof.
  intros Hbefore Hfail. cbn zeta.
  assert (Hsync :
    GitHubService.syncProjectToGitHub env repoFullName (before ++ failing :: after) token w
    = (Throw sync_failed,
       append_net (trace before ++ attempt (net w ++ trace before) failing) w)).
  { unfold GitHubService.syncProjectToGitHub, try_catch. fold write.
    rewrite (for_each_accepted before (failing :: after) w Hbefore).
    cbn [GitHubService.for_each]. unfold bind at 1.
    rewrite write_eq. cbn [append_net net]. rewrite Hfail.
    unfold throw.
    fold (append_net (attempt (net w ++ trace before) failing)
            (append_net (trace before) w)).
    by rewrite append_net_app. }
  split_and!.
  - exact Hsync.
  - unfold Routes.sync_project, try_catch, bind. by rewrite Hsync.
  - by eapply trace_accepted.
  - unfold Sync.succeeds, Sync.attempt in *.
    destruct (write_of failing) as [call|]; [right|by left].
    exists call. by rewrite Hfail.
Qed.
End SyncProject.

Lemma sync_stops_at_first_failure_witness :
  GitHubService.syncProjectToGitHub SyncScenario.refuses_readme "me/demo"
    SyncScenario.files "ghp_token" empty_world
  = (Throw sync_failed,
     append_net
       [(GitHubPut "/repos/me/demo/contents/index.js" "ghp_token"
           (mkPutBody "Обновление index.js через AI помощника" "Y29uc29sZS5sb2coMSk=" None),
         true);
        (GitHubPut "/repos/me/demo/contents/README.md" "ghp_token"
           (mkPutBody "Обновление README.md через AI помощника" "IyBkZW1v" None),
         false)]
       empty_world).
Proof.
  apply (sync_stops_at_first_failure SyncScenario.refuses_readme "me/demo" "ghp_token"
           empty_world
           [GitHubService.mkSyncFile "index.js" (GitHubService.units "console.log(1)")]
           [GitHubService.mkSyncFile "package.json" (GitHubService.units "{}")]
           (GitHubService.mkSyncFile "README.md" (GitHubService.units "# demo"))).
  - split; [reflexivity | exact I].
  - reflexivity.
Defined.

(** A content that [btoa] refuses fails its write without a PUT: with the
    service accepting everything, the sync stops at the Cyrillic file after
    the one PUT of the file before it. *)
Example sync_unencodable_content :
  GitHubService.syncProjectToGitHub Fixtures.friendly "me/demo"
    SyncScenario.cyrillic_files "ghp_token" empty_world
  = (Throw sync_failed,
     append_net
       [(GitHubPut "/repos/me/demo/contents/index.js" "ghp_token"
           (mkPutBody "Обновление index.js через AI помощника" "Y29uc29sZS5sb2coMSk=" None),
         true)]
       empty_world).
Proof. reflexivity. Qed.

(** * Further properties of the code *)

(** ** The message log, for any store *)

(** Whatever the store holds, and for a limit that is not negative,
    [getBotMessages] gives records of the asked bot only, each of them in
    the store, never older before newer, and as many as the limit allows;
    when the limit covers them all, the result is a rearrangement of the
    bot's records. *)
Theorem getBotMessages_sorted_own (w : World) (botId : string) (n : Z) :
  0 <= n ->
  exists result,
    MemStorage.getBotMessages botId (Some (Js.of_Z n)) w = (Return result, w)
    /\ descending result
    /\ (forall m, In m result ->
          msg_botId m = botId /\ In m (map snd (storage_botMessages w)))
    /\ length result = Nat.min (Z.to_nat n) (length (records_of w botId))
    /\ (Z.of_nat (length (records_of w botId)) <= n ->
        Permutation result (records_of w botId)).
Proof.
  intros Hn. eexists. split.
  { rewrite getBotMessages_eq. cbv [default from_option id].
    rewrite slice_from_0 by exact Hn. reflexivity. }
  fold (ordered_records w botId).
  assert (Hperm : Permutation (ordered_records w botId) (records_of w botId))
    by apply sort_perm.
  split_and!.
  - apply descending_take, sort_descending.
  - intros m Hin.
    assert (Hall : In m (ordered_records w botId)).
    { rewrite <- (firstn_skipn (Z.to_nat n) (ordered_records w botId)).
      apply in_or_app. by left. }
    clear Hin. rename Hall into Hin.
    eapply Permutation_in in Hin; [|exact Hperm].
    unfold records_of in Hin. apply List.filter_In in Hin as [Hstored Hown].
    split; [by apply String.eqb_eq|exact Hstored].
  - rewrite length_take. by rewrite (Permutation_length Hperm).
  - intros Hall. rewrite take_ge; [exact Hperm|].
    rewrite (Permutation_length Hperm). lia.
Qed.

Lemma getBotMessages_sorted_own_witness :
  exists result,
    MemStorage.getBotMessages "bot-1" (Some (Js.of_Z 2))
      (LogScenario.three_logged Fixtures.frozen_clock)
    = (Return result, LogScenario.three_logged Fixtures.frozen_clock)
    /\ descending result /\ length result = 2%nat.
Proof.
  destruct (getBotMessages_sorted_own (LogScenario.three_logged Fixtures.frozen_clock)
              "bot-1" 2)
    as (result & Hrun & Hsorted & _ & Hlen & _).
  - lia.
  - exists result. split_and!; [exact Hrun|exact Hsorted|]. rewrite Hlen. reflexivity.
Defined.

Lemma slice_negative_end {A} (l : list A) (n : Z) :
  n < 0 ->
  Js.slice l (Js.of_Z 0) (Some (Js.of_Z n)) = take (length l - Z.to_nat (- n)) l.
Proof.
  intros Hn. unfold Js.slice, Js.clamp_index, Js.of_Z. cbn.
  rewrite !Z.quot_1_r. change (0 <? 0) with false. cbn iota.
  apply Z.ltb_lt in Hn. rewrite Hn. apply Z.ltb_lt in Hn.
  replace (0 `min` Z.of_nat (length l)) with 0 by lia.
  rewrite Z.sub_0_r. change (drop (Z.to_nat 0) l) with l.
  f_equal. lia.
Qed.

(** A negative limit is not refused: it counts from the end.  The bot's
    records, newest first with the records of one timestamp in creation
    order, come back without the last [-limit] of them (all of them, when
    there are fewer): no record left out is newer than a returned one.  So
    [?limit=-1] leaves out one record with the smallest timestamp, the last
    created of them when several carry it. *)
Theorem getBotMessages_negative_limit (w : World) (botId : string) (n : Z) :
  n < 0 ->
  exists result dropped,
    MemStorage.getBotMessages botId (Some (Js.of_Z n)) w = (Return result, w)
    /\ newest_first_order (result ++ dropped) (records_of w botId)
    /\ length dropped = Nat.min (Z.to_nat (- n)) (length (records_of w botId))
    /\ (forall kept left, In kept result -> In left dropped ->
          MemStorage.time_or_0 left <= MemStorage.time_or_0 kept)
    /\ (n = -1 ->
        Routes.get_messages botId (Some "-1") w
        = (Return (mkResponse 200 (JsonMessages result)), w)).
Proof.
  intros Hn.
  set (ordered := Js.sort newest_first (records_of w botId)).
  set (k := (length ordered - Z.to_nat (- n))%nat).
  assert (Horder : newest_first_order ordered (records_of w botId))
    by apply sort_newest_first_order.
  assert (Hrun : MemStorage.getBotMessages botId (Some (Js.of_Z n)) w
                 = (Return (take k ordered), w)).
  { rewrite getBotMessages_eq. cbv [default from_option id].
    by rewrite slice_negative_end. }
  exists (take k ordered), (drop k ordered). rewrite take_drop. split_and!.
  - exact Hrun.
  - exact Horder.
  - rewrite length_drop. destruct Horder as [Hperm _].
    rewrite <- (Permutation_length Hperm). subst k. lia.
  - intros kept left Hkept Hleft.
    apply (descending_app (take k ordered) (drop k ordered)); [|exact Hkept|exact Hleft].
    rewrite take_drop. apply Horder.
  - intros ->. unfold Routes.get_messages, try_catch, bind, ret. cbn [Routes.limit_of].
    change (Js.truthy_string "-1") with true.
    change (Js.parseInt "-1") with (Js.of_Z (-1)). cbn iota. by rewrite Hrun.
Qed.

Lemma getBotMessages_negative_limit_witness :
  exists result dropped,
    MemStorage.getBotMessages "bot-1" (Some (Js.of_Z (-2)))
      (LogScenario.three_logged Fixtures.frozen_clock)
    = (Return result, LogScenario.three_logged Fixtures.frozen_clock)
    /\ newest_first_order (result ++ dropped)
         (records_of (LogScenario.three_logged Fixtures.frozen_clock) "bot-1")
    /\ length dropped = 2%nat.
Proof.
  destruct (getBotMessages_negative_limit (LogScenario.three_logged Fixtures.frozen_clock)
              "bot-1" (-2)) as (result & dropped & Hrun & Horder & Hlen & _).
  - lia.
  - exists result, dropped. split_and!; [exact Hrun|exact Horder|].
    rewrite Hlen. reflexivity.
Defined.

Example negative_limit_examples :
  fst (MemStorage.getBotMessages "bot-1" (Some (Js.of_Z (-1)))
         (LogScenario.three_logged Fixtures.friendly))
  = Return [LogScenario.record "id-ii" "3" 1700000000002;
            LogScenario.record "id-i" "2" 1700000000001]
  /\ fst (MemStorage.getBotMessages "bot-1" (Some (Js.of_Z (-1)))
            (LogScenario.three_logged Fixtures.frozen_clock))
     = Return [LogScenario.record "id-" "1" 1700000000000;
               LogScenario.record "id-i" "2" 1700000000000].
Proof. split; vm_compute; reflexivity. Qed.

(** ** Stored bots *)

(** [updateBot] never adds or removes a record: the stored ids stay the
    same, records under other ids are untouched, and what it returns is what
    [getBot] gives for that id afterwards.  For an id that is not stored it
    returns nothing and changes nothing. *)
Theorem updateBot_keeps_ids (w : World) (id : string) (updates : BotPatch) :
  let w' := snd (MemStorage.updateBot id updates w) in
  fst (MemStorage.updateBot id updates w) = Return (storage_bots w' !! id)
  /\ storage_bots w' !! id = (fun bot => apply_patch bot updates) <$> storage_bots w !! id
  /\ dom (storage_bots w') = dom (storage_bots w)
  /\ (forall other, other <> id -> storage_bots w' !! other = storage_bots w !! other)
  /\ (storage_bots w !! id = None -> w' = w)
  /\ telegram_bots w' = telegram_bots w
  /\ net w' = net w.
Proof.
  unfold MemStorage.updateBot.
  destruct (storage_bots w !! id) as [bot|] eqn:E; cbn.
  - rewrite lookup_insert_eq. split_and!; auto.
    + apply set_eq. intros k. rewrite dom_insert, elem_of_union, elem_of_singleton.
      split; [|tauto]. intros [->|H]; [|done]. apply elem_of_dom. eauto.
    + intros other Hne. by rewrite lookup_insert_ne.
    + discriminate.
  - rewrite E. split_and!; auto.
Qed.

(** [deleteBot] answers whether the id was stored; afterwards the id is
    not stored, every other record is as before, and deleting again answers
    [false] and changes nothing. *)
Theorem deleteBot_then_absent (w : World) (id : string) :
  let w' := snd (MemStorage.deleteBot id w) in
  fst (MemStorage.deleteBot id w) = Return (bool_decide (is_Some (storage_bots w !! id)))
  /\ storage_bots w' !! id = None
  /\ (forall other, other <> id -> storage_bots w' !! other = storage_bots w !! other)
  /\ MemStorage.deleteBot id w' = (Return false, w').
Proof.
  unfold MemStorage.deleteBot, set_storage_bots. cbn.
  split_and!; auto.
  - apply lookup_delete_eq.
  - intros other Hne. by rewrite lookup_delete_ne.
  - rewrite lookup_delete_eq. f_equal. f_equal.
    apply map_eq. intros k. destruct (decide (k = id)) as [->|Hne].
    + by rewrite !lookup_delete_eq.
    + by rewrite !lookup_delete_ne.
Qed.

(** ** Activating and deactivating, in general *)

Lemma net_set_flag id b w : net (set_flag id b w) = net w.
Proof. unfold set_flag, MemStorage.updateBot. by destruct (storage_bots w !! id). Qed.

Lemma calls_since_app (w w' : World) (events : list NetEvent) :
  net w' = (net w ++ events)%list -> calls_since w w' = events.
Proof. intros H. unfold calls_since. rewrite H. by rewrite drop_app_length. Qed.

Section ActivationOutcome.
Context (env : Env).

(** [createBot] never throws, and it always settles the stored active flag:
    a stored bot ends with [isActive] equal to the answer.  On [true] the
    connection is registered under the id; on [false] the registry is left
    as it was, so no half-made connection stays behind.  Other bots and the
    message log are untouched. *)
Theorem createBot_settles_flag (w : World) (botId token : string) :
  exists ok w',
    TelegramService.createBot env botId token w = (Return ok, w')
    /\ storage_bots w' !! botId
       = (fun bot => apply_patch bot (patch_isActive ok)) <$> storage_bots w !! botId
    /\ telegram_bots w'
       = (if ok then <[botId := live_bot token]> (telegram_bots w) else telegram_bots w)
    /\ (forall other, other <> botId ->
          storage_bots w' !! other = storage_bots w !! other)
    /\ storage_botMessages w' = storage_botMessages w.
Proof.
  rewrite createBot_eq.
  destruct (TelegramService.invalid_token_format token); cbn zeta.
  2: destruct (negb _); [|destruct (negb _)].
  all: eexists _, _; split; [reflexivity|].
  all: rewrite set_flag_lookup, telegram_bots_set_flag; split_and!; try reflexivity.
  all: try (intros other Hne; unfold set_flag, MemStorage.updateBot;
            cbn [logged set_telegram_bots storage_bots];
            destruct (storage_bots w !! botId); cbn; [by rewrite lookup_insert_ne|done]).
  all: unfold set_flag, MemStorage.updateBot; cbn [logged set_telegram_bots storage_bots];
       by destruct (storage_bots w !! botId).
Qed.

(** The remote calls of [createBot]: none for a malformed token; for any
    other token [getMe] first, and then [startPolling] exactly when [getMe]
    has succeeded.  The answer is [true] exactly when both were made and
    both succeeded. *)
Theorem createBot_call_discipline (w : World) (botId token : string) :
  let run := TelegramService.createBot env botId token w in
  let calls := calls_since w (snd run) in
  net (snd run) = (net w ++ calls)%list
  /\ (calls = []
      \/ calls = [(TgGetMe token, false)]
      \/ calls = [(TgGetMe token, true); (TgStartPolling token, false)]
      \/ calls = [(TgGetMe token, true); (TgStartPolling token, true)])
  /\ (TelegramService.invalid_token_format token = true -> calls = [])
  /\ (TelegramService.invalid_token_format token = false ->
      exists rest,
        calls = (TgGetMe token, net_ok env (net w) (TgGetMe token)) :: rest
        /\ (net_ok env (net w) (TgGetMe token) = false -> rest = [])
        /\ (net_ok env (net w) (TgGetMe token) = true ->
            rest = [(TgStartPolling token,
                     net_ok env (net w ++ [(TgGetMe token, true)]) (TgStartPolling token))]))
  /\ (fst run = Return true
      <-> calls = [(TgGetMe token, true); (TgStartPolling token, true)]).
Proof.
  cbn zeta. rewrite createBot_eq.
  assert (Hcases : forall (ok : bool) (w' : World) (events : list NetEvent),
            net w' = (net w ++ events)%list ->
            net (snd (Return ok, w')) = (net w ++ events)%list
            /\ calls_since w (snd (Return ok, w')) = events).
  { intros ok w' events Hnet. cbn [snd]. by rewrite (calls_since_app _ _ _ Hnet). }
  destruct (TelegramService.invalid_token_format token); cbn zeta.
  - destruct (Hcases false (set_flag botId false w) []) as [Hnet ->].
    { by rewrite app_nil_r, net_set_flag. }
    split_and!; auto; [discriminate|]. split; discriminate.
  - destruct (net_ok env (net w) (TgGetMe token)) eqn:HgetMe; cbn [negb].
    2:{ destruct (Hcases false
                    (set_flag botId false (logged (TgGetMe token, false) w))
                    [(TgGetMe token, false)]) as [Hnet ->].
        { by rewrite net_set_flag. }
        split_and!; auto; [discriminate| |split; discriminate].
        intros _. exists []. split_and!; [reflexivity|reflexivity|discriminate]. }
    cbn [logged net].
    destruct (net_ok env (net w ++ [(TgGetMe token, true)])%list (TgStartPolling token))
      eqn:Hstart; cbn [negb].
    + match goal with
      | |- context [calls_since w (snd (Return true, ?x))] =>
          destruct (Hcases true x [(TgGetMe token, true); (TgStartPolling token, true)])
            as [Hnet ->]
      end.
      { rewrite net_set_flag. cbn. by rewrite <- app_assoc. }
      split_and!; auto 6; [discriminate| |split; reflexivity].
      intros _. eexists. split_and!; [reflexivity|discriminate|reflexivity].
    + match goal with
      | |- context [calls_since w (snd (Return false, ?x))] =>
          destruct (Hcases false x [(TgGetMe token, true); (TgStartPolling token, false)])
            as [Hnet ->]
      end.
      { rewrite net_set_flag. cbn. by rewrite <- app_assoc. }
      split_and!; auto 6; [discriminate| |split; discriminate].
      intros _. eexists. split_and!; [reflexivity|discriminate|reflexivity].
Qed.
End ActivationOutcome.

(** A bot that is not in the registry: [stopBot] answers [false] and the
    state stays as it is. *)
Lemma stopBot_absent_gone (env : Env) (w : World) (botId : string) :
  telegram_bots w !! botId = None ->
  TelegramService.stopBot env botId w = (Return false, w).
Proof. intros H. by rewrite stopBot_eq, H. Qed.

Section Deactivation.
Context (env : Env).

Lemma stopBot_registry (w : World) (botId : string) :
  telegram_bots (snd (TelegramService.stopBot env botId w)) = delete botId (telegram_bots w).
Proof.
  rewrite stopBot_eq. destruct (telegram_bots w !! botId) as [bot|] eqn:E; cbn zeta; cbn [snd].
  - by rewrite telegram_bots_set_flag.
  - symmetry. by apply delete_id.
Qed.

Lemma stopBot_storage (w : World) (botId id : string) :
  storage_bots (snd (TelegramService.stopBot env botId w)) !! id
  = if bool_decide (id = botId) && registered w botId
    then (fun bot => apply_patch bot (patch_isActive false)) <$> storage_bots w !! id
    else storage_bots w !! id.
Proof.
  rewrite stopBot_eq. unfold registered.
  destruct (telegram_bots w !! botId) as [bot|] eqn:E; cbn zeta; cbn [snd].
  - rewrite andb_true_r. case_bool_decide as Hid.
    + subst id. by rewrite set_flag_lookup.
    + unfold set_flag, MemStorage.updateBot. cbn [logged set_telegram_bots storage_bots].
      destruct (storage_bots w !! botId); cbn; [by rewrite lookup_insert_ne|done].
  - by rewrite andb_false_r.
Qed.

Lemma stopBot_returns (w : World) (botId : string) :
  TelegramService.stopBot env botId w
  = (Return (registered w botId), snd (TelegramService.stopBot env botId w)).
Proof.
  rewrite stopBot_eq. unfold registered.
  by destruct (telegram_bots w !! botId).
Qed.

(** Stopping is best effort.  For a bot with a live connection [stopBot]
    answers [true] whether or not [stopPolling] fails: it makes that one
    remote call, removes the bot's entry and no other from the registry, and
    stores the bot inactive.  A second [stopBot] right after answers [false]
    and changes nothing. *)
Theorem stopBot_best_effort (w : World) (botId : string) (bot : TelegramBot) :
  telegram_bots w !! botId = Some bot ->
  let w' := snd (TelegramService.stopBot env botId w) in
  fst (TelegramService.stopBot env botId w) = Return true
  /\ telegram_bots w' = delete botId (telegram_bots w)
  /\ calls_since w w'
     = [(TgStopPolling (tb_token bot), net_ok env (net w) (TgStopPolling (tb_token bot)))]
  /\ storage_bots w' !! botId
     = (fun stored => apply_patch stored (patch_isActive false)) <$> storage_bots w !! botId
  /\ (forall other, other <> botId ->
        storage_bots w' !! other = storage_bots w !! other)
  /\ TelegramService.stopBot env botId w' = (Return false, w').
Proof.
  intros Hreg. cbn zeta.
  assert (Hlive : registered w botId = true) by (by eapply registered_lookup).
  split_and!.
  - by rewrite stopBot_returns, Hlive.
  - apply stopBot_registry.
  - apply calls_since_app. rewrite stopBot_eq, Hreg. cbn zeta. cbn [snd].
    by rewrite net_set_flag.
  - rewrite stopBot_storage, Hlive. by rewrite bool_decide_eq_true_2.
  - intros other Hne. rewrite stopBot_storage. by rewrite bool_decide_eq_false_2.
  - apply (stopBot_absent_gone env). rewrite stopBot_registry. apply lookup_delete_eq.
Qed.

(** A polling error whose message mentions [404 Not Found] deactivates the
    bot: afterwards it has no live connection, and if it had one it is
    stored inactive.  Any other polling error changes nothing. *)
Theorem polling_error_404_deactivates (w : World) (botId message : string) :
  let w' := snd (TelegramService.on_polling_error env botId message w) in
  fst (TelegramService.on_polling_error env botId message w) = Return tt
  /\ (TelegramService.includes "404 Not Found" message = true ->
      registered w' botId = false
      /\ (registered w botId = true -> stored_active w' botId = false))
  /\ (TelegramService.includes "404 Not Found" message = false -> w' = w).
Proof.
  unfold TelegramService.on_polling_error.
  destruct (TelegramService.includes "404 Not Found" message); cbn zeta.
  - unfold bind. rewrite stopBot_returns. cbn [ret fst snd].
    split_and!; [reflexivity| |discriminate]. intros _. split.
    + apply registered_absent. rewrite stopBot_registry. apply lookup_delete_eq.
    + intros Hlive. unfold stored_active. rewrite stopBot_storage, Hlive.
      rewrite bool_decide_eq_true_2 by reflexivity. cbn.
      by destruct (storage_bots w !! botId).
  - split_and!; [reflexivity|discriminate|reflexivity].
Qed.
End Deactivation.

Section DeactivateAll.
Context (env : Env).

Lemma registered_after_stopBot (w : World) (botId id : string) :
  registered (snd (TelegramService.stopBot env botId w)) id
  = negb (bool_decide (id = botId)) && registered w id.
Proof.
  unfold registered. rewrite stopBot_registry.
  destruct (decide (id = botId)) as [->|Hne].
  - rewrite lookup_delete_eq.
    rewrite (bool_decide_eq_true_2 (botId = botId)) by reflexivity. reflexivity.
  - rewrite lookup_delete_ne by done.
    rewrite (bool_decide_eq_false_2 (id = botId)) by done. reflexivity.
Qed.

(** The loop over a list of ids: it runs to its end, the ids of the list
    leave the registry, and those of them that had a connection are stored
    inactive. *)
Lemma stopBots_spec (botIds : list string) (w : World) :
  let w' := snd (TelegramService.stopBots env botIds w) in
  fst (TelegramService.stopBots env botIds w) = Return tt
  /\ (forall id, telegram_bots w' !! id
                 = if bool_decide (id ∈ botIds) then None else telegram_bots w !! id)
  /\ (forall id, storage_bots w' !! id
                 = if bool_decide (id ∈ botIds) && registered w id
                   then (fun bot => apply_patch bot (patch_isActive false))
                          <$> storage_bots w !! id
                   else storage_bots w !! id).
Proof.
  revert w. induction botIds as [|botId rest IH]; intros w; cbn zeta.
  - cbn. split_and!; [reflexivity| |]; intros id; by rewrite bool_decide_eq_false_2
      by apply not_elem_of_nil.
  - cbn [TelegramService.stopBots]. unfold bind. rewrite stopBot_returns.
    destruct (IH (snd (TelegramService.stopBot env botId w))) as (Hret & Hreg & Hsto).
    split_and!; [exact Hret| |].
    + intros id. rewrite Hreg, stopBot_registry.
      destruct (decide (id = botId)) as [->|Hne].
      * rewrite lookup_delete_eq. rewrite (bool_decide_eq_true_2 (botId ∈ botId :: rest))
          by apply list_elem_of_here.
        by case_bool_decide.
      * rewrite lookup_delete_ne by done.
        rewrite (bool_decide_ext (id ∈ botId :: rest) (id ∈ rest)); [reflexivity|].
        rewrite elem_of_cons. tauto.
    + intros id. rewrite Hsto, registered_after_stopBot, stopBot_storage.
      destruct (decide (id = botId)) as [->|Hne].
      * rewrite (bool_decide_eq_true_2 (botId = botId)) by reflexivity.
        rewrite (bool_decide_eq_true_2 (botId ∈ botId :: rest)) by apply list_elem_of_here.
        cbn. by rewrite andb_false_r.
      * rewrite (bool_decide_eq_false_2 (id = botId)) by done. cbn.
        rewrite (bool_decide_ext (id ∈ botId :: rest) (id ∈ rest)); [reflexivity|].
        rewrite elem_of_cons. tauto.
Qed.

(** [stopAllBots] never throws, whatever fails on the way.  Afterwards the
    registry is empty, every bot that had a live connection is stored
    inactive, and the records of the others are as before. *)
Theorem stopAllBots_clears_registry (w : World) :
  let w' := snd (TelegramService.stopAllBots env w) in
  fst (TelegramService.stopAllBots env w) = Return tt
  /\ telegram_bots w' = ∅
  /\ (forall id, registered w id = true -> stored_active w' id = false)
  /\ (forall id, registered w id = false -> storage_bots w' !! id = storage_bots w !! id).
Proof.
  cbn zeta. unfold TelegramService.stopAllBots.
  destruct (stopBots_spec (map fst (map_to_list (telegram_bots w))) w)
    as (Hret & Hreg & Hsto).
  assert (Hids : forall id, id ∈ map fst (map_to_list (telegram_bots w))
                            <-> is_Some (telegram_bots w !! id)).
  { intros id. rewrite list_elem_of_In, in_map_iff. split.
    - intros ([k v] & <- & Hin). apply list_elem_of_In, elem_of_map_to_list in Hin.
      cbn. eauto.
    - intros [v Hv]. exists (id, v). split; [reflexivity|].
      by apply list_elem_of_In, elem_of_map_to_list. }
  split_and!; [exact Hret| | |].
  - apply map_eq. intros id. rewrite Hreg, lookup_empty.
    case_bool_decide as Hin; [reflexivity|].
    destruct (telegram_bots w !! id) eqn:E; [|reflexivity].
    exfalso. apply Hin, Hids. eauto.
  - intros id Hlive. unfold stored_active. rewrite Hsto, Hlive.
    rewrite bool_decide_eq_true_2.
    + cbn. by destruct (storage_bots w !! id).
    + apply Hids. unfold registered in Hlive. by apply bool_decide_eq_true in Hlive.
  - intros id Hdead. by rewrite Hsto, Hdead, andb_false_r.
Qed.
End DeactivateAll.

Section Messaging.
Context (env : Env).

(** [sendMessage] never throws.  Without a live connection it makes no
    remote call and answers [false]; with one it makes exactly one send with
    the connection's token and answers whether that send succeeded.  Stored
    records and the registry are never touched. *)
Theorem sendMessage_reports_delivery (w : World) (botId : string) (chatId : Z)
    (message : string) :
  exists ok w',
    TelegramService.sendMessage env botId chatId message w = (Return ok, w')
    /\ storage_bots w' = storage_bots w
    /\ storage_botMessages w' = storage_botMessages w
    /\ telegram_bots w' = telegram_bots w
    /\ (telegram_bots w !! botId = None -> ok = false /\ w' = w)
    /\ (forall bot, telegram_bots w !! botId = Some bot ->
          ok = net_ok env (net w) (TgSendMessage (tb_token bot) chatId message)
          /\ calls_since w w' = [(TgSendMessage (tb_token bot) chatId message, ok)]).
Proof.
  unfold TelegramService.sendMessage.
  destruct (telegram_bots w !! botId) as [bot|] eqn:E.
  - run. destruct (net_ok env (net w) (TgSendMessage (tb_token bot) chatId message)) eqn:Hok.
    all: eexists _, _; split; [reflexivity|]; cbn.
    all: split_and!; try reflexivity; try discriminate.
    all: intros ? [= <-]; split; [by rewrite Hok|].
    all: unfold calls_since; cbn; by rewrite drop_app_length.
  - exists false, w. split_and!; try reflexivity; [done|discriminate].
Qed.

(** An update without text, or for a bot that is not stored, is dropped:
    nothing is logged, nothing is sent, and the handler returns. *)
Theorem handleMessage_drops (w : World) (botId : string) (bot : TelegramBot)
    (msg : TgMessage) :
  text msg = None \/ text msg = Some "" \/ storage_bots w !! botId = None ->
  TelegramService.handleMessage env botId bot msg w = (Return tt, w).
Proof.
  intros Hdrop. unfold TelegramService.handleMessage.
  destruct (text msg) as [userMessage|]; [|reflexivity].
  destruct (Js.truthy_string userMessage) eqn:Htruthy; [|reflexivity].
  destruct Hdrop as [Hnone|[Hempty|Hunknown]]; [discriminate| |].
  - injection Hempty as ->. discriminate.
  - cbn [negb]. unfold MemStorage.getBot. run. by rewrite Hunknown.
Qed.

(** [testMessage], called with a string as its signature declares, never
    returns a reply: for an id that is not stored it throws [Bot not found],
    and for a stored bot it throws the generation error, because the
    three-argument call reaches the [chatParams] declaration of
    [generateResponse] with a string.  Either way nothing is logged and no
    remote call is made. *)
Theorem testMessage_always_throws (w : World) (botId message : string) :
  TelegramService.testMessage env botId message w
  = (Throw (if bool_decide (is_Some (storage_bots w !! botId))
            then generation_error
            else Js.Err "Bot not found"), w).
Proof.
  unfold TelegramService.testMessage, MemStorage.getBot. run.
  destruct (storage_bots w !! botId) as [botConfig|]; [|reflexivity].
  by rewrite generateResponse_string_arg.
Qed.
End Messaging.

Lemma handleMessage_drops_witness :
  TelegramService.handleMessage Fixtures.friendly "nobody"
    (live_bot Fixtures.good_token) (mkTgMessage 7 (Some "Ahoy")) Fixtures.pirate_world
  = (Return tt, Fixtures.pirate_world).
Proof.
  apply (handleMessage_drops Fixtures.friendly Fixtures.pirate_world "nobody").
  right. right. vm_compute. reflexivity.
Defined.

Lemma stopBot_best_effort_witness :
  let w' := snd (TelegramService.stopBot MoreFixtures.stop_fails "id-" Fixtures.pirate_world) in
  fst (TelegramService.stopBot MoreFixtures.stop_fails "id-" Fixtures.pirate_world)
  = Return true
  /\ calls_since Fixtures.pirate_world w' = [(TgStopPolling Fixtures.good_token, false)]
  /\ TelegramService.stopBot MoreFixtures.stop_fails "id-" w' = (Return false, w').
Proof.
  destruct (stopBot_best_effort MoreFixtures.stop_fails Fixtures.pirate_world "id-"
              (live_bot Fixtures.good_token))
    as (Hret & _ & Hcalls & _ & _ & Hagain).
  - vm_compute. reflexivity.
  - split_and!; [exact Hret|exact Hcalls|exact Hagain].
Defined.

(** ** The completion gateway, for any argument *)

Section GatewayAttempts.
Context (env : Env).

(** Whatever [openaiService.generateResponse] is called with, it makes at
    most one upstream request, that request carries the fixed model
    [gpt-4o], temperature 0.7 and 500 tokens, nothing but the log of remote
    calls changes, and the only error it throws is the generation error. *)
Theorem generateResponse_single_fixed_attempt (args : list Js.Val) (w : World) :
  let run := OpenAIService.generateResponse env args w in
  (calls_since w (snd run) = []
   \/ exists request ok,
        calls_since w (snd run) = [(OpenAICreate request, ok)] /\ fixed_sampling request)
  /\ net (snd run) = (net w ++ calls_since w (snd run))%list
  /\ storage_bots (snd run) = storage_bots w
  /\ storage_botMessages (snd run) = storage_botMessages w
  /\ telegram_bots (snd run) = telegram_bots w
  /\ (forall e, fst run = Throw e -> e = generation_error).
Proof.
  cbn zeta. rewrite generateResponse_is_second.
  unfold OpenAIService.generateResponse_2, OpenAIService.create,
    OpenAIService.first_content. run.
  assert (Hnone : calls_since w w = []).
  { apply calls_since_app. by rewrite app_nil_r. }
  destruct (Js.get (OpenAIService.arg 0 args) "systemPrompt") as [systemPrompt|e1]; cbn.
  2:{ rewrite Hnone, app_nil_r. split_and!; auto. by intros e [= <-]. }
  destruct (Js.get (OpenAIService.arg 0 args) "history") as [history|e2]; cbn.
  2:{ rewrite Hnone, app_nil_r. split_and!; auto. by intros e [= <-]. }
  destruct (Js.spread history) as [turns|e3]; cbn.
  2:{ rewrite Hnone, app_nil_r. split_and!; auto. by intros e [= <-]. }
  destruct (Js.get (OpenAIService.arg 0 args) "message") as [message|e4]; cbn.
  2:{ rewrite Hnone, app_nil_r. split_and!; auto. by intros e [= <-]. }
  match goal with
  | |- context [net_ok env (net w) (OpenAICreate ?r)] =>
      set (request := r);
      assert (Hone : forall w', net w' = (net w ++ [(OpenAICreate request,
                                   net_ok env (net w) (OpenAICreate request))])%list ->
                calls_since w w' = [(OpenAICreate request,
                                     net_ok env (net w) (OpenAICreate request))])
        by (intros w' Hw'; by apply calls_since_app)
  end.
  destruct (net_ok env (net w) (OpenAICreate request)) eqn:Hok; cbn.
  - destruct (choices (completion env (net w) request)); cbn.
    all: rewrite Hone by reflexivity.
    all: split_and!; auto; [right; by exists request, true|]; by intros e [= <-].
  - rewrite Hone by reflexivity.
    split_and!; auto; [right; by exists request, false|]; by intros e [= <-].
Qed.

(** [validateConfiguration] never throws.  A configuration object gets one
    probe, a single [test] message limited to one token under the
    configuration's model; its temperature and length are not used.  The
    answer is whether the probe succeeded; [undefined] or [null] as
    configuration are answered [false] without a probe. *)
Theorem validateConfiguration_probes_once (w : World) (model : string)
    (temperature maxTokens : Js.Num) :
  OpenAIService.validateConfiguration env (config_val model temperature maxTokens) w
  = (Return (net_ok env (net w) (OpenAICreate (probe (Js.Str model)))),
     logged (OpenAICreate (probe (Js.Str model)),
             net_ok env (net w) (OpenAICreate (probe (Js.Str model)))) w)
  /\ OpenAIService.validateConfiguration env Js.Undefined w = (Return false, w)
  /\ OpenAIService.validateConfiguration env Js.Null w = (Return false, w).
Proof.
  unfold OpenAIService.validateConfiguration, OpenAIService.create, config_val. run. cbn.
  fold (probe (Js.Str model)).
  split_and!; [|reflexivity|reflexivity].
  by destruct (net_ok env (net w) (OpenAICreate (probe (Js.Str model)))).
Qed.
End GatewayAttempts.

(** ** The bot endpoints *)

Section BotEndpoints.
Context (env : Env).

(** For an id that is not stored, GET, PATCH and toggle answer 404 and leave
    the state as it is; DELETE answers 404 as well, after stopping a
    connection that may still be registered under the id. *)
Theorem unknown_bot_is_404 (w : World) (id : string) (updates : BotPatch) :
  storage_bots w !! id = None ->
  Routes.get_bot id w = (Return bot_not_found, w)
  /\ Routes.patch_bot env id updates w = (Return bot_not_found, w)
  /\ Routes.toggle env id w = (Return bot_not_found, w)
  /\ fst (Routes.delete_bot env id w) = Return bot_not_found
  /\ telegram_bots (snd (Routes.delete_bot env id w)) !! id = None
  /\ storage_bots (snd (Routes.delete_bot env id w)) = storage_bots w.
Proof.
  intros Hunknown.
  assert (Hdelete : Routes.delete_bot env id w
                    = (Return bot_not_found,
                       set_storage_bots (delete id)
                         (snd (TelegramService.stopBot env id w)))).
  { unfold Routes.delete_bot, try_catch, bind. rewrite stopBot_returns.
    unfold MemStorage.deleteBot. rewrite stopBot_storage, Hunknown.
    by destruct (bool_decide (id = id) && registered w id). }
  split_and!.
  - unfold Routes.get_bot, MemStorage.getBot. run. by rewrite Hunknown.
  - unfold Routes.patch_bot, MemStorage.updateBot. run. by rewrite Hunknown.
  - by rewrite toggle_eq, Hunknown.
  - by rewrite Hdelete.
  - rewrite Hdelete. cbn [snd set_storage_bots telegram_bots].
    rewrite stopBot_registry. apply lookup_delete_eq.
  - rewrite Hdelete. cbn [snd set_storage_bots storage_bots].
    apply map_eq. intros k. destruct (decide (k = id)) as [->|Hne].
    + rewrite lookup_delete_eq. by rewrite Hunknown.
    + rewrite lookup_delete_ne by done. rewrite stopBot_storage.
      by rewrite (bool_decide_eq_false_2 (k = id)).
Qed.

(** After DELETE the bot is neither stored nor registered, whatever state it
    was in and whether or not stopping its polling failed.  The answer is
    204 when a record was stored under the id and 404 otherwise; it is never
    500. *)
Theorem delete_bot_removes_both (w : World) (id : string) :
  let w' := snd (Routes.delete_bot env id w) in
  storage_bots w' !! id = None
  /\ telegram_bots w' !! id = None
  /\ fst (Routes.delete_bot env id w)
     = Return (if bool_decide (is_Some (storage_bots w !! id))
               then mkResponse 204 NoBody else bot_not_found)
  /\ (forall other, other <> id ->
        storage_bots w' !! other = storage_bots w !! other
        /\ telegram_bots w' !! other = telegram_bots w !! other).
Proof.
  cbn zeta.
  assert (Hdelete : Routes.delete_bot env id w
                    = (Return (if bool_decide (is_Some (storage_bots w !! id))
                               then mkResponse 204 NoBody else bot_not_found),
                       set_storage_bots (delete id)
                         (snd (TelegramService.stopBot env id w)))).
  { unfold Routes.delete_bot, try_catch, bind. rewrite stopBot_returns.
    unfold MemStorage.deleteBot. rewrite stopBot_storage.
    destruct (storage_bots w !! id) as [bot|];
      by destruct (bool_decide (id = id) && registered w id). }
  rewrite Hdelete. cbn [fst snd set_storage_bots storage_bots telegram_bots].
  split_and!; [apply lookup_delete_eq| |reflexivity|].
  - rewrite stopBot_registry. apply lookup_delete_eq.
  - intros other Hne. rewrite lookup_delete_ne, stopBot_storage, stopBot_registry by done.
    rewrite lookup_delete_ne by done. by rewrite (bool_decide_eq_false_2 (other = id)).
Qed.

(** A PATCH whose body has no [telegramToken], or an empty one, only
    rewrites the stored record: it makes no remote call and leaves the
    registry alone, even when the body changes [isActive].  The answer is
    200 with the patched record, or 404. *)
Theorem patch_bot_without_token (w : World) (id : string) (updates : BotPatch) :
  p_telegramToken updates = None \/ p_telegramToken updates = Some "" ->
  let w' := snd (Routes.patch_bot env id updates w) in
  fst (Routes.patch_bot env id updates w)
  = Return (match storage_bots w !! id with
            | Some bot => mkResponse 200 (JsonBot (Some (apply_patch bot updates)))
            | None => bot_not_found
            end)
  /\ w' = snd (MemStorage.updateBot id updates w)
  /\ net w' = net w
  /\ telegram_bots w' = telegram_bots w.
Proof.
  intros Htoken. cbn zeta.
  assert (Hpatch : Routes.patch_bot env id updates w
                   = (Return (match storage_bots w !! id with
                              | Some bot =>
                                  mkResponse 200 (JsonBot (Some (apply_patch bot updates)))
                              | None => bot_not_found
                              end),
                      snd (MemStorage.updateBot id updates w))).
  { unfold Routes.patch_bot, MemStorage.updateBot. run.
    destruct (storage_bots w !! id) as [bot|]; [|reflexivity]. cbn.
    by destruct Htoken as [-> | ->]. }
  rewrite Hpatch. cbn [fst snd]. split_and!; [reflexivity|reflexivity| |].
  all: unfold MemStorage.updateBot; by destruct (storage_bots w !! id).
Qed.
End BotEndpoints.

Lemma unknown_bot_is_404_witness :
  Routes.toggle Fixtures.friendly "nobody" Fixtures.pirate_world
  = (Return bot_not_found, Fixtures.pirate_world).
Proof.
  apply (unknown_bot_is_404 Fixtures.friendly Fixtures.pirate_world "nobody" no_patch).
  vm_compute. reflexivity.
Defined.

Lemma patch_bot_without_token_witness :
  let w' := snd (Routes.patch_bot Fixtures.friendly "id-" (patch_isActive false)
                   Fixtures.pirate_world) in
  stored_active w' "id-" = false /\ registered w' "id-" = true
  /\ net w' = net Fixtures.pirate_world.
Proof.
  destruct (patch_bot_without_token Fixtures.friendly Fixtures.pirate_world "id-"
              (patch_isActive false)) as (_ & Hw' & Hnet & _).
  - left. reflexivity.
  - split_and!; [| |exact Hnet]; rewrite Hw'; vm_compute; reflexivity.
Defined.

Section CreateEndpoint.
Context (env : Env).

Lemma createBot_returns (w : World) (botId token : string) :
  exists ok, TelegramService.createBot env botId token w
             = (Return ok, snd (TelegramService.createBot env botId token w)).
Proof.
  rewrite createBot_eq.
  destruct (TelegramService.invalid_token_format token); cbn zeta; [by eexists|].
  destruct (negb _); [by eexists|]. destruct (negb _); by eexists.
Qed.

Lemma post_bots_eq (w : World) (insertBot : InsertBot) (ok : bool) (activated : World) :
  TelegramService.createBot env (randomUUID env (uuids_drawn w))
    (ins_telegramToken insertBot)
    (snd (MemStorage.createBot env insertBot "demo-user" w)) = (Return ok, activated) ->
  Routes.post_bots env (Some insertBot) w
  = if ok
    then (Return (mkResponse 201
                    (JsonBot (Some (created_bot env insertBot "demo-user" w)))),
          activated)
    else (Return check_your_token,
          set_storage_bots (delete (randomUUID env (uuids_drawn w))) activated).
Proof.
  intros Hactivate. unfold Routes.post_bots. unfold try_catch, bind at 1 2. cbn [ret].
  unfold bind at 1. rewrite storage_createBot_eq in *. cbn [created_bot bot_id snd] in *.
  unfold bind at 1. rewrite Hactivate. by destruct ok.
Qed.

(** POST /api/bots with a valid body answers 201 exactly when the
    activation of the new bot answered [true]; the bot is then stored
    active and registered, and the body is the record as it was created,
    before activation.  Otherwise the answer is 400, no record is left under
    the new id and the registry is as before: a bot is never left stored
    without having been activated.  A body that fails validation is
    answered 400 with nothing created and nothing sent. *)
Theorem post_bots_stores_iff_activated (w : World) (insertBot : InsertBot) :
  let id := randomUUID env (uuids_drawn w) in
  let created := snd (MemStorage.createBot env insertBot "demo-user" w) in
  let run := Routes.post_bots env (Some insertBot) w in
  exists ok,
    fst (TelegramService.createBot env id (ins_telegramToken insertBot) created) = Return ok
    /\ (ok = true ->
        fst run = Return (mkResponse 201
                            (JsonBot (Some (created_bot env insertBot "demo-user" w))))
        /\ storage_bots (snd run) !! id
           = Some (apply_patch (created_bot env insertBot "demo-user" w)
                     (patch_isActive true))
        /\ telegram_bots (snd run) !! id = Some (live_bot (ins_telegramToken insertBot)))
    /\ (ok = false ->
        fst run = Return check_your_token
        /\ storage_bots (snd run) !! id = None
        /\ telegram_bots (snd run) = telegram_bots w)
    /\ Routes.post_bots env None w
       = (Return (mkResponse 400 (JsonInvalid "Invalid bot configuration")), w).
Proof.
  cbn zeta.
  destruct (createBot_returns (snd (MemStorage.createBot env insertBot "demo-user" w))
              (randomUUID env (uuids_drawn w)) (ins_telegramToken insertBot))
    as [ok Hactivate].
  exists ok. rewrite (post_bots_eq _ _ _ _ Hactivate). rewrite Hactivate at 1.
  split; [reflexivity|]. split_and!; [| |reflexivity].
  - intros ->. cbn [fst snd]. split; [reflexivity|].
    revert Hactivate. rewrite createBot_eq.
    destruct (TelegramService.invalid_token_format _); [discriminate|]. cbn zeta.
    destruct (negb _); [discriminate|]. destruct (negb _); [discriminate|].
    intros _. cbn [snd]. rewrite set_flag_lookup, telegram_bots_set_flag.
    rewrite storage_createBot_eq. cbn [snd logged set_telegram_bots storage_bots telegram_bots].
    rewrite !lookup_insert_eq. split; reflexivity.
  - intros ->. cbn [fst snd set_storage_bots storage_bots telegram_bots].
    split; [reflexivity|]. split; [apply lookup_delete_eq|].
    revert Hactivate. rewrite createBot_eq.
    destruct (TelegramService.invalid_token_format _); cbn zeta.
    2: destruct (negb _); [|destruct (negb _); [|discriminate]].
    all: intros _; cbn [snd]; rewrite telegram_bots_set_flag;
         by rewrite storage_createBot_eq.
Qed.
End CreateEndpoint.

(** ** The base64 envelope *)

Example atob_examples :
  GitHubService.atob "Zm9vYmFy" = Some "foobar" /\ GitHubService.atob "Zm8=" = Some "fo" /\
  GitHubService.atob "Zg" = Some "f" /\ GitHubService.atob "Zm 9v" = Some "foo" /\
  GitHubService.atob "Zm9vY" = None /\ GitHubService.atob "Zm9*" = None /\
  GitHubService.atob "" = Some "".
Proof. repeat split; reflexivity. Qed.

Lemma list_triple_ind {A} (P : list A -> Prop) :
  P [] -> (forall a, P [a]) -> (forall a b, P [a; b]) ->
  (forall a b c rest, P rest -> P (a :: b :: c :: rest)) ->
  forall l, P l.
Proof.
  intros H0 H1 H2 H3 l.
  assert (H : P l /\ (forall a, P (a :: l)) /\ (forall a b, P (a :: b :: l))).
  { induction l as [|x l (IH0 & IH1 & IH2)]; [by auto|].
    split_and!; auto. }
  apply H.
Qed.

Lemma list_ascii_of_string_app (s1 s2 : string) :
  list_ascii_of_string (s1 ++ s2) = (list_ascii_of_string s1 ++ list_ascii_of_string s2)%list.
Proof. induction s1 as [|c s1 IH]; [reflexivity|]. simpl. f_equal. exact IH. Qed.

Lemma digits_ok : forallb digit_ok (seq 0 64) = true.
Proof. vm_compute. reflexivity. Qed.

Lemma digit_facts (d : Z) :
  is_sextet d ->
  GitHubService.base64_digit d = String (digit_char d) EmptyString
  /\ GitHubService.base64_index (digit_char d) = Some d
  /\ GitHubService.is_ascii_whitespace (digit_char d) = false
  /\ Ascii.eqb (digit_char d) "=" = false.
Proof.
  intros [Hlo Hhi].
  assert (Hin : In (Z.to_nat d) (seq 0 64)) by (apply in_seq; lia).
  pose proof (proj1 (forallb_forall digit_ok (seq 0 64)) digits_ok _ Hin) as Hok.
  unfold digit_ok in Hok. rewrite Z2Nat.id in Hok by lia.
  rewrite !andb_true_iff, !negb_true_iff, String.eqb_eq in Hok.
  destruct Hok as (((Hdigit & Hindex) & Hws) & Hpad).
  split_and!; auto.
  destruct (GitHubService.base64_index (digit_char d)) as [d'|]; [|discriminate].
  apply Z.eqb_eq in Hindex. by subst.
Qed.

(** Arithmetic with division by a constant. *)
Ltac div_lia := Z.div_mod_to_equations; lia.

Lemma sextets_in_range (bytes : list Z) :
  Forall is_byte bytes -> Forall is_sextet (sextets_of bytes).
Proof.
  unfold is_byte, is_sextet.
  induction bytes as [|a|a b|a b c rest IH] using list_triple_ind; intros Hbytes.
  - constructor.
  - inversion_clear Hbytes. cbn [sextets_of].
    repeat (apply Forall_cons; split); try apply Forall_nil; try (by apply IH); div_lia.
  - inversion_clear Hbytes as [|? ? ? Hb]. inversion_clear Hb. cbn [sextets_of].
    repeat (apply Forall_cons; split); try apply Forall_nil; try (by apply IH); div_lia.
  - inversion_clear Hbytes as [|? ? ? Hb]. inversion_clear Hb as [|? ? ? Hc].
    inversion_clear Hc. cbn [sextets_of].
    repeat (apply Forall_cons; split); try apply Forall_nil; try (by apply IH); div_lia.
Qed.

Lemma bytes_of_sextets_of (bytes : list Z) :
  Forall is_byte bytes -> GitHubService.bytes_of_sextets (sextets_of bytes) = bytes.
Proof.
  unfold is_byte.
  induction bytes as [|a|a b|a b c rest IH] using list_triple_ind; intros Hbytes.
  - reflexivity.
  - inversion_clear Hbytes. cbn. f_equal. div_lia.
  - inversion_clear Hbytes as [|? ? ? Hb]. inversion_clear Hb. cbn.
    f_equal; [div_lia|]. f_equal. div_lia.
  - inversion_clear Hbytes as [|? ? ? Hb]. inversion_clear Hb as [|? ? ? Hc].
    inversion_clear Hc. cbn [sextets_of GitHubService.bytes_of_sextets].
    rewrite IH by assumption. f_equal; [div_lia|]. f_equal; [div_lia|]. f_equal. div_lia.
Qed.

Lemma base64_chars (bytes : list Z) :
  Forall is_byte bytes ->
  list_ascii_of_string (GitHubService.base64 bytes)
  = (map digit_char (sextets_of bytes) ++ padding_of bytes)%list.
Proof.
  intros Hbytes. pose proof (sextets_in_range bytes Hbytes) as Hsext. revert Hbytes Hsext.
  induction bytes as [|a|a b|a b c rest IH] using list_triple_ind; intros Hbytes Hsext.
  - reflexivity.
  - cbn [sextets_of] in Hsext. inversion_clear Hsext as [|? ? H1 Hs]. inversion_clear Hs as [|? ? H2 _].
    cbn [GitHubService.base64 sextets_of padding_of map].
    destruct (digit_facts _ H1) as (-> & _). destruct (digit_facts _ H2) as (-> & _).
    reflexivity.
  - cbn [sextets_of] in Hsext. inversion_clear Hsext as [|? ? H1 Hs].
    inversion_clear Hs as [|? ? H2 Hs']. inversion_clear Hs' as [|? ? H3 _].
    cbn [GitHubService.base64 sextets_of padding_of map].
    destruct (digit_facts _ H1) as (-> & _). destruct (digit_facts _ H2) as (-> & _).
    destruct (digit_facts _ H3) as (-> & _). reflexivity.
  - cbn [sextets_of] in Hsext. inversion_clear Hsext as [|? ? H1 Hs].
    inversion_clear Hs as [|? ? H2 Hs']. inversion_clear Hs' as [|? ? H3 Hs].
    inversion_clear Hs as [|? ? H4 Hrest].
    inversion_clear Hbytes as [|? ? ? Hb]. inversion_clear Hb as [|? ? ? Hc].
    inversion_clear Hc as [|? ? ? Hbytes].
    cbn [GitHubService.base64 sextets_of padding_of map].
    destruct (digit_facts _ H1) as (-> & _). destruct (digit_facts _ H2) as (-> & _).
    destruct (digit_facts _ H3) as (-> & _). destruct (digit_facts _ H4) as (-> & _).
    rewrite !list_ascii_of_string_app, (IH Hbytes Hrest). reflexivity.
Qed.

Lemma filter_all {A} (f : A -> bool) (l : list A) :
  Forall (fun x => f x = true) l -> List.filter f l = l.
Proof. induction 1 as [|x l Hx _ IH]; cbn; [reflexivity|]. by rewrite Hx, IH. Qed.

Lemma base64_lengths (bytes : list Z) :
  ((length (sextets_of bytes) + length (padding_of bytes)) mod 4 = 0)%nat
  /\ (length (sextets_of bytes) mod 4 <> 1)%nat
  /\ (padding_of bytes = [] \/ padding_of bytes = ["="%char]
      \/ padding_of bytes = ["="%char; "="%char]).
Proof.
  induction bytes as [|a|a b|a b c rest (IH1 & IH2 & IH3)] using list_triple_ind.
  1-3: cbn; split_and!; auto; discriminate.
  cbn [sextets_of padding_of length].
  replace (S (S (S (S (length (sextets_of rest))))) + length (padding_of rest))%nat
    with (length (sextets_of rest) + length (padding_of rest) + 1 * 4)%nat by lia.
  replace (S (S (S (S (length (sextets_of rest))))))
    with (length (sextets_of rest) + 1 * 4)%nat by lia.
  rewrite !Nat.Div0.mod_add. auto.
Qed.

Lemma strip_padding_body (body pad : list ascii) :
  Forall (fun c => Ascii.eqb c "=" = false) body ->
  pad = [] \/ pad = ["="%char] \/ pad = ["="%char; "="%char] ->
  GitHubService.strip_padding (body ++ pad) = body.
Proof.
  intros Hbody Hpad. unfold GitHubService.strip_padding. rewrite rev_app_distr.
  assert (Hlast : forall c front, rev body = c :: front -> Ascii.eqb c "=" = false).
  { intros c front Hrev. rewrite List.Forall_forall in Hbody. apply Hbody.
    apply in_rev. rewrite Hrev. by left. }
  destruct Hpad as [->|[->| ->]]; cbn [rev app].
  - rewrite app_nil_r. destruct (rev body) as [|c front] eqn:Hrev; [reflexivity|].
    by rewrite (Hlast c front eq_refl).
  - change (Ascii.eqb "=" "=") with true. cbn iota.
    destruct (rev body) as [|c front] eqn:Hrev.
    + symmetry. apply (f_equal (@rev ascii)) in Hrev. by rewrite rev_involutive in Hrev.
    + rewrite (Hlast c front eq_refl). rewrite <- Hrev. apply rev_involutive.
  - change (Ascii.eqb "=" "=") with true. cbn iota. apply rev_involutive.
Qed.

Lemma indices_digits (sextets : list Z) :
  Forall is_sextet sextets ->
  GitHubService.indices (map digit_char sextets) = Some sextets.
Proof.
  induction 1 as [|d ds Hd _ IH]; cbn; [reflexivity|].
  destruct (digit_facts d Hd) as (_ & -> & _). by rewrite IH.
Qed.

Lemma codes_are_bytes (chars : list ascii) : Forall is_byte (map Js.code chars).
Proof.
  induction chars as [|c chars IH]; cbn; constructor; [|exact IH].
  unfold is_byte, Js.code. pose proof (nat_ascii_bounded c). lia.
Qed.

Lemma codes_back (s : string) :
  string_of_list_ascii
    (map (fun byte => ascii_of_nat (Z.to_nat byte)) (map Js.code (list_ascii_of_string s)))
  = s.
Proof.
  induction s as [|c s IH]; cbn; [reflexivity|].
  unfold Js.code at 1. by rewrite Nat2Z.id, ascii_nat_embedding, IH.
Qed.

(** What [createOrUpdateFile] encodes, the decoding of [getFileContent]
    gives back unchanged: [atob(btoa(content))] is [content] for every
    content, so the content field of the PUT body decodes to the file's
    content. *)
Theorem atob_btoa_roundtrip (content : string) :
  GitHubService.atob (GitHubService.btoa content) = Some content
  /\ (forall repoFullName filePath message token sha,
        exists url body,
          GitHubService.put_request repoFullName filePath content message token sha
          = GitHubPut url token body
          /\ GitHubService.atob (put_content body) = Some content).
Proof.
  assert (Hround : GitHubService.atob (GitHubService.btoa content) = Some content).
  { unfold GitHubService.atob, GitHubService.btoa.
    set (bytes := map Js.code (list_ascii_of_string content)).
    assert (Hbytes : Forall is_byte bytes) by apply codes_are_bytes.
    pose proof (sextets_in_range bytes Hbytes) as Hsext.
    destruct (base64_lengths bytes) as (Hlen & Hmod & Hpad).
    assert (Hnopad : Forall (fun c => Ascii.eqb c "=" = false) (map digit_char (sextets_of bytes))).
    { apply List.Forall_forall. intros c Hc. apply in_map_iff in Hc as (d & <- & Hd).
      rewrite List.Forall_forall in Hsext. by destruct (digit_facts d (Hsext d Hd)) as (_ & _ & _ & ?). }
    rewrite base64_chars by exact Hbytes.
    rewrite filter_all.
    2:{ apply Forall_app. split.
        - apply List.Forall_forall. intros c Hc. apply in_map_iff in Hc as (d & <- & Hd).
          rewrite List.Forall_forall in Hsext.
          destruct (digit_facts d (Hsext d Hd)) as (_ & _ & -> & _). reflexivity.
        - destruct Hpad as [->|[->| ->]]; repeat constructor. }
    rewrite length_app, length_map, Hlen. cbn [Nat.eqb].
    rewrite (strip_padding_body _ _ Hnopad Hpad), length_map.
    destruct (length (sextets_of bytes) mod 4 =? 1)%nat eqn:E;
      [apply Nat.eqb_eq in E; contradiction|].
    rewrite (indices_digits _ Hsext), (bytes_of_sextets_of _ Hbytes).
    subst bytes. by rewrite codes_back. }
  split; [exact Hround|].
  intros. eexists _, _. split; [reflexivity|]. exact Hround.
Qed.

(** ** Projects and files *)

Lemma map_get_set_eq {V} (k : string) (v : V) (m : list (string * V)) :
  map_get k (map_set k v m) = Some v.
Proof.
  induction m as [|[k' v'] m IH]; cbn.
  - by rewrite String.eqb_refl.
  - destruct (String.eqb k' k) eqn:E; cbn; by rewrite E.
Qed.

Lemma map_get_set_ne {V} (k other : string) (v : V) (m : list (string * V)) :
  other <> k -> map_get other (map_set k v m) = map_get other m.
Proof.
  intros Hne.
  assert (Hkey : String.eqb k other = false) by (apply String.eqb_neq; congruence).
  induction m as [|[k' v'] m IH]; cbn.
  - by rewrite Hkey.
  - destruct (String.eqb_spec k' k) as [->|Hk]; cbn; [by rewrite Hkey|].
    by rewrite IH.
Qed.

Lemma map_set_keys {V} (k : string) (v : V) (m : list (string * V)) :
  map fst (map_set k v m)
  = if bool_decide (k ∈ map fst m) then map fst m else (map fst m ++ [k])%list.
Proof.
  induction m as [|[k' v'] m IH]; cbn; [reflexivity|].
  destruct (String.eqb_spec k' k) as [->|Hk]; cbn.
  - rewrite bool_decide_eq_true_2 by apply list_elem_of_here. reflexivity.
  - rewrite IH. destruct (bool_decide (k ∈ map fst m)) eqn:E.
    + apply bool_decide_eq_true in E.
      rewrite bool_decide_eq_true_2 by (by apply list_elem_of_further). reflexivity.
    + apply bool_decide_eq_false in E. rewrite bool_decide_eq_false_2; [reflexivity|].
      rewrite elem_of_cons. intros [?|?]; congruence.
Qed.

Lemma map_get_In {V} (k : string) (v : V) (m : list (string * V)) :
  map_get k m = Some v -> In (k, v) m.
Proof.
  induction m as [|[k' v'] m IH]; cbn; [discriminate|].
  destruct (String.eqb_spec k' k) as [->|Hk]; [intros [= ->]; by left|].
  intros H. right. by apply IH.
Qed.

Lemma map_get_delete_eq {V} (k : string) (m : list (string * V)) :
  map_get k (map_delete k m) = None.
Proof.
  unfold map_delete. induction m as [|[k' v'] m IH]; cbn; [reflexivity|].
  destruct (String.eqb k' k) eqn:E; cbn; [exact IH|]. by rewrite E.
Qed.

Lemma map_get_delete_ne {V} (k other : string) (m : list (string * V)) :
  other <> k -> map_get other (map_delete k m) = map_get other m.
Proof.
  intros Hne.
  assert (Hkey : String.eqb k other = false) by (apply String.eqb_neq; congruence).
  unfold map_delete. induction m as [|[k' v'] m IH]; cbn; [reflexivity|].
  destruct (String.eqb_spec k' k) as [->|Hk]; cbn.
  - by rewrite Hkey.
  - by rewrite IH.
Qed.

Lemma keyed_once {V} (k : string) (v1 v2 : V) (m : list (string * V)) :
  NoDup (map fst m) -> In (k, v1) m -> In (k, v2) m -> v1 = v2.
Proof.
  induction m as [|[k' v'] m IH]; cbn; [tauto|].
  intros Hnodup H1 H2. apply NoDup_cons in Hnodup as [Hfresh Hnodup].
  destruct H1 as [E1|H1], H2 as [E2|H2].
  - congruence.
  - injection E1 as -> ->. exfalso. apply Hfresh, list_elem_of_In.
    apply (in_map fst) in H2. exact H2.
  - injection E2 as -> ->. exfalso. apply Hfresh, list_elem_of_In.
    apply (in_map fst) in H1. exact H1.
  - by apply IH.
Qed.

Lemma filter_filter_weaker {A} (f g : A -> bool) (l : list A) :
  (forall x, f x = true -> g x = true) ->
  List.filter f (List.filter g l) = List.filter f l.
Proof.
  intros Himp. induction l as [|x l IH]; cbn; [reflexivity|].
  destruct (g x) eqn:Hg; cbn.
  - by rewrite IH.
  - destruct (f x) eqn:Hf; [|exact IH]. rewrite (Himp x Hf) in Hg. discriminate.
Qed.

Lemma filter_none {A} (f g : A -> bool) (l : list A) :
  (forall x, g x = true -> f x = false) ->
  List.filter f (List.filter g l) = [].
Proof.
  intros Hexcl. induction l as [|x l IH]; cbn; [reflexivity|].
  destruct (g x) eqn:Hg; cbn; [|exact IH]. by rewrite (Hexcl x Hg).
Qed.

Lemma map_snd_filter {K V} (g : V -> bool) (m : list (K * V)) :
  map snd (List.filter (fun entry => g (snd entry)) m) = List.filter g (map snd m).
Proof.
  induction m as [|[k v] m IH]; cbn; [reflexivity|].
  destruct (g v); cbn; by rewrite IH.
Qed.

Lemma filter_and {A} (f g : A -> bool) (l : list A) :
  List.filter f (List.filter g l) = List.filter (fun x => g x && f x) l.
Proof.
  induction l as [|x l IH]; cbn; [reflexivity|].
  destruct (g x); cbn; [|exact IH]. destruct (f x); by rewrite IH.
Qed.

(** Deleting the files found for a project, one [delete(file.id)] after the
    other, removes exactly the files of that project when the files are
    well formed. *)
Lemma delete_project_files (id : string) (files : list (string * File)) :
  files_well_formed files ->
  fold_left (fun acc file => map_delete (file_id file) acc)
    (List.filter (fun file => String.eqb (projectId file) id) (map snd files)) files
  = List.filter (fun entry => negb (String.eqb (projectId (snd entry)) id)) files.
Proof.
  intros [Hnodup Hkeyed].
  assert (Hgen : forall (doomed : list File) (acc : list (string * File)),
            fold_left (fun acc file => map_delete (file_id file) acc) doomed acc
            = List.filter
                (fun entry => negb (existsb (fun file => String.eqb (fst entry) (file_id file))
                                            doomed)) acc).
  { induction doomed as [|file doomed IH]; intros acc; cbn.
    - symmetry. apply filter_all. apply List.Forall_forall. reflexivity.
    - rewrite IH. unfold map_delete. rewrite filter_and.
      apply List.filter_ext. intros entry. by rewrite negb_orb. }
  rewrite Hgen. apply List.filter_ext_in. intros [k file] Hin. f_equal. cbn.
  rewrite List.Forall_forall in Hkeyed.
  destruct (String.eqb (projectId file) id) eqn:Hown.
  - apply existsb_exists. exists file. split.
    + apply List.filter_In. split; [|exact Hown]. by apply (in_map snd) in Hin.
    + specialize (Hkeyed _ Hin). cbn in Hkeyed. rewrite Hkeyed. apply String.eqb_refl.
  - apply not_true_iff_false. intros Hex. apply existsb_exists in Hex as (other & Hother & Hkey).
    apply List.filter_In in Hother as [Hother Hown'].
    apply in_map_iff in Hother as ([k' file'] & Hsnd & Hin'). cbn in Hsnd. subst file'.
    apply String.eqb_eq in Hkey. pose proof (Hkeyed _ Hin') as Hk'. cbn in Hk'.
    subst k k'.
    rewrite (keyed_once _ file other files Hnodup Hin Hin') in Hown. congruence.
Qed.

Lemma well_formed_filter (f : string * File -> bool) (files : list (string * File)) :
  files_well_formed files -> files_well_formed (List.filter f files).
Proof.
  intros [Hnodup Hkeyed]. split.
  - clear Hkeyed. induction files as [|[k file] files IH]; cbn; [constructor|].
    apply NoDup_cons in Hnodup as [Hfresh Hnodup].
    destruct (f (k, file)); cbn; [|by apply IH].
    apply NoDup_cons. split; [|by apply IH].
    intros Hin. apply Hfresh. apply list_elem_of_In in Hin. apply list_elem_of_In.
    apply in_map_iff in Hin as (entry & Hk & Hentry). apply List.filter_In in Hentry as [Hentry _].
    apply in_map_iff. eauto.
  - apply List.Forall_forall. intros entry Hin. apply List.filter_In in Hin as [Hin _].
    rewrite List.Forall_forall in Hkeyed. by apply Hkeyed.
Qed.

Section ProjectStore.
Context (env : Env).

(** Deleting a project takes its files with it.  When the files are well
    formed, [deleteProject] leaves no file of the project, keeps the files of
    every other project as they were and in the same order, removes the
    project, answers whether the project was stored, and leaves the files
    well formed; the bots' part of the state is untouched.  The files go
    even when no such project is stored. *)
Theorem deleteProject_cascades (s : Store) (id : string) :
  files_well_formed (storage_files s) ->
  let s' := snd (MemStorageProjects.deleteProject id s) in
  fst (MemStorageProjects.deleteProject id s)
  = Return (bool_decide (is_Some (map_get id (storage_projects s))))
  /\ files_of s' id = []
  /\ (forall other, other <> id -> files_of s' other = files_of s other)
  /\ map_get id (storage_projects s') = None
  /\ (forall other, other <> id ->
        map_get other (storage_projects s') = map_get other (storage_projects s))
  /\ files_well_formed (storage_files s')
  /\ world s' = world s.
Proof.
  intros Hwf. cbn zeta. unfold MemStorageProjects.deleteProject, files_of.
  cbn [fst snd storage_files storage_projects world].
  rewrite (delete_project_files id _ Hwf).
  rewrite (map_snd_filter (fun file => negb (String.eqb (projectId file) id))).
  split_and!; [reflexivity| | | | | |reflexivity].
  - apply filter_none. intros file Hother. by apply negb_true_iff.
  - intros other Hne. apply filter_filter_weaker. intros file Hown.
    apply String.eqb_eq in Hown. apply negb_true_iff, String.eqb_neq. congruence.
  - apply map_get_delete_eq.
  - intros other Hne. by apply map_get_delete_ne.
  - by apply well_formed_filter.
Qed.
End ProjectStore.

Lemma map_set_Forall {V} (P : string * V -> Prop) (k : string) (v : V)
    (m : list (string * V)) :
  Forall P m -> P (k, v) -> (forall v', P (k, v') -> P (k, v)) -> Forall P (map_set k v m).
Proof.
  intros Hm Hv _. induction Hm as [|[k' v'] m Hx Hm IH]; cbn.
  - by constructor.
  - destruct (String.eqb_spec k' k) as [->|Hk]; constructor; auto.
Qed.

Lemma map_set_well_formed (id : string) (file : File) (files : list (string * File)) :
  file_id file = id -> files_well_formed files -> files_well_formed (map_set id file files).
Proof.
  intros Hid [Hnodup Hkeyed]. split.
  - rewrite map_set_keys. case_bool_decide as Hin; [exact Hnodup|].
    apply NoDup_app. split_and!; [exact Hnodup| |apply NoDup_singleton].
    intros k Hk Hk'. apply list_elem_of_singleton in Hk'. by subst.
  - apply map_set_Forall; auto.
Qed.

Section FileStore.
Context (env : Env).

(** [createFile] stores the file under a newly drawn id and returns it:
    [getFile] with that id then gives the same record, files under other
    ids are untouched, and when the id was not in use the file comes last
    among the files of its project.  The project is not looked up, and well
    formed files stay well formed. *)
Theorem createFile_then_found (s : Store) (insertFile : InsertFile) :
  exists file s',
    MemStorageProjects.createFile env insertFile s = (Return file, s')
    /\ file_id file = randomUUID env (uuids_drawn (world s))
    /\ projectId file = if_projectId insertFile
    /\ file_content file = if_content insertFile
    /\ MemStorageProjects.getFile (file_id file) s' = (Return (Some file), s')
    /\ (forall other, other <> file_id file ->
          map_get other (storage_files s') = map_get other (storage_files s))
    /\ (~ In (file_id file) (map fst (storage_files s)) ->
        files_of s' (if_projectId insertFile)
        = (files_of s (if_projectId insertFile) ++ [file])%list)
    /\ (files_well_formed (storage_files s) -> files_well_formed (storage_files s'))
    /\ storage_projects s' = storage_projects s.
Proof.
  destruct (MemStorageProjects.createFile env insertFile s) as [r s'] eqn:Hrun.
  unfold MemStorageProjects.createFile, sbind, in_world, draw_uuid, new_Date, set_files,
    sret in Hrun.
  cbn in Hrun. injection Hrun as <- <-.
  eexists _, _. split; [reflexivity|].
  cbn [file_id projectId file_content storage_files storage_projects world
       uuids_drawn clock_reads].
  split_and!; try reflexivity.
  - unfold MemStorageProjects.getFile. cbn [storage_files]. by rewrite map_get_set_eq.
  - intros other Hne. by apply map_get_set_ne.
  - intros Hfresh. unfold files_of. cbn [storage_files].
    rewrite (map_set_fresh _ _ _ Hfresh), map_app, List.filter_app. cbn.
    by rewrite String.eqb_refl.
  - by apply map_set_well_formed.
Qed.

(** [updateFile] on an id that is not stored returns nothing and changes
    nothing.  On a stored file it returns the patched record, which
    [getFile] gives from then on, with [updatedAt] set to the time of the
    call whatever the patch says; the file keeps its place, and the other
    files are untouched.  Files stay well formed when the patch does not
    rewrite [id]. *)
Theorem updateFile_stamps (s : Store) (id : string) (updates : FilePatch) :
  (map_get id (storage_files s) = None ->
   MemStorageProjects.updateFile env id updates s = (Return None, s))
  /\ (forall file, map_get id (storage_files s) = Some file ->
      let updated := apply_file_patch file updates (Date_now env (clock_reads (world s))) in
      let s' := snd (MemStorageProjects.updateFile env id updates s) in
      fst (MemStorageProjects.updateFile env id updates s) = Return (Some updated)
      /\ map_get id (storage_files s') = Some updated
      /\ updatedAt updated = Some (Date_now env (clock_reads (world s)))
      /\ map fst (storage_files s') = map fst (storage_files s)
      /\ (forall other, other <> id ->
            map_get other (storage_files s') = map_get other (storage_files s))
      /\ (fp_id updates = None -> files_well_formed (storage_files s) ->
          files_well_formed (storage_files s'))).
Proof.
  unfold MemStorageProjects.updateFile. split.
  - by intros ->.
  - intros file Hfile. rewrite Hfile. cbn zeta. cbn.
    split_and!; try reflexivity.
    + apply map_get_set_eq.
    + rewrite map_set_keys. rewrite bool_decide_eq_true_2; [reflexivity|].
      apply list_elem_of_In. apply map_get_In in Hfile. by apply (in_map fst) in Hfile.
    + intros other Hne. by apply map_get_set_ne.
    + intros Hid Hwf. apply map_set_well_formed; [|exact Hwf].
      cbn. rewrite Hid. cbn. destruct Hwf as [_ Hkeyed].
      rewrite List.Forall_forall in Hkeyed. apply map_get_In in Hfile.
      exact (Hkeyed _ Hfile).
Qed.
End FileStore.

Lemma deleteProject_cascades_witness :
  let s' := snd (MemStorageProjects.deleteProject "p1" FilesScenario.three_files) in
  files_of s' "p1" = []
  /\ files_of s' "p2" = files_of FilesScenario.three_files "p2"
  /\ length (files_of FilesScenario.three_files "p1") = 2%nat.
Proof.
  destruct (deleteProject_cascades FilesScenario.three_files "p1")
    as (_ & Hgone & Hkept & _).
  - split; vm_compute; repeat constructor; intros H; inversion H;
      repeat match goal with
             | H : _ ∈ _ |- _ => inversion H; clear H; subst
             end.
  - split_and!; [exact Hgone|by apply Hkept|vm_compute; reflexivity].
Defined.

(** ** The file service *)

Section FileOperations.
Context (env : Env).

(** The three operations of the file service call
    [openaiService.generateResponse(prompt, system, config)].  The
    declaration in force takes one [chatParams] object, so each call throws
    before anything is sent and is rethrown with the operation's own
    message: whatever the request and the completion service, the
    operation fails and the state is untouched. *)
Theorem file_operations_always_fail (w : World) :
  (forall request,
      FileService.generateFileContent env request w
      = (Throw (Js.Err "Не удалось сгенерировать файл"), w))
  /\ (forall request,
        FileService.editFileContent env request w
        = (Throw (Js.Err "Не удалось отредактировать файл"), w))
  /\ (forall code language,
        FileService.analyzeCode env code language w
        = (Throw (Js.Err "Не удалось проанализировать код"), w)).
Proof.
  split_and!; intros;
    unfold FileService.generateFileContent, FileService.editFileContent,
      FileService.analyzeCode, try_catch, bind;
    cbn zeta; by rewrite generateResponse_string_arg.
Qed.
End FileOperations.

(** *** The language of a file name *)

Lemma split_dot_nonempty (s : string) : FileService.split_dot s <> [].
Proof.
  induction s as [|c s IH]; cbn; [discriminate|].
  destruct (Ascii.eqb c "."); [discriminate|].
  by destruct (FileService.split_dot s).
Qed.

Lemma split_dot_app (a b : string) :
  FileService.split_dot (a ++ "." ++ b)
  = (FileService.split_dot a ++ FileService.split_dot b)%list.
Proof.
  change (a ++ "." ++ b) with (a ++ String "." b).
  induction a as [|c a IH]; [reflexivity|].
  change (String c a ++ String "." b) with (String c (a ++ String "." b)).
  cbn [FileService.split_dot]. rewrite IH.
  destruct (Ascii.eqb c "."); [reflexivity|].
  pose proof (split_dot_nonempty a) as Hne.
  by destruct (FileService.split_dot a).
Qed.

Lemma split_dot_dotless (s : string) :
  dotless s -> FileService.split_dot s = [s].
Proof.
  unfold dotless. induction s as [|c s IH]; cbn; [reflexivity|].
  intros Hno. destruct (Ascii.eqb_spec c ".") as [->|_]; [tauto|].
  rewrite IH; [reflexivity|tauto].
Qed.

Lemma pop_split_dot (stem ext : string) :
  dotless ext -> FileService.pop (FileService.split_dot (stem ++ "." ++ ext)) = Some ext.
Proof.
  intros Hno. rewrite split_dot_app, (split_dot_dotless ext Hno).
  unfold FileService.pop. by rewrite last_snoc.
Qed.

(** Only the piece after the last dot counts, and its case does not: two
    names whose last pieces agree up to case get the same language, and a
    name without a dot is read as if it were its own extension. *)
Theorem getLanguage_by_last_piece (stem stem' ext ext' : string) :
  dotless ext -> dotless ext' ->
  FileService.toLowerCase ext = FileService.toLowerCase ext' ->
  FileService.getLanguageFromFileName (stem ++ "." ++ ext)
  = FileService.getLanguageFromFileName (stem' ++ "." ++ ext')
  /\ FileService.getLanguageFromFileName (stem ++ "." ++ ext)
     = FileService.getLanguageFromFileName ext.
Proof.
  intros Hext Hext' Hsame. unfold FileService.getLanguageFromFileName.
  rewrite !pop_split_dot by assumption.
  rewrite (split_dot_dotless ext Hext). cbn [FileService.pop last option_map].
  by rewrite Hsame.
Qed.

Lemma lower_lowered (c : ascii) : lowered (FileService.lower c) = true.
Proof.
  destruct c as [[] [] [] [] [] [] [] []]; reflexivity.
Qed.

Lemma toLowerCase_lowered (s : string) :
  forallb lowered (list_ascii_of_string (FileService.toLowerCase s)) = true.
Proof.
  induction s as [|c s IH]; cbn; [reflexivity|].
  by rewrite lower_lowered, IH.
Qed.

Lemma extension_lowered (fileName : string) :
  forallb lowered
    (list_ascii_of_string
       (Js.or_default
          (option_map FileService.toLowerCase
             (FileService.pop (FileService.split_dot fileName))) ""))
  = true.
Proof.
  destruct (FileService.pop (FileService.split_dot fileName)) as [piece|]; cbn;
    [|reflexivity].
  unfold Js.or_default.
  destruct (Js.truthy_string _); [apply toLowerCase_lowered | reflexivity].
Qed.

Lemma map_get_values {V} (k : string) (m : list (string * V)) (v : V) :
  map_get k m = Some v -> In v (map snd m).
Proof.
  induction m as [|[k' v'] m IH]; cbn; [discriminate|].
  destruct (String.eqb k' k); [intros [= ->]; by left | right; by apply IH].
Qed.

(** The result is one of the eighteen listed languages or [text], with
    two exceptions: a last piece that reads [constructor] or [__proto__]
    once lowered is found on [Object.prototype], and what comes back is
    that member, not a string.  No other inherited member can be reached,
    since their names hold a capital letter. *)
Theorem getLanguage_range (fileName : string) :
  match FileService.getLanguageFromFileName fileName with
  | FileService.Named name =>
      name = "text" \/ In name (map snd FileService.languageMap)
  | FileService.NotAString member =>
      (member = "constructor" \/ member = "__proto__")
      /\ option_map FileService.toLowerCase
           (FileService.pop (FileService.split_dot fileName)) = Some member
  end.
Proof.
  unfold FileService.getLanguageFromFileName, FileService.read.
  pose proof (extension_lowered fileName) as Hlow.
  destruct (option_map FileService.toLowerCase
              (FileService.pop (FileService.split_dot fileName))) as [extension|] eqn:Hext;
    [|left; reflexivity].
  unfold Js.or_default in *.
  destruct (Js.truthy_string extension) eqn:Htruthy; [|left; reflexivity].
  destruct (map_get extension FileService.languageMap) as [value|] eqn:Hget.
  - right. apply map_get_values in Hget.
    destruct (Js.truthy_string value) eqn:Hvalue; [exact Hget|].
    unfold Js.truthy_string in Hvalue. apply negb_false_iff, String.eqb_eq in Hvalue.
    subst value. cbn in Hget. intuition discriminate.
  - destruct (existsb (String.eqb extension) FileService.object_prototype) eqn:Hin;
      [|left; reflexivity].
    apply existsb_exists in Hin as [name [Hname Heq]].
    apply String.eqb_eq in Heq. subst name.
    cbn in Hname.
    destruct Hname as [<-|[<-|[<-|[<-|[<-|[<-|[<-|[<-|[<-|[<-|[<-|[<-|[]]]]]]]]]]]]];
      try (cbn in Hlow; discriminate); split; auto.
Qed.

Lemma getLanguage_by_last_piece_witness :
  FileService.getLanguageFromFileName ("src/App.test" ++ "." ++ "TS")
  = FileService.getLanguageFromFileName ("types.d" ++ "." ++ "ts")
  /\ FileService.getLanguageFromFileName ("src/App.test" ++ "." ++ "TS")
     = FileService.getLanguageFromFileName "TS".
Proof.
  apply (getLanguage_by_last_piece "src/App.test" "types.d" "TS" "ts").
  - unfold dotless. cbn. intros [H|[H|[]]]; discriminate.
  - unfold dotless. cbn. intros [H|[H|[]]]; discriminate.
  - reflexivity.
Defined.

Example getLanguage_examples :
  FileService.getLanguageFromFileName "index.JS" = FileService.Named "javascript"
  /\ FileService.getLanguageFromFileName "archive.tar.gz" = FileService.Named "text"
  /\ FileService.getLanguageFromFileName "Makefile" = FileService.Named "text"
  /\ FileService.getLanguageFromFileName "go" = FileService.Named "go"
  /\ FileService.getLanguageFromFileName "notes." = FileService.Named "text"
  /\ FileService.getLanguageFromFileName "a.Constructor"
     = FileService.NotAString "constructor".
Proof. repeat split; reflexivity. Qed.

(** ** The sync endpoint, in full *)

Section SyncEndpoint.
Context (env : Env) (repoFullName token : string).

Local Abbreviation trace := (Sync.trace repoFullName token).
Local Abbreviation accepts := (Sync.accepts env repoFullName token).
Local Abbreviation write := (Sync.write env repoFullName token).

Lemma accepts_decided (files : list GitHubService.SyncFile) (history : list NetEvent) :
  accepts history files \/ ~ accepts history files.
Proof.
  revert history. induction files as [|file files IH]; intros history; [by left|].
  cbn. destruct (Sync.succeeds env repoFullName token history file);
    [|right; intros [? _]; discriminate].
  destruct (IH (history ++ Sync.applied repoFullName token file)%list) as [Hrest|Hrest];
    [left|right]; tauto.
Qed.

Lemma for_each_refused (files : list GitHubService.SyncFile) (w : World) :
  ~ accepts (net w) files ->
  exists w', GitHubService.for_each write files w
             = (Throw (Js.Err "Не удалось создать/обновить файл"), w').
Proof.
  revert w. induction files as [|file files IH]; intros w Hnot; [by destruct Hnot|].
  cbn [GitHubService.for_each]. unfold bind at 1.
  rewrite write_eq.
  destruct (Sync.succeeds env repoFullName token (net w) file) eqn:Hok.
  - apply IH. intros Hrest. apply Hnot. split; [exact Hok|].
    rewrite (succeeds_attempt env repoFullName token _ _ Hok) in Hrest. exact Hrest.
  - eexists. reflexivity.
Qed.

(** The endpoint answers 200 exactly when the write of every file
    succeeds, one after the other: each content can be encoded and the
    service accepts each PUT.  The log then holds one accepted PUT per file
    in list order and nothing else.  In every other case it answers 500. *)
Theorem sync_project_answers_200_iff (files : list GitHubService.SyncFile) (w : World) :
  let run := Routes.sync_project env files repoFullName token w in
  (accepts (net w) files
   <-> run = (Return (mkResponse 200 (JsonMessage "Project synced successfully")),
              append_net (trace files) w))
  /\ (accepts (net w) files ->
      Forall2 (Sync.put_accepted repoFullName token) files (trace files))
  /\ (~ accepts (net w) files
      <-> fst run = Return (mkResponse 500 (JsonMessage "Failed to sync project")))
  /\ (forall file, In file files ->
        GitHubService.latin1 (GitHubService.content file) = None ->
        fst run = Return (mkResponse 500 (JsonMessage "Failed to sync project"))).
Proof.
  cbn zeta.
  assert (Hyes : accepts (net w) files ->
    Routes.sync_project env files repoFullName token w
    = (Return (mkResponse 200 (JsonMessage "Project synced successfully")),
       append_net (trace files) w)).
  { intros Hall. unfold Routes.sync_project, try_catch, bind.
    by rewrite (sync_all_accepted env repoFullName token w files Hall). }
  assert (Hno : ~ accepts (net w) files ->
    fst (Routes.sync_project env files repoFullName token w)
    = Return (mkResponse 500 (JsonMessage "Failed to sync project"))).
  { intros Hnot. destruct (for_each_refused files w Hnot) as [w' Hrun].
    unfold Routes.sync_project, GitHubService.syncProjectToGitHub, try_catch, bind.
    fold write. by rewrite Hrun. }
  pose proof (accepts_decided files (net w)) as Hdec.
  split_and!.
  - split; [exact Hyes|].
    intros Hrun. destruct Hdec as [Hall|Hnot]; [exact Hall|].
    specialize (Hno Hnot). rewrite Hrun in Hno. discriminate.
  - apply trace_accepted.
  - split; [exact Hno|].
    intros Hrun Hall. rewrite (Hyes Hall) in Hrun. discriminate.
  - intros file Hin Hbad. apply Hno. intros Hall.
    apply (trace_accepted env) in Hall.
    clear -Hall Hin Hbad. induction Hall as [|f e fs es [bytes [Hbytes _]] _ IH];
      [destruct Hin|].
    destruct Hin as [->|Hin]; [congruence | by apply IH].
Qed.
End SyncEndpoint.

(** ** The AI endpoints *)

Section AiEndpoints.
Context (env : Env).

(** The three file endpoints never answer 200.  With a required field
    missing or empty they answer 400; otherwise they answer 500, since the
    file service's operation always fails.  In both cases no request goes
    upstream and the state is untouched. *)
Theorem ai_file_endpoints_never_succeed (w : World) :
  (forall description fileName language requirements,
      AiRoutes.generate_file env description fileName language requirements w
      = (Return (if Js.truthy_opt description && Js.truthy_opt fileName
                 then mkReply 500 (message_json "Failed to generate file")
                 else mkReply 400 (message_json "Description and fileName are required")),
         w))
  /\ (forall fileContent editInstructions language,
        AiRoutes.edit_file env fileContent editInstructions language w
        = (Return (if Js.truthy_opt fileContent && Js.truthy_opt editInstructions
                   then mkReply 500 (message_json "Failed to edit file")
                   else mkReply 400
                          (message_json "FileContent and editInstructions are required")),
           w))
  /\ (forall code language,
        AiRoutes.analyze_code env code language w
        = (Return (if Js.truthy_opt code
                   then mkReply 500 (message_json "Failed to analyze code")
                   else mkReply 400 (message_json "Code is required")),
           w)).
Proof.
  split_and!.
  - intros [description|] [fileName|] language requirements; try reflexivity.
    + unfold AiRoutes.generate_file, try_catch. cbn [Js.truthy_opt].
      destruct (Js.truthy_string description); [|reflexivity].
      destruct (Js.truthy_string fileName); [|reflexivity].
      cbn [negb orb andb]. unfold bind.
      unfold FileService.generateFileContent, try_catch, bind. cbn zeta.
      by rewrite generateResponse_string_arg.
    + unfold AiRoutes.generate_file, try_catch. cbn [Js.truthy_opt].
      by destruct (Js.truthy_string description).
  - intros [fileContent|] [editInstructions|] language; try reflexivity.
    + unfold AiRoutes.edit_file, try_catch. cbn [Js.truthy_opt].
      destruct (Js.truthy_string fileContent); [|reflexivity].
      destruct (Js.truthy_string editInstructions); [|reflexivity].
      cbn [negb orb andb]. unfold bind.
      unfold FileService.editFileContent, try_catch, bind. cbn zeta.
      by rewrite generateResponse_string_arg.
    + unfold AiRoutes.edit_file, try_catch. cbn [Js.truthy_opt].
      by destruct (Js.truthy_string fileContent).
  - intros [code|] language; [|reflexivity].
    unfold AiRoutes.analyze_code, try_catch. cbn [Js.truthy_opt].
    destruct (Js.truthy_string code); [|reflexivity].
    cbn [negb]. unfold bind.
    unfold FileService.analyzeCode, try_catch, bind. cbn zeta.
    by rewrite generateResponse_string_arg.
Qed.

(** The chat endpoint never throws.  Without a message it answers 400 and
    sends nothing.  With one, and a history that can be spread (an array, a
    string, or nothing, read as no turns), it sends one request: the given
    system prompt or the default one, the turns of the history, then the
    message, under [gpt-4o], 0.7 and 500 tokens; it answers 200 with the
    reply, or with the gateway's fallback sentence when the reply is empty,
    and 500 when the request fails or has no choice.  A history that
    cannot be spread is answered 500 without a request. *)
Theorem chat_endpoint (w : World) (message systemPrompt history : Js.Val) :
  let run := AiRoutes.chat env message systemPrompt history w in
  let prompt := AiRoutes.or systemPrompt (Js.Str AiRoutes.default_system_prompt) in
  (AiRoutes.truthy message = false ->
   run = (Return (mkReply 400 (message_json "Message is required")), w))
  /\ (forall turns,
        AiRoutes.truthy message = true ->
        Js.spread (AiRoutes.or history (Js.Arr [])) = inl turns ->
        let request := chat_request message prompt turns in
        let ok := net_ok env (net w) (OpenAICreate request) in
        run = (Return (chat_reply
                         (gateway_result "Извините, не удалось сгенерировать ответ." ok
                            (completion env (net w) request))),
               logged (OpenAICreate request, ok) w))
  /\ (forall e,
        AiRoutes.truthy message = true ->
        Js.spread (AiRoutes.or history (Js.Arr [])) = inr e ->
        run = (Return (mkReply 500 (message_json "Failed to process AI chat")), w)).
Proof.
  cbn zeta. unfold AiRoutes.chat. split_and!.
  - intros ->. reflexivity.
  - intros turns -> Hturns. cbn [negb].
    unfold try_catch at 1. unfold bind at 1. rewrite generateResponse_is_second.
    unfold OpenAIService.generateResponse_2, OpenAIService.create,
      OpenAIService.first_content, gateway_result, chat_reply. run. cbn.
    rewrite Hturns. cbn.
    fold (chat_request message
            (AiRoutes.or systemPrompt (Js.Str AiRoutes.default_system_prompt)) turns).
    destruct (net_ok env (net w) _); [|reflexivity].
    destruct (choices _); reflexivity.
  - intros e -> Hturns. cbn [negb].
    unfold try_catch at 1. unfold bind at 1. rewrite generateResponse_is_second.
    unfold OpenAIService.generateResponse_2. run. cbn.
    by rewrite Hturns.
Qed.
End AiEndpoints.

Example chat_examples :
  AiRoutes.chat Fixtures.friendly (Js.Str "hi") Js.Undefined (Js.Number (Js.of_Z 3))
    empty_world
  = (Return (mkReply 500 (message_json "Failed to process AI chat")), empty_world)
  /\ AiRoutes.chat Fixtures.friendly (Js.Str "") Js.Undefined Js.Undefined empty_world
     = (Return (mkReply 400 (message_json "Message is required")), empty_world)
  /\ fst (AiRoutes.chat Fixtures.friendly (Js.Str "hi") Js.Undefined Js.Undefined
            empty_world)
     = Return (mkReply 200 (Js.Obj [("response", Js.Str "Hello!")])).
Proof. repeat split; reflexivity. Qed.
